(** * MCP Security Auditor: discovery, security probing, scoring and reports

    A shallow embedding of [SecurityAnalyzer] (services/security-analyzer.ts),
    of [DiscoveryService] (services/discovery.ts), of [ReportGenerator]
    (services/report-generator.ts), of [MCPSecurityAuditor] (index.ts) and of
    the helpers of the command line (cli/index.ts), with the data model of
    types.ts, followed by the properties of the specification that were
    checked against it and by further properties of the code.

    Conventions of the embedding.
    - A JavaScript number that holds an integer (HTTP status, port, epoch
      milliseconds) is a [Z].  The Scorer, whose numbers need not be
      integers, is written over a class of numbers and run on binary64.
    - An object used as a dictionary (the response headers) is a [gmap].
    - [async] functions are computations in the monad [Js]: they thread the
      mutable state they own and end in a value or in a thrown value; a
      promise is identified with the way it settles.
    - A loop that the code cannot be shown to leave takes a number of
      turns, and answers [None] when they do not suffice.
    - Everything the code reads from outside (network, clock, URL parser,
      file system) is a field of a record: [World] for the analyzer, [Env]
      for each of the other services. *)

From Stdlib Require Import ZArith QArith Ascii String Permutation SpecFloat.
From stdpp Require Import base decidable option list strings gmap pretty.

Local Open Scope string_scope.
Local Open Scope list_scope.
Local Open Scope Z_scope.

(** ** Enumerations of types.ts *)

Module SecurityScore.
Inductive t := EXCELLENT | GOOD | FAIR | POOR | CRITICAL.

(** The letter each member stands for. *)
Definition letter (s : t) : string :=
  match s with
  | EXCELLENT => "A" | GOOD => "B" | FAIR => "C" | POOR => "D" | CRITICAL => "F"
  end.

#[global] Instance eq_dec : EqDecision t.
Proof. solve_decision. Defined.
End SecurityScore.

Module CheckStatus.
Inductive t := PASS | FAIL | WARNING | SKIP | ERROR.

(** The string each member stands for. *)
Definition text (s : t) : string :=
  match s with
  | PASS => "pass" | FAIL => "fail" | WARNING => "warning" | SKIP => "skip"
  | ERROR => "error"
  end.

#[global] Instance eq_dec : EqDecision t.
Proof. solve_decision. Defined.
End CheckStatus.

Module Severity.
(** The five members of the enum; [OTHER] stands for a run-time value
    outside the enum, the one the [default] of a [switch] receives. *)
Inductive t := CRITICAL | HIGH | MEDIUM | LOW | INFO | OTHER (raw : string).

Definition text (s : t) : string :=
  match s with
  | CRITICAL => "critical" | HIGH => "high" | MEDIUM => "medium" | LOW => "low"
  | INFO => "info" | OTHER raw => raw
  end.

#[global] Instance eq_dec : EqDecision t.
Proof. solve_decision. Defined.
End Severity.

Module SecurityCategory.
Inductive t :=
| AUTHENTICATION | AUTHORIZATION | ENCRYPTION | NETWORK
| CONFIGURATION | COMPLIANCE | AVAILABILITY | DATA_PROTECTION.

Definition text (c : t) : string :=
  match c with
  | AUTHENTICATION => "authentication" | AUTHORIZATION => "authorization"
  | ENCRYPTION => "encryption" | NETWORK => "network"
  | CONFIGURATION => "configuration" | COMPLIANCE => "compliance"
  | AVAILABILITY => "availability" | DATA_PROTECTION => "data-protection"
  end.

#[global] Instance eq_dec : EqDecision t.
Proof. solve_decision. Defined.
End SecurityCategory.

Module Protocol.
(** ['http' | 'https' | 'ws' | 'wss'] *)
Inductive t := http | https | ws | wss.

#[global] Instance eq_dec : EqDecision t.
Proof. solve_decision. Defined.
End Protocol.

(** ** Records of types.ts

    An optional field [f?: T] is an [option T]. *)

Module RateLimit.
Record t := mk { requests : Z; window : string }.
End RateLimit.

Module MCPServerMetadata.
Record t := mk {
  capabilities : option (list string);
  authentication : option string;
  rateLimit : option RateLimit.t;
  documentation : option string;
  repository : option string;
  license : option string;
  tags : option (list string)
}.
End MCPServerMetadata.

Module MCPServer.
Record t := mk {
  id : string;
  name : string;
  version : string;
  description : option string;
  endpoint : string;
  protocol : Protocol.t;
  owner : option string;
  lastSeen : Z;
  metadata : option MCPServerMetadata.t
}.
End MCPServer.

Module SecurityCheck.
Record t := mk {
  id : string;
  name : string;
  category : SecurityCategory.t;
  status : CheckStatus.t;
  severity : Severity.t;
  description : string;
  details : option string;
  evidence : option string
}.

#[global] Instance eq_dec : EqDecision t.
Proof. solve_decision. Defined.
End SecurityCheck.

Module SecurityRecommendation.
Record t := mk {
  id : string;
  title : string;
  description : string;
  severity : Severity.t;
  category : SecurityCategory.t;
  actionRequired : bool;
  resources : option (list string)
}.

#[global] Instance eq_dec : EqDecision t.
Proof. solve_decision. Defined.
End SecurityRecommendation.

Module Vulnerability.
Record t := mk {
  id : string;
  cve : option string;
  title : string;
  description : string;
  severity : Severity.t;
  category : SecurityCategory.t;
  affected : string;
  remediation : option string;
  references : option (list string)
}.

#[global] Instance eq_dec : EqDecision t.
Proof. solve_decision. Defined.
End Vulnerability.

Module SecurityAnalysisResult.
Record t := mk {
  serverId : string;
  serverName : string;
  endpoint : string;
  timestamp : Z;
  overallScore : SecurityScore.t;
  checks : list SecurityCheck.t;
  recommendations : list SecurityRecommendation.t;
  vulnerabilities : list Vulnerability.t
}.
End SecurityAnalysisResult.

Module DiscoveryResult.
Record t := mk {
  source : string;
  servers : list MCPServer.t;
  errors : list string;
  duration : Z
}.
End DiscoveryResult.

(** ** Thrown values and settled promises *)

(** What a [catch] clause or a rejected promise can hold: an [Error] object
    (with its [name] and [message]), the [SecurityAnalysisError] of types.ts
    (an [Error] too, carrying [{ server, error }] as its details), or any
    other value, kept as the text [String(value)]. *)
Inductive thrown :=
| ErrorObject (name message : string)
| SecurityAnalysisError (message : string) (server : MCPServer.t) (error : thrown)
| OtherValue (text : string).

(** [error instanceof Error] *)
Definition instanceofError (error : thrown) : bool :=
  match error with
  | ErrorObject _ _ | SecurityAnalysisError _ _ _ => true
  | OtherValue _ => false
  end.

Definition errorName (error : thrown) : string :=
  match error with
  | ErrorObject name _ => name
  | SecurityAnalysisError _ _ _ => "SecurityAnalysisError"
  | OtherValue _ => ""
  end.

Definition errorMessage (error : thrown) : string :=
  match error with
  | ErrorObject _ message | SecurityAnalysisError message _ _ => message
  | OtherValue _ => ""
  end.

(** [`${error}`]: [Error.prototype.toString] for an [Error], [String(value)]
    otherwise. *)
Definition toString (error : thrown) : string :=
  if instanceofError error then
    if String.eqb (errorName error) "" then errorMessage error
    else if String.eqb (errorMessage error) "" then errorName error
    else errorName error +:+ ": " +:+ errorMessage error
  else match error with OtherValue text => text | _ => "" end.

(** [error instanceof Error ? error.message : 'Unknown error'] *)
Definition messageOrUnknown (error : thrown) : string :=
  if instanceofError error then errorMessage error else "Unknown error".

(** The way a promise settles, as [Promise.allSettled] reports it. *)
Inductive settled (A : Type) :=
| fulfilled (value : A)
| rejected (reason : thrown).
Arguments fulfilled {A} value.
Arguments rejected {A} reason.

(** ** The monad of function bodies

    A body that owns mutable state of type [S] (the arrays it pushes on, the
    console) maps the state before to the state after and to the way it
    ends.  State written before a [throw] stays written. *)

Definition Js (S A : Type) : Type := S -> S * settled A.

Definition ret {S A} (a : A) : Js S A := fun s => (s, fulfilled a).

Definition throw {S A} (e : thrown) : Js S A := fun s => (s, rejected e).

Definition bind {S A B} (m : Js S A) (k : A -> Js S B) : Js S B :=
  fun s =>
    match m s with
    | (s', fulfilled a) => k a s'
    | (s', rejected e) => (s', rejected e)
    end.

(** [try { body } catch (error) { handler }] *)
Definition tryCatch {S A} (body : Js S A) (handler : thrown -> Js S A) : Js S A :=
  fun s =>
    match body s with
    | (s', fulfilled a) => (s', fulfilled a)
    | (s', rejected e) => handler e s'
    end.

(** [await p], for a promise that settles as [p]. *)
Definition await {S A} (p : settled A) : Js S A := fun s => (s, p).

Definition modify {S} (f : S -> S) : Js S unit := fun s => (f s, fulfilled tt).

Declare Scope js_scope.
Delimit Scope js_scope with js.
Notation "x <- m ;; k" := (bind m (fun x => k))
  (at level 100, m at next level, right associativity) : js_scope.
Notation "m ;;; k" := (bind m (fun _ => k))
  (at level 100, right associativity) : js_scope.
Local Open Scope js_scope.

(** ** Numbers

    The Scorer holds the only arithmetic of the code on numbers that need
    not be integers.  It is written below once, over the operations it
    uses, and read in two ways: in binary64, the numbers of JavaScript (by
    [SpecFloat], the executable specification of IEEE 754 of the Standard
    Library), and in exact rational arithmetic. *)

Class Number (N : Type) := {
  (** an integer literal: [10], [100] *)
  literal : Z -> N;
  (** the literal [0.5] *)
  half : N;
  plus : N -> N -> N;
  times : N -> N -> N;
  divide : N -> N -> N;
  (** [x === y] *)
  strictEquals : N -> N -> bool;
  (** [x >= y] *)
  atLeast : N -> N -> bool
}.

Module Binary64.

Definition prec : Z := 53.
Definition emax : Z := 1024.

(** The binary64 number nearest to [m * 2^e]. *)
Definition ofZ (m e : Z) : spec_float := binary_normalize prec emax m e false.

(** The binary64 number of [k] halves. *)
Definition halves (k : Z) : spec_float := ofZ k (-1).

#[global] Instance number : Number spec_float := {|
  literal z := ofZ z 0;
  half := ofZ 1 (-1);
  plus := SFadd prec emax;
  times := SFmul prec emax;
  divide := SFdiv prec emax;
  strictEquals := SFeqb;
  atLeast x y := SFleb y x
|}.

End Binary64.

Module Exact.

#[global] Instance number : Number Q := {|
  literal := inject_Z;
  half := 1 # 2;
  plus := Qplus;
  times := Qmult;
  divide := Qdiv;
  strictEquals := Qeq_bool;
  atLeast x y := Qle_bool y x
|}.

End Exact.

(** ** The Scorer: [calculateSecurityScore] and [getSeverityWeight] *)

Module Scorer.
Section Numbers.
Context {N : Type} {number : Number N}.

(** [getSeverityWeight] *)
Definition getSeverityWeight (severity : Severity.t) : N :=
  match severity with
  | Severity.CRITICAL => literal 10
  | Severity.HIGH => literal 8
  | Severity.MEDIUM => literal 5
  | Severity.LOW => literal 2
  | Severity.INFO => literal 1
  | Severity.OTHER _ => literal 1
  end.

(** What [calculateSecurityScore] can reach while it runs: the array it was
    handed and its two local counters. *)
Record Frame := mkFrame {
  checks : list SecurityCheck.t;
  totalScore : N;
  maxScore : N
}.

(** [checks.forEach(callback)]: the indices below the length the array had
    when the loop began are visited in order, each element read from the
    array as it is at that moment. *)
Definition forEach (callback : SecurityCheck.t -> Frame -> Frame) (fr : Frame) : Frame :=
  foldl
    (fun fr k => match checks fr !! k with Some check => callback check fr | None => fr end)
    fr (seq 0 (length (checks fr))).

(** The arrow function handed to [forEach]. *)
Definition callback (check : SecurityCheck.t) (fr : Frame) : Frame :=
  let severityWeight := getSeverityWeight (SecurityCheck.severity check) in
  let fr := mkFrame (checks fr) (totalScore fr) (plus (maxScore fr) severityWeight) in
  match SecurityCheck.status check with
  | CheckStatus.PASS =>
      mkFrame (checks fr) (plus (totalScore fr) severityWeight) (maxScore fr)
  | CheckStatus.WARNING =>
      mkFrame (checks fr) (plus (totalScore fr) (times severityWeight half)) (maxScore fr)
  | _ => fr
  end.

(** The state in which the loop of [calculateSecurityScore] ends. *)
Definition scored (checks : list SecurityCheck.t) : Frame :=
  forEach callback (mkFrame checks (literal 0) (literal 0)).

(** The lines after the loop. *)
Definition grade (fr : Frame) : SecurityScore.t :=
  if strictEquals (maxScore fr) (literal 0) then SecurityScore.FAIR
  else
    let percentage := times (divide (totalScore fr) (maxScore fr)) (literal 100) in
    if atLeast percentage (literal 90) then SecurityScore.EXCELLENT
    else if atLeast percentage (literal 80) then SecurityScore.GOOD
    else if atLeast percentage (literal 60) then SecurityScore.FAIR
    else if atLeast percentage (literal 40) then SecurityScore.POOR
    else SecurityScore.CRITICAL.

Definition calculateSecurityScore (checks : list SecurityCheck.t) : SecurityScore.t :=
  grade (scored checks).

End Numbers.
Arguments Frame N : clear implicits.
End Scorer.

(** ** The Scorer in the words of the specification (section 4.3) *)

#[global] Instance Qeq_decision (x y : Q) : Decision (x == y)%Q := Qeq_dec x y.

#[global] Instance Qle_decision (x y : Q) : Decision (x <= y)%Q :=
  match Qlt_le_dec y x with
  | left lt => right (Qlt_not_le y x lt)
  | right le => left le
  end.

Module ScorerSpec.

Definition weight (severity : Severity.t) : Z :=
  match severity with
  | Severity.CRITICAL => 10
  | Severity.HIGH => 8
  | Severity.MEDIUM => 5
  | Severity.LOW => 2
  | Severity.INFO => 1
  | Severity.OTHER _ => 1
  end.

(** What one check adds to [totalScore]: its weight when it passed, half
    of it for a warning, nothing otherwise. *)
Definition gained (check : SecurityCheck.t) : Q :=
  match SecurityCheck.status check with
  | CheckStatus.PASS => inject_Z (weight (SecurityCheck.severity check))
  | CheckStatus.WARNING => inject_Z (weight (SecurityCheck.severity check)) / 2
  | _ => 0
  end%Q.

Definition maxScore (checks : list SecurityCheck.t) : Q :=
  foldr (fun check acc => inject_Z (weight (SecurityCheck.severity check)) + acc)%Q 0%Q checks.

Definition totalScore (checks : list SecurityCheck.t) : Q :=
  foldr (fun check acc => gained check + acc)%Q 0%Q checks.

(** The same two sums as integers, [totalScore] counted in halves. *)
Definition weightSum (checks : list SecurityCheck.t) : Z :=
  foldr (fun check acc => weight (SecurityCheck.severity check) + acc) 0 checks.

Definition gainedHalves (check : SecurityCheck.t) : Z :=
  match SecurityCheck.status check with
  | CheckStatus.PASS => 2 * weight (SecurityCheck.severity check)
  | CheckStatus.WARNING => weight (SecurityCheck.severity check)
  | _ => 0
  end.

Definition halvesSum (checks : list SecurityCheck.t) : Z :=
  foldr (fun check acc => gainedHalves check + acc) 0 checks.

Definition percentage (checks : list SecurityCheck.t) : Q :=
  (100 * totalScore checks / maxScore checks)%Q.

Definition grade (checks : list SecurityCheck.t) : SecurityScore.t :=
  if decide (maxScore checks == 0)%Q then SecurityScore.FAIR
  else if decide (90 <= percentage checks)%Q then SecurityScore.EXCELLENT
  else if decide (80 <= percentage checks)%Q then SecurityScore.GOOD
  else if decide (60 <= percentage checks)%Q then SecurityScore.FAIR
  else if decide (40 <= percentage checks)%Q then SecurityScore.POOR
  else SecurityScore.CRITICAL.

End ScorerSpec.


(** ** Strings *)

Module JsString.

Definition isUpper (c : ascii) : bool :=
  let n := nat_of_ascii c in ((65 <=? n) && (n <=? 90))%nat.

Definition isAlnum (c : ascii) : bool :=
  let n := nat_of_ascii c in
  (((48 <=? n) && (n <=? 57)) || ((65 <=? n) && (n <=? 90))
   || ((97 <=? n) && (n <=? 122)))%nat.

Definition lowerAscii (c : ascii) : ascii :=
  if isUpper c then ascii_of_nat (nat_of_ascii c + 32) else c.

(** [s.toLowerCase()], on the ASCII letters. *)
Fixpoint toLowerCase (s : string) : string :=
  match s with
  | EmptyString => EmptyString
  | String c s' => String (lowerAscii c) (toLowerCase s')
  end.

(** [s.replace(/\/$/, '')]: a slash that ends the string is removed. *)
Fixpoint replaceTrailingSlash (s : string) : string :=
  match s with
  | EmptyString => EmptyString
  | String c s' =>
      match s' with
      | EmptyString => if Ascii.eqb c "/" then EmptyString else s
      | String _ _ => String c (replaceTrailingSlash s')
      end
  end.

(** [s.replace('/', '-')]: the first slash becomes a dash. *)
Fixpoint replaceFirstSlash (s : string) : string :=
  match s with
  | EmptyString => EmptyString
  | String c s' =>
      if Ascii.eqb c "/" then String "-" s' else String c (replaceFirstSlash s')
  end.

(** [pattern], written in lower case, starts [s] when case is ignored. *)
Fixpoint startsWithCI (pattern s : string) : bool :=
  match pattern, s with
  | EmptyString, _ => true
  | String p pattern', String c s' =>
      Ascii.eqb p (lowerAscii c) && startsWithCI pattern' s'
  | String _ _, EmptyString => false
  end.

Fixpoint dropString (n : nat) (s : string) : string :=
  match n, s with
  | O, _ => s
  | S n', String _ s' => dropString n' s'
  | S _, EmptyString => EmptyString
  end.

(** What follows the leftmost occurrence of [pattern] in [s], case
    ignored. *)
Fixpoint afterCI (pattern s : string) : option string :=
  if startsWithCI pattern s then Some (dropString (String.length pattern) s)
  else match s with
       | EmptyString => None
       | String _ s' => afterCI pattern s'
       end.

(** [s] holds [n] alphanumeric characters in a row; [run] counts the ones
    just read. *)
Fixpoint hasAlnumRun (n run : nat) (s : string) : bool :=
  (n <=? run)%nat ||
  match s with
  | EmptyString => false
  | String c s' => if isAlnum c then hasAlnumRun n (S run) s' else hasAlnumRun n 0 s'
  end.

(** The lines of [s]: the dot of a regular expression stops at a line
    terminator (LF, CR, and U+2028 or U+2029, which are the bytes
    E2 80 A8 and E2 80 A9).  The two bytes left of a three-byte terminator
    begin the next line; no pattern below can match them. *)
Definition startsLineTerminator (c : ascii) (rest : string) : bool :=
  match nat_of_ascii c with
  | 10%nat | 13%nat => true
  | 226%nat =>
      match rest with
      | String c1 (String c2 _) =>
          (nat_of_ascii c1 =? 128)%nat
          && ((nat_of_ascii c2 =? 168) || (nat_of_ascii c2 =? 169))%nat
      | _ => false
      end
  | _ => false
  end.

Fixpoint splitLines (s : string) : list string :=
  match s with
  | EmptyString => [EmptyString]
  | String c s' =>
      if startsLineTerminator c s' then EmptyString :: splitLines s'
      else match splitLines s' with
           | line :: lines => String c line :: lines
           | [] => [String c EmptyString]
           end
  end.

(** [/a/i.test(s)] for a literal [a]. *)
Definition testLiteral (a s : string) : bool :=
  bool_decide (is_Some (afterCI a s)).

(** [/a.*b/i.test(s)] for literals [a] and [b]. *)
Definition testThen (a b s : string) : bool :=
  existsb
    (fun line =>
       match afterCI a line with
       | Some rest => bool_decide (is_Some (afterCI b rest))
       | None => false
       end)
    (splitLines s).

(** [/a.*b.*[a-zA-Z0-9]{n,}/i.test(s)] for literals [a] and [b]. *)
Definition testThenRun (a b : string) (n : nat) (s : string) : bool :=
  existsb
    (fun line =>
       match afterCI a line with
       | Some rest =>
           match afterCI b rest with
           | Some rest' => hasAlnumRun n 0 rest'
           | None => false
           end
       | None => false
       end)
    (splitLines s).

(** [parseInt(s)] for the [port] of a [URL], which is empty or a decimal
    numeral: the value of the leading digits, [None] (NaN) without one. *)
Fixpoint digits (s : string) (acc : option Z) : option Z :=
  match s with
  | EmptyString => acc
  | String c s' =>
      let n := nat_of_ascii c in
      if ((48 <=? n) && (n <=? 57))%nat
      then digits s' (Some (10 * default 0 acc + Z.of_nat (n - 48)))
      else acc
  end.

Definition parseInt (s : string) : option Z := digits s None.

(** [s.startsWith(prefix)] *)
Fixpoint startsWith (prefix s : string) : bool :=
  match prefix, s with
  | EmptyString, _ => true
  | String p prefix', String c s' => Ascii.eqb p c && startsWith prefix' s'
  | String _ _, EmptyString => false
  end.

(** [s.endsWith(suffix)] *)
Definition endsWith (suffix s : string) : bool :=
  (String.length suffix <=? String.length s)%nat
  && String.eqb (dropString (String.length s - String.length suffix) s) suffix.

Definition isLowerOrDigit (c : ascii) : bool :=
  let n := nat_of_ascii c in
  (((97 <=? n) && (n <=? 122)) || ((48 <=? n) && (n <=? 57)))%nat.

(** [s.replace(/[^a-z0-9]/g, '-')] *)
Fixpoint replaceNonLowerOrDigit (s : string) : string :=
  match s with
  | EmptyString => EmptyString
  | String c s' =>
      String (if isLowerOrDigit c then c else "-"%char) (replaceNonLowerOrDigit s')
  end.

Definition isLower (c : ascii) : bool :=
  let n := nat_of_ascii c in ((97 <=? n) && (n <=? 122))%nat.

Definition upperAscii (c : ascii) : ascii :=
  if isLower c then ascii_of_nat (nat_of_ascii c - 32) else c.

(** [s.toUpperCase()], on the ASCII letters. *)
Fixpoint toUpperCase (s : string) : string :=
  match s with
  | EmptyString => EmptyString
  | String c s' => String (upperAscii c) (toUpperCase s')
  end.

End JsString.

(** ** Dates

    A [Date] is its time value, [None] for an invalid date (NaN). *)

Module JsDate.

Definition t := option Z.

(** TimeClip: a time value beyond 8.64e15 ms is not a date. *)
Definition timeClip (ms : Z) : t :=
  if Z.abs ms <=? 8640000000000000 then Some ms else None.

(** [a <= b] and [a >= b] on dates: false as soon as one side is NaN. *)
Definition le (a b : t) : bool :=
  match a, b with
  | Some x, Some y => x <=? y
  | _, _ => false
  end.

Definition ge (a b : t) : bool := le b a.

(** [n] in decimal, padded with zeros to [width] digits. *)
Definition padded (width : nat) (n : Z) : string :=
  let digits := pretty n in
  String.concat "" (replicate (width - String.length digits) "0") +:+ digits.

(** The civil date of a day number counted from 1970-01-01, in the
    proleptic Gregorian calendar: year, month (1 to 12), day (1 to 31). *)
Definition civilFromDays (days : Z) : Z * Z * Z :=
  let z := days + 719468 in
  let era := z / 146097 in
  let doe := z - era * 146097 in
  let yoe := (doe - doe / 1460 + doe / 36524 - doe / 146096) / 365 in
  let doy := doe - (365 * yoe + yoe / 4 - yoe / 100) in
  let mp := (5 * doy + 2) / 153 in
  let d := doy - (153 * mp + 2) / 5 + 1 in
  let m := if mp <? 10 then mp + 3 else mp - 9 in
  let y := yoe + era * 400 + (if m <=? 2 then 1 else 0) in
  (y, m, d).

(** [date.toISOString()] for a valid date of time value [ms]:
    [YYYY-MM-DDTHH:mm:ss.sssZ], the year with a sign and six digits when
    it is outside 0..9999. *)
Definition toISOString (ms : Z) : string :=
  let '(y, m, d) := civilFromDays (ms / 86400000) in
  let inDay := ms mod 86400000 in
  let year :=
    if (0 <=? y) && (y <=? 9999) then padded 4 y
    else (if y <? 0 then "-" else "+") +:+ padded 6 (Z.abs y) in
  year +:+ "-" +:+ padded 2 m +:+ "-" +:+ padded 2 d +:+ "T"
  +:+ padded 2 (inDay / 3600000) +:+ ":"
  +:+ padded 2 (inDay mod 3600000 / 60000) +:+ ":"
  +:+ padded 2 (inDay mod 60000 / 1000) +:+ "."
  +:+ padded 3 (inDay mod 1000) +:+ "Z".

End JsDate.

(** ** The outside world *)

Module AxiosResponse.
(** [response.data] is a string, or any other value, kept as the text
    [JSON.stringify] makes of it. *)
Inductive body :=
| DataString (text : string)
| DataOther (json : string).

Record t := mk {
  status : Z;
  statusText : string;
  headers : gmap string string;
  data : body
}.
End AxiosResponse.

Module URL.
Record t := mk { hostname : string; port : string }.
End URL.

Module PeerCertificate.
(** The object [socket.getPeerCertificate()] answers with: the dates of
    the certificate are its properties [valid_from] and [valid_to], two
    strings such as ["Jan  1 00:00:00 2022 GMT"]. *)
Record t := mk { valid_from : string; valid_to : string }.

(** [new Date(certInfo.validFrom)] and [new Date(certInfo.validTo)]: the
    object has no property of either name, each read gives [undefined],
    and [new Date(undefined)] is an invalid date. *)
Definition validFrom (certInfo : t) : JsDate.t := None.
Definition validTo (certInfo : t) : JsDate.t := None.
End PeerCertificate.

Module TLSVersion.
Inductive t := SSLv3 | TLSv1 | TLSv1_1 | TLSv1_2 | TLSv1_3.
End TLSVersion.

(** Which method of [SecurityAnalyzer] sends a GET: each sends its own,
    and the network need not answer them alike. *)
Inductive Caller :=
| CheckEndpointAvailability | CheckAuthentication | CheckHttpSecurity | CheckAPIEndpoints.

(** What happens first on a [new WebSocket(endpoint)]. *)
Inductive WebSocketEvent :=
| WsConstructorThrows (error : thrown)
| WsOpen
| WsError (error : thrown)
| WsNothing.

(** What happens first on a [tls.connect(port, hostname)]: the handshake
    ends (and the socket then knows the negotiated protocol and the peer
    certificate, a missing one being falsy), an error, or nothing within
    the timeout. *)
Inductive TlsEvent :=
| TlsSecureConnect (protocol : TLSVersion.t) (certificate : option PeerCertificate.t)
| TlsError (error : thrown)
| TlsNothing.

Record World := mkWorld {
  (** [new Date()] at the start of [analyzeServer] *)
  now_analyzeServer : Z;
  (** [new Date()] in [checkSSLConfiguration] *)
  now_checkSSLConfiguration : Z;
  (** [new URL(endpoint)] *)
  newURL : string -> settled URL.t;
  (** [axios.get(url, ...)] with [validateStatus: () => true] *)
  axios_get : Caller -> string -> settled AxiosResponse.t;
  (** [axios.options(url, ...)] of the CORS probe *)
  axios_options : string -> settled AxiosResponse.t;
  webSocket : string -> WebSocketEvent;
  tls_connect : Z -> string -> TlsEvent
}.

(** ** Findings of a probe and the console *)

Module Findings.
Record t := mk {
  checks : list SecurityCheck.t;
  recommendations : list SecurityRecommendation.t;
  vulnerabilities : list Vulnerability.t
}.

Definition empty : t := mk [] [] [].
End Findings.

Inductive ConsoleLine :=
| console_log (text : string)
| console_warn (text : string) (reason : thrown)
| console_error (text : string) (error : option thrown).

Definition Console := list ConsoleLine.

Definition log (line : ConsoleLine) : Js Console unit :=
  modify (fun console => console ++ [line]).

(** [checks.push(check)], [recommendations.push(r)], [vulnerabilities.push(v)]
    on the three local arrays of a probe. *)
Definition pushCheck (check : SecurityCheck.t) : Js Findings.t unit :=
  modify (fun f =>
    Findings.mk (Findings.checks f ++ [check]) (Findings.recommendations f)
      (Findings.vulnerabilities f)).

Definition pushRecommendation (r : SecurityRecommendation.t) : Js Findings.t unit :=
  modify (fun f =>
    Findings.mk (Findings.checks f) (Findings.recommendations f ++ [r])
      (Findings.vulnerabilities f)).

Definition pushVulnerability (v : Vulnerability.t) : Js Findings.t unit :=
  modify (fun f =>
    Findings.mk (Findings.checks f) (Findings.recommendations f)
      (Findings.vulnerabilities f ++ [v])).

(** [return { checks, recommendations, vulnerabilities }] *)
Definition returnFindings : Js Findings.t Findings.t := fun f => (f, fulfilled f).

(** The promise of an [async] probe: its body runs on three empty arrays. *)
Definition async {A} (body : Js Findings.t A) : settled A := snd (body Findings.empty).

(** Truthiness of a header value: [undefined] and [''] are falsy. *)
Definition truthy (value : option string) : bool :=
  match value with
  | Some text => negb (String.eqb text "")
  | None => false
  end.

(** [a || b] *)
Definition orElse (a b : option string) : option string := if truthy a then a else b.

(** ** [SecurityAnalyzer]: the probes *)

Module SecurityAnalyzer.

Definition requestTimeout : Z := 10000.
Definition maxRedirects : Z := 5.

(** [checkWebSocketAvailability]: the promise resolves on [open] and
    rejects on [error], on the timeout, and when the constructor throws
    inside the executor. *)
Definition checkWebSocketAvailability (w : World) (endpoint : string) : settled unit :=
  match webSocket w endpoint with
  | WsConstructorThrows error => rejected error
  | WsOpen => fulfilled tt
  | WsError error => rejected error
  | WsNothing => rejected (ErrorObject "Error" "WebSocket connection timeout")
  end.

(** [getCertificateInfo] *)
Definition getCertificateInfo (w : World) (hostname : string) (port : Z)
  : settled (option PeerCertificate.t) :=
  match tls_connect w port hostname with
  | TlsSecureConnect _ cert => fulfilled cert
  | TlsError error => rejected error
  | TlsNothing => rejected (ErrorObject "Error" "Certificate check timeout")
  end.

Module TLSInfo.
Record t := mk { supportsTLS12 : bool; supportsTLS13 : bool }.
End TLSInfo.

(** [checkTLSConfiguration]: the two flags are placeholders. *)
Definition checkTLSConfiguration (hostname : string) (port : Z) : settled (option TLSInfo.t) :=
  fulfilled (Some (TLSInfo.mk true true)).

(** [containsSensitiveInfo] *)
Definition containsSensitiveInfo (data : AxiosResponse.body) : bool :=
  let data :=
    match data with
    | AxiosResponse.DataString text => text
    | AxiosResponse.DataOther json => json
    end in
  let sensitivePatterns := [
    JsString.testLiteral "password";
    JsString.testLiteral "secret";
    JsString.testLiteral "token";
    JsString.testThenRun "key" "=" 20;
    JsString.testThen "api" "key";
    JsString.testThen "private" "key"
  ] in
  existsb (fun pattern => pattern data) sensitivePatterns.

(** [checkEndpointAvailability] *)
Definition checkEndpointAvailability (w : World) (server : MCPServer.t)
  : settled Findings.t :=
  async (
    tryCatch
      (if bool_decide (MCPServer.protocol server = Protocol.ws)
          || bool_decide (MCPServer.protocol server = Protocol.wss)
       then
         _ <- await (checkWebSocketAvailability w (MCPServer.endpoint server)) ;;
         pushCheck (SecurityCheck.mk
           "endpoint-availability-ws"
           "WebSocket Endpoint Availability"
           SecurityCategory.AVAILABILITY
           CheckStatus.PASS
           Severity.HIGH
           "WebSocket endpoint is accessible and responding"
           None None)
       else
         response <- await (axios_get w CheckEndpointAvailability (MCPServer.endpoint server)) ;;
         if (200 <=? AxiosResponse.status response) && (AxiosResponse.status response <? 300)
         then
           pushCheck (SecurityCheck.mk
             "endpoint-availability-http"
             "HTTP Endpoint Availability"
             SecurityCategory.AVAILABILITY
             CheckStatus.PASS
             Severity.HIGH
             "HTTP endpoint is accessible and responding normally"
             None None)
         else if 400 <=? AxiosResponse.status response
         then
           pushCheck (SecurityCheck.mk
             "endpoint-availability-http"
             "HTTP Endpoint Availability"
             SecurityCategory.AVAILABILITY
             CheckStatus.WARNING
             Severity.MEDIUM
             ("Endpoint returned status " +:+ pretty (AxiosResponse.status response))
             (Some ("HTTP " +:+ pretty (AxiosResponse.status response) +:+ ": "
                    +:+ AxiosResponse.statusText response))
             None)
         else ret tt)
      (fun error =>
         pushCheck (SecurityCheck.mk
           "endpoint-availability"
           "Endpoint Availability"
           SecurityCategory.AVAILABILITY
           CheckStatus.FAIL
           Severity.CRITICAL
           "Endpoint is not accessible"
           (Some (messageOrUnknown error))
           None) ;;;
         pushVulnerability (Vulnerability.mk
           "endpoint-unreachable"
           None
           "Endpoint Unreachable"
           "The MCP server endpoint cannot be reached"
           Severity.HIGH
           SecurityCategory.AVAILABILITY
           (MCPServer.endpoint server)
           (Some "Verify server is running and network connectivity")
           None)) ;;;
    returnFindings).

(** The check of the certificate dates in [checkSSLConfiguration]. *)
Definition certificateValidity (server : MCPServer.t)
    (now : Z) (notBefore notAfter : JsDate.t) : Js Findings.t unit :=
  if JsDate.ge (Some now) notBefore && JsDate.le (Some now) notAfter
  then
    pushCheck (SecurityCheck.mk
      "ssl-certificate-valid"
      "SSL Certificate Validity"
      SecurityCategory.ENCRYPTION
      CheckStatus.PASS
      Severity.HIGH
      "SSL certificate is valid and not expired"
      None None)
  else
    (* [toISOString] throws a RangeError on an invalid date, while the
       object to push is still being built *)
    from <- match notBefore with
            | Some t => ret (JsDate.toISOString t)
            | None => throw (ErrorObject "RangeError" "Invalid time value")
            end ;;
    to <- match notAfter with
          | Some t => ret (JsDate.toISOString t)
          | None => throw (ErrorObject "RangeError" "Invalid time value")
          end ;;
    pushCheck (SecurityCheck.mk
      "ssl-certificate-valid"
      "SSL Certificate Validity"
      SecurityCategory.ENCRYPTION
      CheckStatus.FAIL
      Severity.CRITICAL
      "SSL certificate is expired or not yet valid"
      (Some ("Valid from: " +:+ from +:+ ", Valid to: " +:+ to))
      None) ;;;
    pushVulnerability (Vulnerability.mk
      "expired-certificate"
      None
      "Expired SSL Certificate"
      "The SSL certificate has expired or is not yet valid"
      Severity.CRITICAL
      SecurityCategory.ENCRYPTION
      (MCPServer.endpoint server)
      (Some "Renew the SSL certificate")
      None).

(** The 30 days warning of [checkSSLConfiguration]. *)
Definition certificateExpiryWarning (now : Z) (notAfter : JsDate.t) : Js Findings.t unit :=
  let thirtyDaysFromNow := JsDate.timeClip (now + 30 * 24 * 60 * 60 * 1000) in
  if JsDate.le notAfter thirtyDaysFromNow
  then
    pushRecommendation (SecurityRecommendation.mk
      "certificate-expiry-warning"
      "SSL Certificate Expiring Soon"
      "SSL certificate will expire within 30 days"
      Severity.MEDIUM
      SecurityCategory.ENCRYPTION
      true
      (Some ["Certificate renewal documentation"]))
  else ret tt.

(** What [checkSSLConfiguration] does with the answer of
    [checkTLSConfiguration]. *)
Definition tlsVersionSupport (server : MCPServer.t) (tlsInfo : option TLSInfo.t)
  : Js Findings.t unit :=
  match tlsInfo with
  | Some tlsInfo =>
      if TLSInfo.supportsTLS12 tlsInfo || TLSInfo.supportsTLS13 tlsInfo
      then
        pushCheck (SecurityCheck.mk
          "tls-version"
          "TLS Version Support"
          SecurityCategory.ENCRYPTION
          CheckStatus.PASS
          Severity.MEDIUM
          "Server supports modern TLS versions"
          None None)
      else
        pushCheck (SecurityCheck.mk
          "tls-version"
          "TLS Version Support"
          SecurityCategory.ENCRYPTION
          CheckStatus.FAIL
          Severity.HIGH
          "Server does not support modern TLS versions"
          None None) ;;;
        pushVulnerability (Vulnerability.mk
          "outdated-tls"
          None
          "Outdated TLS Version"
          "Server only supports outdated TLS versions"
          Severity.HIGH
          SecurityCategory.ENCRYPTION
          (MCPServer.endpoint server)
          (Some "Upgrade to support TLS 1.2 or higher")
          None)
  | None => ret tt
  end.

(** [parseInt(url.port) || (server.protocol === 'https' ? 443 : 443)]: the
    right side is taken when the left one is NaN or 0. *)
Definition portOf (server : MCPServer.t) (url : URL.t) : Z :=
  match JsString.parseInt (URL.port url) with
  | Some n =>
      if n =? 0
      then (if bool_decide (MCPServer.protocol server = Protocol.https) then 443 else 443)
      else n
  | None =>
      if bool_decide (MCPServer.protocol server = Protocol.https) then 443 else 443
  end.

(** [checkSSLConfiguration] *)
Definition checkSSLConfiguration (w : World) (server : MCPServer.t)
  : settled Findings.t :=
  async (
    if bool_decide (MCPServer.protocol server <> Protocol.https)
       && bool_decide (MCPServer.protocol server <> Protocol.wss)
    then
      pushCheck (SecurityCheck.mk
        "ssl-not-used"
        "SSL/TLS Usage"
        SecurityCategory.ENCRYPTION
        CheckStatus.FAIL
        Severity.HIGH
        "Server is not using SSL/TLS encryption"
        None None) ;;;
      pushVulnerability (Vulnerability.mk
        "unencrypted-communication"
        None
        "Unencrypted Communication"
        "Server communication is not encrypted with SSL/TLS"
        Severity.HIGH
        SecurityCategory.ENCRYPTION
        (MCPServer.endpoint server)
        (Some "Enable HTTPS/WSS to encrypt communications")
        None) ;;;
      returnFindings
    else
      tryCatch
        (url <- await (newURL w (MCPServer.endpoint server)) ;;
         let port := portOf server url in
         certInfo <- await (getCertificateInfo w (URL.hostname url) port) ;;
         match certInfo with
         | Some certInfo =>
             let now := now_checkSSLConfiguration w in
             let notBefore := PeerCertificate.validFrom certInfo in
             let notAfter := PeerCertificate.validTo certInfo in
             certificateValidity server now notBefore notAfter ;;;
             certificateExpiryWarning now notAfter ;;;
             tlsInfo <- await (checkTLSConfiguration (URL.hostname url) port) ;;
             tlsVersionSupport server tlsInfo
         | None => ret tt
         end)
        (fun error =>
           pushCheck (SecurityCheck.mk
             "ssl-check-error"
             "SSL Configuration Check"
             SecurityCategory.ENCRYPTION
             CheckStatus.ERROR
             Severity.MEDIUM
             "Could not verify SSL configuration"
             (Some (messageOrUnknown error))
             None)) ;;;
      returnFindings).

(** [response.headers[header] || response.headers[header.toLowerCase()]] *)
Definition headerOf (response : AxiosResponse.t) (header : string) : option string :=
  orElse (AxiosResponse.headers response !! header)
         (AxiosResponse.headers response !! JsString.toLowerCase header).

(** [checkAuthentication] *)
Definition checkAuthentication (w : World) (server : MCPServer.t)
  : settled Findings.t :=
  async (
    tryCatch
      (response <- await (axios_get w CheckAuthentication (MCPServer.endpoint server)) ;;
       (if (AxiosResponse.status response =? 401) || (AxiosResponse.status response =? 403)
        then
          pushCheck (SecurityCheck.mk
            "authentication-required"
            "Authentication Required"
            SecurityCategory.AUTHENTICATION
            CheckStatus.PASS
            Severity.HIGH
            "Server properly requires authentication"
            None None)
        else if AxiosResponse.status response =? 200
        then
          pushCheck (SecurityCheck.mk
            "authentication-required"
            "Authentication Required"
            SecurityCategory.AUTHENTICATION
            CheckStatus.WARNING
            Severity.MEDIUM
            "Server allows unauthenticated access"
            None None) ;;;
          pushRecommendation (SecurityRecommendation.mk
            "implement-authentication"
            "Implement Authentication"
            "Consider implementing authentication to secure the API"
            Severity.MEDIUM
            SecurityCategory.AUTHENTICATION
            false
            None)
        else ret tt) ;;;
       let authHeaders := ["www-authenticate"; "authorization"] in
       let hasAuthHeaders :=
         existsb (fun header => truthy (headerOf response header)) authHeaders in
       if hasAuthHeaders
       then
         pushCheck (SecurityCheck.mk
           "auth-headers-present"
           "Authentication Headers"
           SecurityCategory.AUTHENTICATION
           CheckStatus.PASS
           Severity.LOW
           "Server includes proper authentication headers"
           None None)
       else ret tt)
      (fun error =>
         pushCheck (SecurityCheck.mk
           "authentication-check-error"
           "Authentication Check"
           SecurityCategory.AUTHENTICATION
           CheckStatus.ERROR
           Severity.LOW
           "Could not verify authentication configuration"
           (Some (messageOrUnknown error))
           None)) ;;;
    returnFindings).

(** [for (const x of xs) body(x)], and [xs.forEach(body)] for a body that
    leaves [xs] alone. *)
Fixpoint forOf {S A} (xs : list A) (body : A -> Js S unit) : Js S unit :=
  match xs with
  | [] => ret tt
  | x :: xs' => body x ;;; forOf xs' body
  end.

Definition securityHeaders : list (string * string) := [
  ("strict-transport-security", "HSTS");
  ("x-content-type-options", "Content Type Options");
  ("x-frame-options", "Frame Options");
  ("x-xss-protection", "XSS Protection");
  ("content-security-policy", "Content Security Policy")
].

(** The callback of [Object.entries(securityHeaders).forEach] in
    [checkHttpSecurity]. *)
Definition securityHeaderCheck (response : AxiosResponse.t) (entry : string * string)
  : Js Findings.t unit :=
  let '(header, name) := entry in
  if truthy (headerOf response header)
  then
    pushCheck (SecurityCheck.mk
      ("security-header-" +:+ header)
      (name +:+ " Header")
      SecurityCategory.CONFIGURATION
      CheckStatus.PASS
      Severity.LOW
      (name +:+ " header is present")
      None None)
  else
    pushCheck (SecurityCheck.mk
      ("security-header-" +:+ header)
      (name +:+ " Header")
      SecurityCategory.CONFIGURATION
      CheckStatus.WARNING
      Severity.LOW
      (name +:+ " header is missing")
      None None) ;;;
    pushRecommendation (SecurityRecommendation.mk
      ("add-" +:+ header +:+ "-header")
      ("Add " +:+ name +:+ " Header")
      ("Consider adding the " +:+ header +:+ " header for enhanced security")
      Severity.LOW
      SecurityCategory.CONFIGURATION
      false
      None).

(** [response.headers.server || response.headers.Server] *)
Definition serverHeaderOf (response : AxiosResponse.t) : option string :=
  orElse (AxiosResponse.headers response !! "server")
         (AxiosResponse.headers response !! "Server").

(** [checkHttpSecurity] *)
Definition checkHttpSecurity (w : World) (server : MCPServer.t)
  : settled Findings.t :=
  async (
    if bool_decide (MCPServer.protocol server = Protocol.ws)
       || bool_decide (MCPServer.protocol server = Protocol.wss)
    then returnFindings
    else
      tryCatch
        (response <- await (axios_get w CheckHttpSecurity (MCPServer.endpoint server)) ;;
         forOf securityHeaders (securityHeaderCheck response) ;;;
         let serverHeader := serverHeaderOf response in
         match serverHeader with
         | Some value =>
             if truthy serverHeader
             then
               pushCheck (SecurityCheck.mk
                 "server-header-disclosure"
                 "Server Information Disclosure"
                 SecurityCategory.CONFIGURATION
                 CheckStatus.WARNING
                 Severity.LOW
                 "Server header reveals server information"
                 (Some ("Server: " +:+ value))
                 None) ;;;
               pushRecommendation (SecurityRecommendation.mk
                 "hide-server-header"
                 "Hide Server Header"
                 "Consider hiding or minimizing server header information"
                 Severity.LOW
                 SecurityCategory.CONFIGURATION
                 false
                 None)
             else ret tt
         | None => ret tt
         end)
        (fun error =>
           pushCheck (SecurityCheck.mk
             "http-security-check-error"
             "HTTP Security Check"
             SecurityCategory.CONFIGURATION
             CheckStatus.ERROR
             Severity.LOW
             "Could not verify HTTP security configuration"
             (Some (messageOrUnknown error))
             None)) ;;;
      returnFindings).

Definition endpoints : list string := [
  "/metadata"; "/info"; "/health"; "/status"; "/api"; "/docs"; "/swagger"; "/openapi"
].

(** The body of the loop over [endpoints] in [checkAPIEndpoints]. *)
Definition probeEndpoint (w : World) (baseUrl endpoint : string) : Js Findings.t unit :=
  tryCatch
    (response <- await (axios_get w CheckAPIEndpoints (baseUrl +:+ endpoint)) ;;
     if AxiosResponse.status response =? 200
     then
       pushCheck (SecurityCheck.mk
         ("endpoint-" +:+ JsString.replaceFirstSlash endpoint)
         ("Endpoint " +:+ endpoint)
         SecurityCategory.CONFIGURATION
         CheckStatus.PASS
         Severity.INFO
         ("Endpoint " +:+ endpoint +:+ " is accessible")
         None None) ;;;
       if containsSensitiveInfo (AxiosResponse.data response)
       then
         pushVulnerability (Vulnerability.mk
           ("sensitive-info-" +:+ endpoint)
           None
           "Sensitive Information Exposure"
           ("Endpoint " +:+ endpoint +:+ " may expose sensitive information")
           Severity.MEDIUM
           SecurityCategory.DATA_PROTECTION
           (baseUrl +:+ endpoint)
           (Some "Review and sanitize endpoint responses")
           None)
       else ret tt
     else ret tt)
    (fun error => ret tt).

(** [checkAPIEndpoints] *)
Definition checkAPIEndpoints (w : World) (server : MCPServer.t)
  : settled Findings.t :=
  async (
    tryCatch
      (let baseUrl := JsString.replaceTrailingSlash (MCPServer.endpoint server) in
       forOf endpoints (probeEndpoint w baseUrl))
      (fun error =>
         pushCheck (SecurityCheck.mk
           "api-endpoints-check-error"
           "API Endpoints Check"
           SecurityCategory.CONFIGURATION
           CheckStatus.ERROR
           Severity.LOW
           "Could not verify API endpoints"
           (Some (messageOrUnknown error))
           None)) ;;;
    returnFindings).

(** [checkRateLimit] *)
Definition checkRateLimit (server : MCPServer.t) : settled Findings.t :=
  async (
    (match MCPServer.metadata server ≫= MCPServerMetadata.rateLimit with
     | Some _ =>
         pushCheck (SecurityCheck.mk
           "rate-limit-configured"
           "Rate Limiting"
           SecurityCategory.AVAILABILITY
           CheckStatus.PASS
           Severity.MEDIUM
           "Rate limiting is configured"
           None None)
     | None =>
         pushCheck (SecurityCheck.mk
           "rate-limit-configured"
           "Rate Limiting"
           SecurityCategory.AVAILABILITY
           CheckStatus.WARNING
           Severity.LOW
           "Rate limiting configuration not detected"
           None None) ;;;
         pushRecommendation (SecurityRecommendation.mk
           "implement-rate-limiting"
           "Implement Rate Limiting"
           "Consider implementing rate limiting to prevent abuse"
           Severity.LOW
           SecurityCategory.AVAILABILITY
           false
           None)
     end) ;;;
    returnFindings).

(** [checkCORSConfiguration] *)
Definition checkCORSConfiguration (w : World) (server : MCPServer.t)
  : settled Findings.t :=
  async (
    if bool_decide (MCPServer.protocol server = Protocol.ws)
       || bool_decide (MCPServer.protocol server = Protocol.wss)
    then returnFindings
    else
      tryCatch
        (response <- await (axios_options w (MCPServer.endpoint server)) ;;
         let corsHeader := AxiosResponse.headers response !! "access-control-allow-origin" in
         if bool_decide (corsHeader = Some "*")
         then
           pushCheck (SecurityCheck.mk
             "cors-wildcard"
             "CORS Configuration"
             SecurityCategory.CONFIGURATION
             CheckStatus.WARNING
             Severity.MEDIUM
             "CORS allows all origins (*)"
             (Some "Access-Control-Allow-Origin: *")
             None) ;;;
           pushRecommendation (SecurityRecommendation.mk
             "restrict-cors-origins"
             "Restrict CORS Origins"
             "Consider restricting CORS to specific trusted origins"
             Severity.MEDIUM
             SecurityCategory.CONFIGURATION
             false
             None)
         else if truthy corsHeader
         then
           pushCheck (SecurityCheck.mk
             "cors-configured"
             "CORS Configuration"
             SecurityCategory.CONFIGURATION
             CheckStatus.PASS
             Severity.LOW
             "CORS is properly configured with specific origins"
             None None)
         else ret tt)
        (fun error =>
           pushCheck (SecurityCheck.mk
             "cors-check-error"
             "CORS Configuration Check"
             SecurityCategory.CONFIGURATION
             CheckStatus.ERROR
             Severity.LOW
             "Could not verify CORS configuration"
             (Some (messageOrUnknown error))
             None)) ;;;
      returnFindings).

(** [checkSecurityHeaders] *)
Definition checkSecurityHeaders (server : MCPServer.t) : settled Findings.t :=
  fulfilled (Findings.mk [] [] []).

(** [calculateSecurityScore], on the numbers of JavaScript. *)
Definition calculateSecurityScore (checks : list SecurityCheck.t) : SecurityScore.t :=
  Scorer.calculateSecurityScore (N := spec_float) checks.

(** *** [analyzeServer] *)

(** The eight promises handed to [Promise.allSettled], in their order. *)
Definition runChecks (w : World) (server : MCPServer.t) : list (settled Findings.t) := [
  checkEndpointAvailability w server;
  checkSSLConfiguration w server;
  checkAuthentication w server;
  checkHttpSecurity w server;
  checkAPIEndpoints w server;
  checkRateLimit server;
  checkCORSConfiguration w server;
  checkSecurityHeaders server
].

(** The callback of [checkResults.forEach((result, index) => ...)]: the
    findings of a fulfilled check are pushed on the three arrays of
    [analyzeServer] ([found]); a rejected one is reported on the
    console.  (A fulfilled check holds an object, which is truthy.) *)
Definition processResult (found : Findings.t) (index : nat) (result : settled Findings.t)
  : Js Console Findings.t :=
  match result with
  | fulfilled value =>
      ret (Findings.mk
             (Findings.checks found ++ Findings.checks value)
             (Findings.recommendations found ++ Findings.recommendations value)
             (Findings.vulnerabilities found ++ Findings.vulnerabilities value))
  | rejected reason =>
      log (console_warn ("Security check " +:+ pretty index +:+ " failed:") reason) ;;;
      ret found
  end.

Fixpoint processResults (found : Findings.t) (index : nat)
    (checkResults : list (settled Findings.t)) : Js Console Findings.t :=
  match checkResults with
  | [] => ret found
  | result :: rest =>
      found' <- processResult found index result ;;
      processResults found' (S index) rest
  end.

(** [analyzeServer] from the point where [Promise.allSettled] has
    answered with [checkResults]. *)
Definition analyzeSettled (w : World) (server : MCPServer.t)
    (checkResults : list (settled Findings.t)) : Js Console SecurityAnalysisResult.t :=
  let timestamp := now_analyzeServer w in
  tryCatch
    (found <- processResults Findings.empty 0 checkResults ;;
     let overallScore := calculateSecurityScore (Findings.checks found) in
     ret (SecurityAnalysisResult.mk
            (MCPServer.id server)
            (MCPServer.name server)
            (MCPServer.endpoint server)
            timestamp
            overallScore
            (Findings.checks found)
            (Findings.recommendations found)
            (Findings.vulnerabilities found)))
    (fun error =>
       throw (SecurityAnalysisError
                ("Failed to analyze server " +:+ MCPServer.name server +:+ ": "
                 +:+ toString error)
                server error)).

Definition analyzeServer (w : World) (server : MCPServer.t)
  : Js Console SecurityAnalysisResult.t :=
  analyzeSettled w server (runChecks w server).

End SecurityAnalyzer.


(** ** More of the monad: local arrays, settled promises *)

(** A body that owns a local array next to the state [S] of the function
    it is part of: [lift m] runs [m] and leaves the array alone. *)
Definition lift {S T A} (m : Js S A) : Js (S * T) A :=
  fun st =>
    match m (fst st) with
    | (s', r) => ((s', snd st), r)
    end.

(** [array.push(x)] and [array.push(...xs)] *)
Definition push {S T} (x : T) : Js (S * list T) unit :=
  modify (fun st => (fst st, snd st ++ [x])).

Definition pushAll {S T} (xs : list T) : Js (S * list T) unit :=
  modify (fun st => (fst st, snd st ++ xs)).

(** [const array = []; body; return array] *)
Definition returnArray {S T} (body : Js (S * list T) unit) : Js S (list T) :=
  fun s =>
    match body (s, []) with
    | ((s', array), fulfilled _) => (s', fulfilled array)
    | ((s', _), rejected e) => (s', rejected e)
    end.

(** [xs.map(f)] for a callback that can throw. *)
Fixpoint mapJs {S A B} (f : A -> Js S B) (xs : list A) : Js S (list B) :=
  match xs with
  | [] => ret []
  | x :: xs' => y <- f x ;; ys <- mapJs f xs' ;; ret (y :: ys)
  end.

(** The promise of an [async] call, run to its end: what it wrote stays
    written, and the way it ended is what [Promise.allSettled] reports. *)
Definition settle {S A} (m : Js S A) : Js S (settled A) :=
  fun s =>
    match m s with
    | (s', r) => (s', fulfilled r)
    end.

(** [a || b] for a number [b]: 0 and NaN are falsy. *)
Definition orNumber (a : option Z) (b : Z) : Z :=
  match a with
  | Some n => if n =? 0 then b else n
  | None => b
  end.

(** [a || b] for a string [b] *)
Definition orString (a : option string) (b : string) : string :=
  match a with
  | Some text => if String.eqb text "" then b else text
  | None => b
  end.

(** ** [DiscoveryService] (services/discovery.ts)

    The service builds [MCPServer] records out of data of type [any]: the
    content of files and the body of HTTP answers.  That data is read here
    at the types types.ts gives to what is built from it: a property is
    absent ([None]) or holds a value of the type of the field it feeds.
    [null] where an object is expected is kept apart, since reading a
    property of it throws. *)

Module DiscoverySource.
(** [config: Record<string, any>], with the properties the service reads. *)
Record Config := mkConfig {
  paths : option (list string);
  patterns : option (list string);
  url : option string;
  headers : option (gmap string string);
  auth : option (string * string)
}.

Record t := mk { type : string; config : Config; enabled : bool }.
End DiscoverySource.

Module DiscoveryConfig.
(** The two numbers are integers, or [None] for NaN and for a property
    that is missing. *)
Record t := mk {
  sources : list DiscoverySource.t;
  timeout : option Z;
  maxConcurrent : option Z;
  excludePatterns : option (list string)
}.
End DiscoveryConfig.

Module RawServer.
(** The properties [normalizeServerData] reads of its argument. *)
Record t := mk {
  id : option string;
  name : option string;
  title : option string;
  version : option string;
  description : option string;
  endpoint : option string;
  url : option string;
  server : option string;
  owner : option string;
  author : option string;
  capabilities : option (list string);
  authentication : option string;
  rateLimit : option RateLimit.t;
  documentation : option string;
  repository : option string;
  license : option string;
  tags : option (list string)
}.

Definition empty : t :=
  mk None None None None None None None None None None None None None None None None None.
End RawServer.

Module PackageJson.
(** [mcp] is [packageJson.mcp || packageJson.modelContextProtocol] when
    that is truthy; [repositoryUrl] is [packageJson.repository?.url]. *)
Record t := mk {
  mcp : option RawServer.t;
  name : option string;
  version : option string;
  description : option string;
  repositoryUrl : option string
}.
End PackageJson.

Module Settings.
(** A value that may be an array: falsy, truthy and no array, or an array
    (an array is truthy, empty or not). *)
Inductive value :=
| Falsy
| NoArray
| ArrayOf (items : list (option RawServer.t)).

(** [settings['mcp.servers']] and [settings['modelContextProtocol.servers']] *)
Record t := mk { mcp_servers : value; modelContextProtocol_servers : value }.
End Settings.

Module ResponseData.
(** [response.data]: an array; [null] or [undefined]; or any other value,
    with its property [servers] when that one is an array. *)
Inductive t :=
| IsArray (items : list (option RawServer.t))
| IsNull
| IsOther (servers : option (list (option RawServer.t))).
End ResponseData.

Module DiscoveryService.

(** What the service reads from outside.  [JSON.parse] stands three times,
    once for each shape its callers read its result at; [None] is the
    value [null]. *)
Record Env := mkEnv {
  (** the successive readings of the clock ([Date.now()], [new Date()]) *)
  clock : nat -> Z;
  path_resolve : string -> string;
  path_join : list string -> string;
  env_APPDATA : option string;
  env_HOME : option string;
  process_cwd : string;
  (** [glob(pattern, { cwd, absolute: true })] *)
  glob : string -> string -> settled (list string);
  fs_access : string -> settled unit;
  fs_readFile : string -> settled string;
  JSON_parse_server : string -> settled (option RawServer.t);
  yaml_parse : string -> settled (option RawServer.t);
  JSON_parse_package : string -> settled (option PackageJson.t);
  JSON_parse_settings : string -> settled (option Settings.t);
  (** [axios.get(url, { timeout, headers, auth })] *)
  axios_get : string -> Z -> gmap string string -> option (string * string)
              -> settled ResponseData.t;
  isAxiosError : thrown -> bool
}.

(** The state the service writes: the console, and how many times the
    clock was read. *)
Record State := mkState { console : Console; ticks : nat }.

Definition warn (text : string) (reason : thrown) : Js State unit :=
  modify (fun s => mkState (console s ++ [console_warn text reason]) (ticks s)).

Definition error (text : string) (reason : thrown) : Js State unit :=
  modify (fun s => mkState (console s ++ [console_error text (Some reason)]) (ticks s)).

(** [Date.now()], and the time value of [new Date()] *)
Definition dateNow (w : Env) : Js State Z :=
  fun s => (mkState (console s) (S (ticks s)), fulfilled (clock w (ticks s))).

(** [new DiscoveryError(message)] *)
Definition DiscoveryError (message : string) : thrown := ErrorObject "DiscoveryError" message.

(** What reading the property [property] of [null] throws. *)
Definition nullRead (property : string) : thrown :=
  ErrorObject "TypeError"
    ("Cannot read properties of null (reading '" +:+ property +:+ "')").

Definition defaultTimeout : Z := 10000.
Definition defaultMaxConcurrent : Z := 5.

(** [extractProtocol] *)
Definition extractProtocol (endpoint : string) : Protocol.t :=
  if JsString.startsWith "wss://" endpoint then Protocol.wss
  else if JsString.startsWith "ws://" endpoint then Protocol.ws
  else if JsString.startsWith "https://" endpoint then Protocol.https
  else Protocol.http.

(** [generateServerId], with [now] for what [Date.now()] answers. *)
Definition serverId (now : Z) (name : string) : string :=
  JsString.replaceNonLowerOrDigit (JsString.toLowerCase name) +:+ "-" +:+ pretty now.

Definition generateServerId (w : Env) (name : string) : Js State string :=
  now <- dateNow w ;;
  ret (serverId now name).

(** [normalizeServerData]; [source] is not read. *)
Definition normalizeServerData (w : Env) (data : option RawServer.t) (source : string)
  : Js State MCPServer.t :=
  match data with
  | None => throw (nullRead "endpoint")
  | Some data =>
      let endpoint :=
        orString (RawServer.endpoint data)
          (orString (RawServer.url data) (orString (RawServer.server data) "")) in
      let protocol := extractProtocol endpoint in
      id <- (if truthy (RawServer.id data)
             then ret (orString (RawServer.id data) "")
             else generateServerId w (orString (RawServer.name data) endpoint)) ;;
      lastSeen <- dateNow w ;;
      ret (MCPServer.mk
             id
             (orString (RawServer.name data) (orString (RawServer.title data) "Unknown Server"))
             (orString (RawServer.version data) "1.0.0")
             (RawServer.description data)
             endpoint
             protocol
             (orElse (RawServer.owner data) (RawServer.author data))
             lastSeen
             (Some (MCPServerMetadata.mk
                      (RawServer.capabilities data)
                      (RawServer.authentication data)
                      (RawServer.rateLimit data)
                      (RawServer.documentation data)
                      (RawServer.repository data)
                      (RawServer.license data)
                      (RawServer.tags data))))
  end.

(** [parseConfigFile] *)
Definition parseConfigFile (w : Env) (filePath : string) : Js State (option MCPServer.t) :=
  tryCatch
    (content <- await (fs_readFile w filePath) ;;
     if JsString.endsWith ".json" filePath
     then
       config <- await (JSON_parse_server w content) ;;
       server <- normalizeServerData w config "local" ;;
       ret (Some server)
     else if JsString.endsWith ".yaml" filePath || JsString.endsWith ".yml" filePath
     then
       config <- await (yaml_parse w content) ;;
       server <- normalizeServerData w config "local" ;;
       ret (Some server)
     else ret None)
    (fun error =>
       warn ("Failed to parse config file " +:+ filePath +:+ ":") error ;;;
       ret None).

(** [parsePackageJson] *)
Definition parsePackageJson (w : Env) (filePath : string) : Js State (option MCPServer.t) :=
  tryCatch
    (content <- await (fs_readFile w filePath) ;;
     packageJson <- await (JSON_parse_package w content) ;;
     match packageJson with
     | None => throw (nullRead "mcp")
     | Some packageJson =>
         match PackageJson.mcp packageJson with
         | None => ret None
         | Some mcpConfig =>
             server <- normalizeServerData w
               (Some (RawServer.mk
                        (RawServer.id mcpConfig)
                        (PackageJson.name packageJson)
                        (RawServer.title mcpConfig)
                        (PackageJson.version packageJson)
                        (PackageJson.description packageJson)
                        (RawServer.endpoint mcpConfig)
                        (RawServer.url mcpConfig)
                        (RawServer.server mcpConfig)
                        (RawServer.owner mcpConfig)
                        (RawServer.author mcpConfig)
                        (RawServer.capabilities mcpConfig)
                        (RawServer.authentication mcpConfig)
                        (RawServer.rateLimit mcpConfig)
                        (RawServer.documentation mcpConfig)
                        (PackageJson.repositoryUrl packageJson)
                        (RawServer.license mcpConfig)
                        (RawServer.tags mcpConfig)))
               "local" ;;
             ret (Some server)
         end
     end)
    (fun error => ret None).

(** [if (server) { servers.push(server) }] *)
Definition pushIf {S} (server : option MCPServer.t) : Js (S * list MCPServer.t) unit :=
  match server with
  | Some server => push server
  | None => ret tt
  end.

(** The body of the loop over the files a pattern matched. *)
Definition addConfigFile (w : Env) (file : string) : Js (State * list MCPServer.t) unit :=
  tryCatch
    (server <- lift (parseConfigFile w file) ;;
     pushIf server)
    (fun error =>
       lift (warn ("Failed to parse config file " +:+ file +:+ ":") error)).

(** The body of the loop over the patterns. *)
Definition searchPattern (w : Env) (searchPath pattern : string)
  : Js (State * list MCPServer.t) unit :=
  tryCatch
    (files <- lift (await (glob w pattern (path_resolve w searchPath))) ;;
     SecurityAnalyzer.forOf files (addConfigFile w))
    (fun error =>
       lift (warn ("Failed to search in " +:+ searchPath +:+ " with pattern "
                   +:+ pattern +:+ ":") error)).

(** The body of the loop over the [package.json] files. *)
Definition addPackageFile (w : Env) (packageFile : string)
  : Js (State * list MCPServer.t) unit :=
  tryCatch
    (server <- lift (parsePackageJson w packageFile) ;;
     pushIf server)
    (fun error =>
       lift (warn ("Failed to parse package.json " +:+ packageFile +:+ ":") error)).

(** [discoverLocalServers] *)
Definition discoverLocalServers (w : Env) (config : DiscoverySource.Config)
  : Js State (list MCPServer.t) :=
  let searchPaths := default ["."] (DiscoverySource.paths config) in
  let patterns :=
    default ["**/mcp.config.json"; "**/mcp.yaml"; "**/mcp.yml"]
      (DiscoverySource.patterns config) in
  returnArray (
    SecurityAnalyzer.forOf searchPaths (fun searchPath =>
      SecurityAnalyzer.forOf patterns (searchPattern w searchPath)) ;;;
    tryCatch
      (packageFiles <- lift (await (glob w "**/package.json"
                                      (path_resolve w (orString (head searchPaths) ".")))) ;;
       SecurityAnalyzer.forOf packageFiles (addPackageFile w))
      (fun error =>
         lift (warn "Failed to search for package.json files:" error))).

(** The headers of the two requests. *)
Definition requestHeaders : gmap string string :=
  {[ "User-Agent" := "MCP-Security-Auditor/1.0.0"; "Accept" := "application/json" ]}.

(** [discoverFromRegistry] *)
Definition discoverFromRegistry (w : Env) (config : DiscoverySource.Config) (timeout : Z)
  : Js State (list MCPServer.t) :=
  let registryUrl :=
    orString (DiscoverySource.url config)
      "https://registry.modelcontextprotocol.org/api/servers" in
  tryCatch
    (response <- await (axios_get w registryUrl timeout requestHeaders None) ;;
     match response with
     | ResponseData.IsArray items =>
         mapJs (fun item => normalizeServerData w item "registry") items
     | _ => throw (DiscoveryError "Registry response is not an array")
     end)
    (fun error =>
       if isAxiosError w error
       then throw (DiscoveryError ("Registry request failed: " +:+ errorMessage error))
       else throw error).

(** [discoverFromAPI] *)
Definition discoverFromAPI (w : Env) (config : DiscoverySource.Config) (timeout : Z)
  : Js State (list MCPServer.t) :=
  let apiUrl := DiscoverySource.url config in
  if negb (truthy apiUrl)
  then throw (DiscoveryError "API URL is required for API discovery")
  else
    tryCatch
      (response <- await (axios_get w (orString apiUrl "") timeout
                            (default ∅ (DiscoverySource.headers config) ∪ requestHeaders)
                            (DiscoverySource.auth config)) ;;
       servers <- match response with
                  | ResponseData.IsArray items => ret (Some items)
                  | ResponseData.IsNull => throw (nullRead "servers")
                  | ResponseData.IsOther servers => ret servers
                  end ;;
       match servers with
       | Some servers => mapJs (fun item => normalizeServerData w item "api") servers
       | None => throw (DiscoveryError "API response does not contain a servers array")
       end)
      (fun error =>
         if isAxiosError w error
         then throw (DiscoveryError ("API request failed: " +:+ errorMessage error))
         else throw error).

(** The body of the loop of [discoverFromVSCode] over the settings files. *)
Definition addSettings (w : Env) (settingsPath : string)
  : Js (State * list MCPServer.t) unit :=
  tryCatch
    (_ <- lift (await (fs_access w settingsPath)) ;;
     settingsContent <- lift (await (fs_readFile w settingsPath)) ;;
     settings <- lift (await (JSON_parse_settings w settingsContent)) ;;
     match settings with
     | None => throw (nullRead "mcp.servers")
     | Some settings =>
         let mcpServers :=
           match Settings.mcp_servers settings with
           | Settings.Falsy => Settings.modelContextProtocol_servers settings
           | value => value
           end in
         match mcpServers with
         | Settings.ArrayOf items =>
             normalized <- lift (mapJs (fun item => normalizeServerData w item "vscode")
                                   items) ;;
             pushAll normalized
         | _ => ret tt
         end
     end)
    (fun error => ret tt).

(** [discoverFromVSCode]; [config] is not read. *)
Definition discoverFromVSCode (w : Env) (config : DiscoverySource.Config)
  : Js State (list MCPServer.t) :=
  let vscodeSettingsPaths := [
    path_join w [orString (env_APPDATA w) ""; "Code"; "User"; "settings.json"];
    path_join w [orString (env_HOME w) ""; ".vscode"; "settings.json"];
    path_join w [process_cwd w; ".vscode"; "settings.json"]
  ] in
  returnArray (SecurityAnalyzer.forOf vscodeSettingsPaths (addSettings w)).

(** [discoverFromSource] *)
Definition discoverFromSource (w : Env) (source : DiscoverySource.t) (timeout : Z)
  : Js State DiscoveryResult.t :=
  startTime <- dateNow w ;;
  tryCatch
    (servers <-
       (if String.eqb (DiscoverySource.type source) "local"
        then discoverLocalServers w (DiscoverySource.config source)
        else if String.eqb (DiscoverySource.type source) "registry"
        then discoverFromRegistry w (DiscoverySource.config source) timeout
        else if String.eqb (DiscoverySource.type source) "api"
        then discoverFromAPI w (DiscoverySource.config source) timeout
        else if String.eqb (DiscoverySource.type source) "vscode"
        then discoverFromVSCode w (DiscoverySource.config source)
        else throw (DiscoveryError
                      ("Unknown source type: " +:+ DiscoverySource.type source))) ;;
     finish <- dateNow w ;;
     ret (DiscoveryResult.mk (DiscoverySource.type source) servers [] (finish - startTime)))
    (fun error =>
       finish <- dateNow w ;;
       ret (DiscoveryResult.mk (DiscoverySource.type source) []
              [messageOrUnknown error] (finish - startTime))).

(** [array.slice(start, final)] *)
Definition slice {T} (array : list T) (start final : Z) : list T :=
  let len := Z.of_nat (length array) in
  let from := if start <? 0 then Z.max (len + start) 0 else Z.min start len in
  let to := if final <? 0 then Z.max (len + final) 0 else Z.min final len in
  take (Z.to_nat (to - from)) (drop (Z.to_nat from) array).

(** The loop of [chunkArray], from [i] on: it ends when [i] has reached
    the length of the array.  [fuel] bounds the number of turns; [None]
    tells that they did not suffice. *)
Fixpoint chunkArrayFrom {T} (fuel : nat) (array : list T) (size i : Z)
    (chunks : list (list T)) : option (list (list T)) :=
  if i <? Z.of_nat (length array)
  then
    match fuel with
    | O => None
    | S fuel' =>
        chunkArrayFrom fuel' array size (i + size) (chunks ++ [slice array i (i + size)])
    end
  else Some chunks.

(** [chunkArray], for a [size] that is an integer. *)
Definition chunkArray {T} (fuel : nat) (array : list T) (size : Z) : option (list (list T)) :=
  chunkArrayFrom fuel array size 0 [].

(** [result.reason.message || 'Unknown error'] *)
Definition reasonMessage (reason : thrown) : string :=
  match reason with
  | ErrorObject _ message | SecurityAnalysisError message _ _ =>
      orString (Some message) "Unknown error"
  | OtherValue _ => "Unknown error"
  end.

(** The callback of [batchResults.forEach((result, index) => ...)], with
    [batch[index]] for [source]. *)
Definition recordResult (entry : DiscoverySource.t * settled DiscoveryResult.t)
  : Js (State * list DiscoveryResult.t) unit :=
  let '(source, result) := entry in
  match result with
  | fulfilled value => push value
  | rejected reason =>
      lift (error ("Discovery failed for " +:+ DiscoverySource.type source +:+ ":")
              reason) ;;;
      push (DiscoveryResult.mk (DiscoverySource.type source) []
              [reasonMessage reason] 0)
  end.

(** The body of the loop over the batches.  The sources of a batch run
    concurrently; they are taken here one after the other, which is one of
    the orders in which they can run.  What each source answers does not
    depend on that order, what the console shows does. *)
Definition discoverBatch (w : Env) (timeout : Z) (batch : list DiscoverySource.t)
  : Js (State * list DiscoveryResult.t) unit :=
  batchResults <- lift (mapJs (fun source => settle (discoverFromSource w source timeout))
                          batch) ;;
  SecurityAnalyzer.forOf (zip batch batchResults) recordResult.

(** [discoverServers]: [None] when [fuel] turns do not bring [chunkArray]
    to its end. *)
Definition discoverServers (fuel : nat) (w : Env) (config : DiscoveryConfig.t)
  : option (Js State (list DiscoveryResult.t)) :=
  let timeout := orNumber (DiscoveryConfig.timeout config) defaultTimeout in
  let maxConcurrent :=
    orNumber (DiscoveryConfig.maxConcurrent config) defaultMaxConcurrent in
  let enabledSources :=
    filter (fun source => DiscoverySource.enabled source = true)
      (DiscoveryConfig.sources config) in
  batches ← chunkArray fuel enabledSources maxConcurrent ;
  Some (returnArray (SecurityAnalyzer.forOf batches (discoverBatch w timeout))).

End DiscoveryService.

(** ** [ReportGenerator] (services/report-generator.ts) *)

Module AuditSummary.
Record t := mk {
  totalServers : Z;
  serversAnalyzed : Z;
  overallSecurityScore : SecurityScore.t;
  criticalVulnerabilities : Z;
  highSeverityIssues : Z;
  recommendations : Z
}.
End AuditSummary.

Module ReportMetadata.
(** [config] is the empty object. *)
Record t := mk { version : string; generatedBy : string; duration : Z }.
End ReportMetadata.

Module AuditReport.
Record t := mk {
  id : string;
  timestamp : Z;
  summary : AuditSummary.t;
  servers : list SecurityAnalysisResult.t;
  metadata : ReportMetadata.t
}.
End AuditReport.

Module ReportConfig.
(** [format] is declared ['json' | 'html' | 'markdown' | 'pdf']; the
    command line hands over whatever string it was given. *)
Record t := mk {
  format : string;
  outputPath : string;
  includeDetails : bool;
  includeRecommendations : bool;
  template : option string
}.
End ReportConfig.

Module ReportGenerator.

Record Env := mkEnv {
  (** the successive readings of the clock ([Date.now()], [new Date()]) *)
  clock : nat -> Z;
  path_dirname : string -> string;
  (** [fs.mkdir(path, { recursive: true })] *)
  fs_mkdir : string -> settled unit;
  (** [fs.writeFile(path, data, 'utf-8')] *)
  fs_writeFile : string -> string -> settled unit;
  (** [error?.code] *)
  errorCode : thrown -> option string;
  (** [JSON.stringify(auditReport, null, 2)] *)
  JSON_stringify : AuditReport.t -> string;
  (** [date.toLocaleString()] *)
  toLocaleString : Z -> string
}.

(** The calls made to the file system, in order. *)
Inductive FsCall :=
| Mkdir (path : string)
| WriteFile (path data : string).

Record State := mkState { calls : list FsCall; ticks : nat }.

Definition call (c : FsCall) : Js State unit :=
  modify (fun s => mkState (calls s ++ [c]) (ticks s)).

Definition dateNow (w : Env) : Js State Z :=
  fun s => (mkState (calls s) (S (ticks s)), fulfilled (clock w (ticks s))).

(** The object [scoreValues] of [calculateOverallScore]. *)
Definition scoreValues (score : SecurityScore.t) : spec_float :=
  match score with
  | SecurityScore.EXCELLENT => literal 5
  | SecurityScore.GOOD => literal 4
  | SecurityScore.FAIR => literal 3
  | SecurityScore.POOR => literal 2
  | SecurityScore.CRITICAL => literal 1
  end.

(** The lines of [calculateOverallScore] that follow the average; [4.5]
    is 9 halves. *)
Definition scoreOfAverage (average : spec_float) : SecurityScore.t :=
  if atLeast average (Binary64.ofZ 9 (-1)) then SecurityScore.EXCELLENT
  else if atLeast average (Binary64.ofZ 7 (-1)) then SecurityScore.GOOD
  else if atLeast average (Binary64.ofZ 5 (-1)) then SecurityScore.FAIR
  else if atLeast average (Binary64.ofZ 3 (-1)) then SecurityScore.POOR
  else SecurityScore.CRITICAL.

(** [calculateOverallScore], on the numbers of JavaScript. *)
Definition calculateOverallScore (scores : list SecurityScore.t) : SecurityScore.t :=
  if bool_decide (length scores = 0%nat) then SecurityScore.FAIR
  else
    let average :=
      divide (foldl (fun sum score => plus sum (scoreValues score)) (literal 0) scores)
             (literal (Z.of_nat (length scores))) in
    scoreOfAverage average.

(** [xs.filter(p).length] *)
Definition count {A} (P : A -> Prop) `{!forall x, Decision (P x)} (xs : list A) : Z :=
  Z.of_nat (length (filter P xs)).

(** [createAuditSummary] *)
Definition createAuditSummary (results : list SecurityAnalysisResult.t) : AuditSummary.t :=
  let totalServers := Z.of_nat (length results) in
  let serversAnalyzed :=
    count (fun r => (0 < length (SecurityAnalysisResult.checks r))%nat) results in
  let criticalVulnerabilities :=
    foldl (fun count_ result =>
             count_ + count (fun v => Vulnerability.severity v = Severity.CRITICAL)
                        (SecurityAnalysisResult.vulnerabilities result))
      0 results in
  let highSeverityIssues :=
    foldl (fun count_ result =>
             let highVulns :=
               count (fun v => Vulnerability.severity v = Severity.HIGH)
                 (SecurityAnalysisResult.vulnerabilities result) in
             let highFailedChecks :=
               count (fun c => SecurityCheck.severity c = Severity.HIGH
                               /\ SecurityCheck.status c = CheckStatus.FAIL)
                 (SecurityAnalysisResult.checks result) in
             count_ + highVulns + highFailedChecks)
      0 results in
  let recommendations :=
    foldl (fun count_ result =>
             count_ + Z.of_nat (length (SecurityAnalysisResult.recommendations result)))
      0 results in
  let scores := SecurityAnalysisResult.overallScore <$> results in
  let overallSecurityScore := calculateOverallScore scores in
  AuditSummary.mk totalServers serversAnalyzed overallSecurityScore
    criticalVulnerabilities highSeverityIssues recommendations.

(** [createAuditReport] *)
Definition createAuditReport (w : Env) (results : list SecurityAnalysisResult.t)
  : Js State AuditReport.t :=
  let summary := createAuditSummary results in
  now <- dateNow w ;;
  timestamp <- dateNow w ;;
  ret (AuditReport.mk
         ("audit-" +:+ pretty now)
         timestamp
         summary
         results
         (ReportMetadata.mk "1.0.0" "MCP Security Auditor" 0)).

(** [getStatusEmoji] *)
Definition getStatusEmoji (status : CheckStatus.t) : string :=
  match status with
  | CheckStatus.PASS => "✅"
  | CheckStatus.WARNING => "⚠️"
  | CheckStatus.FAIL => "❌"
  | CheckStatus.ERROR => "🔧"
  | CheckStatus.SKIP => "⏭️"
  end.

(** [ensureDirectoryExists] *)
Definition ensureDirectoryExists (w : Env) (dirPath : string) : Js State unit :=
  tryCatch
    (call (Mkdir dirPath) ;;;
     await (fs_mkdir w dirPath))
    (fun error =>
       if bool_decide (errorCode w error <> Some "EEXIST")
       then throw error
       else ret tt).

(** [fs.writeFile(path, data, 'utf-8')] *)
Definition writeFile (w : Env) (path data : string) : Js State unit :=
  call (WriteFile path data) ;;;
  await (fs_writeFile w path data).

(** The line feed, and the double quote. *)
Definition newline : string := String "010"%char EmptyString.
Definition quote : string := String "034"%char EmptyString.

(** *** The Markdown report

    Each template literal of [generateMarkdownContent] is a definition: the
    row of a check, the entry of a vulnerability, the entry of a
    recommendation, what a server adds, and the head of the report. *)

Definition markdownCheck (check : SecurityCheck.t) : string :=
  "| "
  +:+ SecurityCheck.name check
  +:+ " | "
  +:+ getStatusEmoji (SecurityCheck.status check)
  +:+ " "
  +:+ CheckStatus.text (SecurityCheck.status check)
  +:+ " | "
  +:+ Severity.text (SecurityCheck.severity check)
  +:+ " | "
  +:+ SecurityCheck.description check
  +:+ " |".

Definition markdownVulnerability (vuln : Vulnerability.t) : string :=
  "
**"
  +:+ Vulnerability.title vuln
  +:+ "** ("
  +:+ JsString.toUpperCase (Severity.text (Vulnerability.severity vuln))
  +:+ ")
- **Description:** "
  +:+ Vulnerability.description vuln
  +:+ "
- **Category:** "
  +:+ SecurityCategory.text (Vulnerability.category vuln)
  +:+ "
- **Affected:** "
  +:+ Vulnerability.affected vuln
  +:+ "
"
  +:+ (if truthy (Vulnerability.remediation vuln)
       then "- **Remediation:** "
            +:+ orString (Vulnerability.remediation vuln) ""
       else "")
  +:+ "
".

Definition markdownRecommendation (rec : SecurityRecommendation.t) : string :=
  "
- **"
  +:+ SecurityRecommendation.title rec
  +:+ "** ("
  +:+ JsString.toUpperCase (Severity.text (SecurityRecommendation.severity rec))
  +:+ ")
  - "
  +:+ SecurityRecommendation.description rec
  +:+ "
  - Action Required: "
  +:+ (if SecurityRecommendation.actionRequired rec then "Yes" else "No")
  +:+ "
".

(** The callback of [servers.forEach] in [generateMarkdownContent]: what
    it leaves in [markdown]. *)
Definition markdownServer (w : Env) (config : ReportConfig.t) (markdown : string)
    (server : SecurityAnalysisResult.t) : string :=
  let markdown :=
    markdown
    +:+ "### "
       +:+ SecurityAnalysisResult.serverName server
       +:+ " (Score: "
       +:+ SecurityScore.letter (SecurityAnalysisResult.overallScore server)
       +:+ ")

**Endpoint:** "
       +:+ SecurityAnalysisResult.endpoint server
       +:+ "  
**Analyzed:** "
       +:+ toLocaleString w (SecurityAnalysisResult.timestamp server)
       +:+ "

#### Security Checks

| Check | Status | Severity | Description |
|-------|--------|----------|-------------|
"
       +:+ String.concat newline (markdownCheck <$> SecurityAnalysisResult.checks server)
       +:+ "

" in
  let markdown :=
    if bool_decide (0 < length (SecurityAnalysisResult.vulnerabilities server))%nat
    then markdown
         +:+ "#### Vulnerabilities

"
         +:+ String.concat newline
           (markdownVulnerability <$> SecurityAnalysisResult.vulnerabilities server)
         +:+ "

"
    else markdown in
  let markdown :=
    if ReportConfig.includeRecommendations config
       && bool_decide (0 < length (SecurityAnalysisResult.recommendations server))%nat
    then markdown
         +:+ "#### Recommendations

"
         +:+ String.concat newline
           (markdownRecommendation <$> SecurityAnalysisResult.recommendations server)
         +:+ "

"
    else markdown in
  markdown +:+ "---" +:+ newline +:+ newline.

(** [generateMarkdownContent] *)
Definition generateMarkdownContent (w : Env) (auditReport : AuditReport.t)
    (config : ReportConfig.t) : string :=
  let summary := AuditReport.summary auditReport in
  let servers := AuditReport.servers auditReport in
  let markdown :=
    "# 🔒 MCP Security Audit Report

**Generated:** "
    +:+ toLocaleString w (AuditReport.timestamp auditReport)
    +:+ "

## Summary

| Metric | Value |
|--------|-------|
| Total Servers | "
    +:+ pretty (AuditSummary.totalServers summary)
    +:+ " |
| Servers Analyzed | "
    +:+ pretty (AuditSummary.serversAnalyzed summary)
    +:+ " |
| Overall Security Score | **"
    +:+ SecurityScore.letter (AuditSummary.overallSecurityScore summary)
    +:+ "** |
| Critical Vulnerabilities | "
    +:+ pretty (AuditSummary.criticalVulnerabilities summary)
    +:+ " |
| High Severity Issues | "
    +:+ pretty (AuditSummary.highSeverityIssues summary)
    +:+ " |
| Recommendations | "
    +:+ pretty (AuditSummary.recommendations summary)
    +:+ " |

## Server Analysis Results

" in
  foldl (markdownServer w config) markdown servers.

(** *** The HTML report

    [quote] is the character that cannot stand inside a string here. *)

Definition htmlCheck (check : SecurityCheck.t) : string :=
  "
                    <div class=" +:+ quote +:+ "check-item check-"
  +:+ CheckStatus.text (SecurityCheck.status check)
  +:+ quote +:+ ">
                        <strong>"
  +:+ SecurityCheck.name check
  +:+ "</strong><br>
                        "
  +:+ SecurityCheck.description check
  +:+ "
                        "
  +:+ (if truthy (SecurityCheck.details check)
       then "<br><small>"
            +:+ orString (SecurityCheck.details check) ""
            +:+ "</small>"
       else "")
  +:+ "
                    </div>
                ".

Definition htmlVulnerability (vuln : Vulnerability.t) : string :=
  "
           <div class=" +:+ quote +:+ "vulnerability vulnerability-"
  +:+ Severity.text (Vulnerability.severity vuln)
  +:+ quote +:+ ">
             <h4>"
  +:+ Vulnerability.title vuln
  +:+ "</h4>
             <p>"
  +:+ Vulnerability.description vuln
  +:+ "</p>
             <p><strong>Severity:</strong> "
  +:+ JsString.toUpperCase (Severity.text (Vulnerability.severity vuln))
  +:+ "</p>
             <p><strong>Category:</strong> "
  +:+ SecurityCategory.text (Vulnerability.category vuln)
  +:+ "</p>
             <p><strong>Affected:</strong> "
  +:+ Vulnerability.affected vuln
  +:+ "</p>
             "
  +:+ (if truthy (Vulnerability.remediation vuln)
       then "<p><strong>Remediation:</strong> "
            +:+ orString (Vulnerability.remediation vuln) ""
            +:+ "</p>"
       else "")
  +:+ "
           </div>
         ".

Definition htmlRecommendation (rec : SecurityRecommendation.t) : string :=
  "
           <div style=" +:+ quote +:+ "margin: 10px 0; padding: 10px; background: #e7f3ff; border-radius: 6px;" +:+ quote +:+ ">
             <h4>"
  +:+ SecurityRecommendation.title rec
  +:+ "</h4>
             <p>"
  +:+ SecurityRecommendation.description rec
  +:+ "</p>
             <p><strong>Severity:</strong> "
  +:+ JsString.toUpperCase (Severity.text (SecurityRecommendation.severity rec))
  +:+ "</p>
             <p><strong>Action Required:</strong> "
  +:+ (if SecurityRecommendation.actionRequired rec then "Yes" else "No")
  +:+ "</p>
           </div>
         ".

(** [generateServerHTML] *)
Definition generateServerHTML (w : Env) (server : SecurityAnalysisResult.t)
    (config : ReportConfig.t) : string :=
  let vulnerabilitiesHTML :=
    if bool_decide (0 < length (SecurityAnalysisResult.vulnerabilities server))%nat
    then "<button class=" +:+ quote +:+ "collapsible" +:+ quote +:+ ">Vulnerabilities ("
         +:+ pretty (length (SecurityAnalysisResult.vulnerabilities server))
         +:+ ")</button>
       <div class=" +:+ quote +:+ "content" +:+ quote +:+ ">
         "
         +:+ String.concat ""
           (htmlVulnerability <$> SecurityAnalysisResult.vulnerabilities server)
         +:+ "
       </div>"
    else "" in
  let recommendationsHTML :=
    if ReportConfig.includeRecommendations config
       && bool_decide (0 < length (SecurityAnalysisResult.recommendations server))%nat
    then "<button class=" +:+ quote +:+ "collapsible" +:+ quote +:+ ">Recommendations ("
         +:+ pretty (length (SecurityAnalysisResult.recommendations server))
         +:+ ")</button>
       <div class=" +:+ quote +:+ "content" +:+ quote +:+ ">
         "
         +:+ String.concat ""
           (htmlRecommendation <$> SecurityAnalysisResult.recommendations server)
         +:+ "
       </div>"
    else "" in
  "
    <div class=" +:+ quote +:+ "server-card" +:+ quote +:+ ">
        <div class=" +:+ quote +:+ "server-header" +:+ quote +:+ ">
            <h3>"
  +:+ SecurityAnalysisResult.serverName server
  +:+ "</h3>
            <span class=" +:+ quote +:+ "security-score score-"
  +:+ SecurityScore.letter (SecurityAnalysisResult.overallScore server)
  +:+ quote +:+ ">"
  +:+ SecurityScore.letter (SecurityAnalysisResult.overallScore server)
  +:+ "</span>
        </div>
        <p><strong>Endpoint:</strong> "
  +:+ SecurityAnalysisResult.endpoint server
  +:+ "</p>
        <p><strong>Analyzed:</strong> "
  +:+ toLocaleString w (SecurityAnalysisResult.timestamp server)
  +:+ "</p>
        
        <button class=" +:+ quote +:+ "collapsible" +:+ quote +:+ ">Security Checks ("
  +:+ pretty (length (SecurityAnalysisResult.checks server))
  +:+ ")</button>
        <div class=" +:+ quote +:+ "content" +:+ quote +:+ ">
            <div class=" +:+ quote +:+ "checks-grid" +:+ quote +:+ ">
                "
  +:+ String.concat "" (htmlCheck <$> SecurityAnalysisResult.checks server)
  +:+ "
            </div>
        </div>
        
        "
  +:+ vulnerabilitiesHTML
  +:+ "
        "
  +:+ recommendationsHTML
  +:+ "
    </div>".

(** [generateHTMLContent] *)
Definition generateHTMLContent (w : Env) (auditReport : AuditReport.t)
    (config : ReportConfig.t) : string :=
  let summary := AuditReport.summary auditReport in
  let servers := AuditReport.servers auditReport in
  "<!DOCTYPE html>
<html lang=" +:+ quote +:+ "en" +:+ quote +:+ ">
<head>
    <meta charset=" +:+ quote +:+ "UTF-8" +:+ quote +:+ ">
    <meta name=" +:+ quote +:+ "viewport" +:+ quote +:+ " content=" +:+ quote +:+ "width=device-width, initial-scale=1.0" +:+ quote +:+ ">
    <title>MCP Security Audit Report</title>
    <style>
        body { 
            font-family: -apple-system, BlinkMacSystemFont, 'Segoe UI', 'Roboto', sans-serif;
            line-height: 1.6;
            color: #333;
            max-width: 1200px;
            margin: 0 auto;
            padding: 20px;
        }
        .header { 
            border-bottom: 2px solid #007acc;
            padding-bottom: 20px;
            margin-bottom: 30px;
        }
        .summary { 
            display: grid;
            grid-template-columns: repeat(auto-fit, minmax(200px, 1fr));
            gap: 20px;
            margin-bottom: 30px;
        }
        .summary-card {
            background: #f8f9fa;
            padding: 20px;
            border-radius: 8px;
            border-left: 4px solid #007acc;
        }
        .summary-card h3 { margin-top: 0; color: #007acc; }
        .summary-card .value { font-size: 2em; font-weight: bold; }
        .security-score {
            display: inline-block;
            padding: 8px 16px;
            border-radius: 20px;
            font-weight: bold;
            color: white;
        }
        .score-A { background-color: #28a745; }
        .score-B { background-color: #17a2b8; }
        .score-C { background-color: #ffc107; color: #212529; }
        .score-D { background-color: #fd7e14; }
        .score-F { background-color: #dc3545; }
        .server-card {
            background: white;
            border: 1px solid #e9ecef;
            border-radius: 8px;
            padding: 20px;
            margin-bottom: 20px;
            box-shadow: 0 2px 4px rgba(0,0,0,0.1);
        }
        .server-header {
            display: flex;
            justify-content: space-between;
            align-items: center;
            margin-bottom: 15px;
        }
        .server-header h3 { margin: 0; }
        .checks-grid {
            display: grid;
            grid-template-columns: repeat(auto-fill, minmax(300px, 1fr));
            gap: 15px;
            margin-top: 15px;
        }
        .check-item {
            padding: 10px;
            border-radius: 6px;
            border-left: 4px solid;
        }
        .check-pass { border-left-color: #28a745; background-color: #d4edda; }
        .check-warning { border-left-color: #ffc107; background-color: #fff3cd; }
        .check-fail { border-left-color: #dc3545; background-color: #f8d7da; }
        .check-error { border-left-color: #6c757d; background-color: #e2e3e5; }
        .vulnerability {
            background-color: #f8d7da;
            border: 1px solid #f5c6cb;
            border-radius: 6px;
            padding: 15px;
            margin: 10px 0;
        }
        .vulnerability-critical { border-left: 4px solid #dc3545; }
        .vulnerability-high { border-left: 4px solid #fd7e14; }
        .vulnerability-medium { border-left: 4px solid #ffc107; }
        .vulnerability-low { border-left: 4px solid #17a2b8; }
        .timestamp { color: #6c757d; font-size: 0.9em; }
        .collapsible {
            background-color: #f1f1f1;
            color: #444;
            cursor: pointer;
            padding: 15px;
            width: 100%;
            border: none;
            text-align: left;
            outline: none;
            font-size: 16px;
            margin-top: 10px;
        }
        .collapsible:hover { background-color: #ddd; }
        .content {
            padding: 0 18px;
            max-height: 0;
            overflow: hidden;
            transition: max-height 0.2s ease-out;
            background-color: #f9f9f9;
        }
        .content.active { padding: 18px; max-height: 1000px; }
    </style>
</head>
<body>
    <div class=" +:+ quote +:+ "header" +:+ quote +:+ ">
        <h1>🔒 MCP Security Audit Report</h1>
        <p class=" +:+ quote +:+ "timestamp" +:+ quote +:+ ">Generated on "
  +:+ toLocaleString w (AuditReport.timestamp auditReport)
  +:+ "</p>
    </div>

    <div class=" +:+ quote +:+ "summary" +:+ quote +:+ ">
        <div class=" +:+ quote +:+ "summary-card" +:+ quote +:+ ">
            <h3>Total Servers</h3>
            <div class=" +:+ quote +:+ "value" +:+ quote +:+ ">"
  +:+ pretty (AuditSummary.totalServers summary)
  +:+ "</div>
        </div>
        <div class=" +:+ quote +:+ "summary-card" +:+ quote +:+ ">
            <h3>Servers Analyzed</h3>
            <div class=" +:+ quote +:+ "value" +:+ quote +:+ ">"
  +:+ pretty (AuditSummary.serversAnalyzed summary)
  +:+ "</div>
        </div>
        <div class=" +:+ quote +:+ "summary-card" +:+ quote +:+ ">
            <h3>Overall Security Score</h3>
            <div class=" +:+ quote +:+ "value" +:+ quote +:+ ">
                <span class=" +:+ quote +:+ "security-score score-"
  +:+ SecurityScore.letter (AuditSummary.overallSecurityScore summary)
  +:+ quote +:+ ">
                    "
  +:+ SecurityScore.letter (AuditSummary.overallSecurityScore summary)
  +:+ "
                </span>
            </div>
        </div>
        <div class=" +:+ quote +:+ "summary-card" +:+ quote +:+ ">
            <h3>Critical Vulnerabilities</h3>
            <div class=" +:+ quote +:+ "value" +:+ quote +:+ " style=" +:+ quote +:+ "color: #dc3545;" +:+ quote +:+ ">"
  +:+ pretty (AuditSummary.criticalVulnerabilities summary)
  +:+ "</div>
        </div>
        <div class=" +:+ quote +:+ "summary-card" +:+ quote +:+ ">
            <h3>High Severity Issues</h3>
            <div class=" +:+ quote +:+ "value" +:+ quote +:+ " style=" +:+ quote +:+ "color: #fd7e14;" +:+ quote +:+ ">"
  +:+ pretty (AuditSummary.highSeverityIssues summary)
  +:+ "</div>
        </div>
        <div class=" +:+ quote +:+ "summary-card" +:+ quote +:+ ">
            <h3>Recommendations</h3>
            <div class=" +:+ quote +:+ "value" +:+ quote +:+ " style=" +:+ quote +:+ "color: #17a2b8;" +:+ quote +:+ ">"
  +:+ pretty (AuditSummary.recommendations summary)
  +:+ "</div>
        </div>
    </div>

    <h2>Server Analysis Results</h2>
    "
  +:+ String.concat "" ((fun server => generateServerHTML w server config) <$> servers)
  +:+ "

    <script>
        document.addEventListener('DOMContentLoaded', function() {
            const collapsibles = document.querySelectorAll('.collapsible');
            collapsibles.forEach(function(collapsible) {
                collapsible.addEventListener('click', function() {
                    this.classList.toggle('active');
                    const content = this.nextElementSibling;
                    content.classList.toggle('active');
                });
            });
        });
    </script>
</body>
</html>".

(** [generateJSONReport], [generateHTMLReport], [generateMarkdownReport] *)
Definition generateJSONReport (w : Env) (auditReport : AuditReport.t)
    (config : ReportConfig.t) : Js State string :=
  let jsonData := JSON_stringify w auditReport in
  writeFile w (ReportConfig.outputPath config) jsonData ;;;
  ret (ReportConfig.outputPath config).

Definition generateHTMLReport (w : Env) (auditReport : AuditReport.t)
    (config : ReportConfig.t) : Js State string :=
  let html := generateHTMLContent w auditReport config in
  writeFile w (ReportConfig.outputPath config) html ;;;
  ret (ReportConfig.outputPath config).

Definition generateMarkdownReport (w : Env) (auditReport : AuditReport.t)
    (config : ReportConfig.t) : Js State string :=
  let markdown := generateMarkdownContent w auditReport config in
  writeFile w (ReportConfig.outputPath config) markdown ;;;
  ret (ReportConfig.outputPath config).

(** [generateReport] *)
Definition generateReport (w : Env) (results : list SecurityAnalysisResult.t)
    (config : ReportConfig.t) : Js State string :=
  ensureDirectoryExists w (path_dirname w (ReportConfig.outputPath config)) ;;;
  auditReport <- createAuditReport w results ;;
  if String.eqb (ReportConfig.format config) "json"
  then generateJSONReport w auditReport config
  else if String.eqb (ReportConfig.format config) "html"
  then generateHTMLReport w auditReport config
  else if String.eqb (ReportConfig.format config) "markdown"
  then generateMarkdownReport w auditReport config
  else throw (ErrorObject "Error"
                ("Unsupported report format: " +:+ ReportConfig.format config)).

End ReportGenerator.
(** ** [MCPSecurityAuditor.performAudit] *)

Module MCPSecurityAuditor.

(** The arrow function mapped over [allServers], from its first [await]
    on: the analysis of [server] ends, and its result is pushed on
    [analysisResults] or its failure is reported. *)
Definition completeAnalysis
    (analyze : MCPServer.t -> Js Console SecurityAnalysisResult.t)
    (analysisResults : list SecurityAnalysisResult.t) (server : MCPServer.t)
  : Js Console (list SecurityAnalysisResult.t) :=
  tryCatch
    (result <- analyze server ;;
     ret (analysisResults ++ [result]))
    (fun error =>
       log (console_error
              ("❌ Failed to analyze " +:+ MCPServer.name server +:+ ": " +:+ toString error)
              None) ;;;
       ret analysisResults).

Fixpoint completeAll
    (analyze : nat -> MCPServer.t -> Js Console SecurityAnalysisResult.t)
    (allServers : list MCPServer.t)
    (analysisResults : list SecurityAnalysisResult.t) (order : list nat)
  : Js Console (list SecurityAnalysisResult.t) :=
  match order with
  | [] => ret analysisResults
  | i :: order' =>
      match allServers !! i with
      | Some server =>
          analysisResults' <- completeAnalysis (analyze i) analysisResults server ;;
          completeAll analyze allServers analysisResults' order'
      | None => completeAll analyze allServers analysisResults order'
      end
  end.

(** [performAudit].  [discovery] is the way
    [discoveryService.discoverServers(config)] settles; [analyze i] is
    [securityAnalyzer.analyzeServer] as called for the server of index [i];
    [order] lists the indices of [allServers] in the order in which their
    analyses end (the callbacks run concurrently: each logs its first
    line when [map] calls it, and the rest of each is taken as one
    step). *)
Definition performAuditWith
    (analyze : nat -> MCPServer.t -> Js Console SecurityAnalysisResult.t)
    (discovery : settled (list DiscoveryResult.t)) (order : list nat)
  : Js Console (list SecurityAnalysisResult.t) :=
  tryCatch
    (log (console_log "🔍 Starting MCP server discovery...") ;;;
     discoveryResults <- await discovery ;;
     let allServers := flat_map DiscoveryResult.servers discoveryResults in
     log (console_log ("✅ Discovered " +:+ pretty (length allServers) +:+ " MCP servers")) ;;;
     if bool_decide (length allServers = 0%nat)
     then
       log (console_log "ℹ️ No MCP servers found to analyze") ;;;
       ret []
     else
       log (console_log "🔒 Starting security analysis...") ;;;
       SecurityAnalyzer.forOf allServers (fun server =>
         log (console_log ("🔍 Analyzing " +:+ MCPServer.name server +:+ " ("
                           +:+ MCPServer.endpoint server +:+ ")"))) ;;;
       analysisResults <- completeAll analyze allServers [] order ;;
       log (console_log ("✅ Completed security analysis for "
                         +:+ pretty (length analysisResults) +:+ " servers")) ;;;
       ret analysisResults)
    (fun error =>
       log (console_error "❌ Audit failed:" (Some error)) ;;;
       throw error).

(** [performAudit] with the analyzer of the class; [world i] is what the
    analysis of the server of index [i] meets. *)
Definition performAudit (world : nat -> World)
    (discovery : settled (list DiscoveryResult.t)) (order : list nat)
  : Js Console (list SecurityAnalysisResult.t) :=
  performAuditWith (fun i => SecurityAnalyzer.analyzeServer (world i)) discovery order.

(** [discoverServers] of the auditor: the servers of every source, end
    to end. *)
Definition discoverServers (fuel : nat) (w : DiscoveryService.Env)
    (config : DiscoveryConfig.t) : option (Js DiscoveryService.State (list MCPServer.t)) :=
  discovery ← DiscoveryService.discoverServers fuel w config ;
  Some (discoveryResults <- discovery ;;
        ret (flat_map DiscoveryResult.servers discoveryResults)).

(** [console.log(text)], for a body that owns the console next to the
    state of the service it calls. *)
Definition say {S} (text : string) : Js (S * Console) unit := push (console_log text).

(** [generateReport] of the auditor *)
Definition generateReport (w : ReportGenerator.Env)
    (results : list SecurityAnalysisResult.t) (config : ReportConfig.t)
  : Js (ReportGenerator.State * Console) string :=
  say ("📄 Generating " +:+ ReportConfig.format config +:+ " report...") ;;;
  reportPath <- lift (ReportGenerator.generateReport w results config) ;;
  say ("✅ Report generated: " +:+ reportPath) ;;;
  ret reportPath.

End MCPSecurityAuditor.

(** ** The command line (cli/index.ts): what it computes

    The handlers of the commands drive a spinner and the terminal; the
    functions below are the ones they compute with. *)

Module CLIOptions.
(** The options as the parser of the command line hands them over: the
    value of [--timeout] and of [--parallel] is the text that was typed. *)
Record t := mk {
  config : option string;
  output : option string;
  format : option string;
  verbose : bool;
  timeout : option string;
  exclude : option (list string);
  include : option (list string);
  parallel : option string
}.
End CLIOptions.

Module MCPSecurityAuditorCLI.

Record Env := mkEnv {
  (** [parseInt(text)]; [None] is NaN *)
  parseInt : string -> option Z;
  existsSync : string -> bool;
  fs_readFile : string -> settled string;
  (** [JSON.parse(configContent)], returned as it is *)
  JSON_parse : string -> settled DiscoveryConfig.t
}.

(** The configuration [loadConfiguration] falls back on. *)
Definition defaultConfiguration : DiscoveryConfig.t :=
  DiscoveryConfig.mk
    [DiscoverySource.mk "local"
       (DiscoverySource.mkConfig
          (Some ["."])
          (Some ["**/mcp.config.json"; "**/mcp.yaml"; "**/package.json"])
          None None None)
       true;
     DiscoverySource.mk "vscode"
       (DiscoverySource.mkConfig None None None None None)
       true]
    (Some 10000)
    (Some 5)
    (Some ["**/node_modules/**"; "**/.*"]).

(** [loadConfiguration] *)
Definition loadConfiguration (w : Env) (configPath : option string)
  : settled DiscoveryConfig.t :=
  if truthy configPath && existsSync w (orString configPath "")
  then
    match fs_readFile w (orString configPath "") with
    | fulfilled configContent => JSON_parse w configContent
    | rejected error => rejected error
    end
  else fulfilled defaultConfiguration.

(** [applyOptionsToConfig]: the configuration it leaves. *)
Definition applyOptionsToConfig (w : Env) (config : DiscoveryConfig.t)
    (options : CLIOptions.t) : DiscoveryConfig.t :=
  let config :=
    if truthy (CLIOptions.timeout options)
    then DiscoveryConfig.mk
           (DiscoveryConfig.sources config)
           (parseInt w (orString (CLIOptions.timeout options) ""))
           (DiscoveryConfig.maxConcurrent config)
           (DiscoveryConfig.excludePatterns config)
    else config in
  let config :=
    if truthy (CLIOptions.parallel options)
    then DiscoveryConfig.mk
           (DiscoveryConfig.sources config)
           (DiscoveryConfig.timeout config)
           (parseInt w (orString (CLIOptions.parallel options) ""))
           (DiscoveryConfig.excludePatterns config)
    else config in
  match CLIOptions.exclude options with
  | Some exclude =>
      DiscoveryConfig.mk
        (DiscoveryConfig.sources config)
        (DiscoveryConfig.timeout config)
        (DiscoveryConfig.maxConcurrent config)
        (Some (default [] (DiscoveryConfig.excludePatterns config) ++ exclude))
  | None => config
  end.

(** [selectedSources.includes(name)] *)
Definition includes (selectedSources : list string) (name : string) : bool :=
  bool_decide (name ∈ selectedSources).

(** [createSourcesFromAnswers] *)
Definition createSourcesFromAnswers (selectedSources : list string)
  : list DiscoverySource.t :=
  let sources := [] in
  let sources :=
    if includes selectedSources "local"
    then sources ++ [DiscoverySource.mk "local"
                       (DiscoverySource.mkConfig
                          (Some ["."])
                          (Some ["**/mcp.config.json"; "**/mcp.yaml"; "**/package.json"])
                          None None None)
                       true]
    else sources in
  let sources :=
    if includes selectedSources "vscode"
    then sources ++ [DiscoverySource.mk "vscode"
                       (DiscoverySource.mkConfig None None None None None)
                       true]
    else sources in
  let sources :=
    if includes selectedSources "registry"
    then sources ++ [DiscoverySource.mk "registry"
                       (DiscoverySource.mkConfig None None
                          (Some "https://registry.modelcontextprotocol.org/api/servers")
                          None None)
                       true]
    else sources in
  let sources :=
    if includes selectedSources "api"
    then sources ++ [DiscoverySource.mk "api"
                       (DiscoverySource.mkConfig None None
                          (Some "https://api.example.com/mcp/servers")
                          None None)
                       false]
    else sources in
  sources.

Module ScoreDistribution.
Record t := mk { A : Z; B : Z; C : Z; D : Z; F : Z }.
End ScoreDistribution.

Module Summary.
Record t := mk {
  total : Z;
  scoreDistribution : ScoreDistribution.t;
  criticalVulns : Z;
  highSeverity : Z;
  recommendations : Z;
  (** [{ server, issue }] *)
  topIssues : list (string * string)
}.
End Summary.

(** [summary.scoreDistribution[score]++] *)
Definition increment (score : SecurityScore.t) (d : ScoreDistribution.t)
  : ScoreDistribution.t :=
  match score with
  | SecurityScore.EXCELLENT =>
      ScoreDistribution.mk (ScoreDistribution.A d + 1) (ScoreDistribution.B d)
        (ScoreDistribution.C d) (ScoreDistribution.D d) (ScoreDistribution.F d)
  | SecurityScore.GOOD =>
      ScoreDistribution.mk (ScoreDistribution.A d) (ScoreDistribution.B d + 1)
        (ScoreDistribution.C d) (ScoreDistribution.D d) (ScoreDistribution.F d)
  | SecurityScore.FAIR =>
      ScoreDistribution.mk (ScoreDistribution.A d) (ScoreDistribution.B d)
        (ScoreDistribution.C d + 1) (ScoreDistribution.D d) (ScoreDistribution.F d)
  | SecurityScore.POOR =>
      ScoreDistribution.mk (ScoreDistribution.A d) (ScoreDistribution.B d)
        (ScoreDistribution.C d) (ScoreDistribution.D d + 1) (ScoreDistribution.F d)
  | SecurityScore.CRITICAL =>
      ScoreDistribution.mk (ScoreDistribution.A d) (ScoreDistribution.B d)
        (ScoreDistribution.C d) (ScoreDistribution.D d) (ScoreDistribution.F d + 1)
  end.

(** The callback of [result.vulnerabilities.forEach] in
    [calculateSummary]. *)
Definition collectIssue (result : SecurityAnalysisResult.t)
    (topIssues : list (string * string)) (vuln : Vulnerability.t)
  : list (string * string) :=
  if bool_decide (Vulnerability.severity vuln = Severity.CRITICAL)
     || bool_decide (Vulnerability.severity vuln = Severity.HIGH)
  then topIssues ++ [(SecurityAnalysisResult.serverName result, Vulnerability.title vuln)]
  else topIssues.

(** The callback of [results.forEach] in [calculateSummary]. *)
Definition summarize (summary : Summary.t) (result : SecurityAnalysisResult.t)
  : Summary.t :=
  Summary.mk
    (Summary.total summary)
    (increment (SecurityAnalysisResult.overallScore result)
       (Summary.scoreDistribution summary))
    (Summary.criticalVulns summary
     + ReportGenerator.count (fun v => Vulnerability.severity v = Severity.CRITICAL)
         (SecurityAnalysisResult.vulnerabilities result))
    (Summary.highSeverity summary
     + ReportGenerator.count (fun v => Vulnerability.severity v = Severity.HIGH)
         (SecurityAnalysisResult.vulnerabilities result))
    (Summary.recommendations summary
     + Z.of_nat (length (SecurityAnalysisResult.recommendations result)))
    (foldl (collectIssue result) (Summary.topIssues summary)
       (SecurityAnalysisResult.vulnerabilities result)).

(** [calculateSummary] *)
Definition calculateSummary (results : list SecurityAnalysisResult.t) : Summary.t :=
  foldl summarize
    (Summary.mk (Z.of_nat (length results)) (ScoreDistribution.mk 0 0 0 0 0) 0 0 0 [])
    results.

(** [extractProtocol] of the command line *)
Definition extractProtocol (endpoint : string) : Protocol.t :=
  if JsString.startsWith "wss://" endpoint then Protocol.wss
  else if JsString.startsWith "ws://" endpoint then Protocol.ws
  else if JsString.startsWith "https://" endpoint then Protocol.https
  else Protocol.http.

(** The server record [handleServerCommand] builds for the endpoint it was
    given; [now] and [lastSeen] are the two readings of the clock. *)
Definition manualServer (now lastSeen : Z) (endpoint : string) : MCPServer.t :=
  MCPServer.mk
    ("manual-" +:+ pretty now)
    "Manual Server"
    "1.0.0"
    None
    endpoint
    (extractProtocol endpoint)
    (Some "Unknown")
    lastSeen
    (Some (MCPServerMetadata.mk None None None None None None None)).

End MCPSecurityAuditorCLI.

(** ** Rounding in binary64

    The vocabulary in which the operations of [SpecFloat] are described:
    the integer nearest to a fraction, the place of a fraction between two
    integers, and the binary64 number of a given value. *)

Module Rounding.

(** The integer nearest to [n / d], the even one of two that are as near. *)
Definition nearestEven (n d : Z) : Z :=
  let q := n / d in
  match 2 * (n mod d) ?= d with
  | Lt => q
  | Eq => if Z.even q then q else q + 1
  | Gt => q + 1
  end.

(** Where [n / d] lies between two integers. *)
Definition locate (n d : Z) : location :=
  if n mod d =? 0 then loc_Exact else loc_Inexact (2 * (n mod d) ?= d).

(** The record holds the integer part of [n / d] and where [n / d] lies
    above it. *)
Definition located (n d : Z) (mrs : shr_record) : Prop :=
  shr_m mrs = n / d /\ loc_of_shr_record mrs = locate n d.

(** The binary64 number of value [n * 2^e], for [n] of 53 binary digits
    at most. *)
Definition normal (n e : Z) : spec_float :=
  S754_finite false (Z.to_pos (n * 2 ^ (53 - Zdigits2 n))) (e - (53 - Zdigits2 n)).

End Rounding.

(** ** Vocabulary of the statements *)

(** A body that ends in a value from every state. *)
Definition returns {S A} (m : Js S A) : Prop :=
  forall s, exists s' a, m s = (s', fulfilled a).

(** The values of the fulfilled promises of a list, in order. *)
Fixpoint fulfilledValues {A} (results : list (settled A)) : list A :=
  match results with
  | [] => []
  | fulfilled value :: rest => value :: fulfilledValues rest
  | rejected _ :: rest => fulfilledValues rest
  end.

(** The rejected promises of a list, each with its index, counted from
    [index]. *)
Fixpoint rejections {A} (index : nat) (results : list (settled A)) : list (nat * thrown) :=
  match results with
  | [] => []
  | fulfilled _ :: rest => rejections (S index) rest
  | rejected reason :: rest => (index, reason) :: rejections (S index) rest
  end.

(** The line [analyzeServer] writes for the rejected check of index [index]. *)
Definition checkFailedLine (rejection : nat * thrown) : ConsoleLine :=
  console_warn ("Security check " +:+ pretty (fst rejection) +:+ " failed:") (snd rejection).

(** Findings of several probes put end to end. *)
Definition mergeFindings (found : Findings.t) (values : list Findings.t) : Findings.t :=
  Findings.mk
    (Findings.checks found ++ concat (Findings.checks <$> values))
    (Findings.recommendations found ++ concat (Findings.recommendations <$> values))
    (Findings.vulnerabilities found ++ concat (Findings.vulnerabilities <$> values)).

Definition isConsoleError (line : ConsoleLine) : bool :=
  match line with console_error _ _ => true | _ => false end.

Definition isConsoleWarn (line : ConsoleLine) : bool :=
  match line with console_warn _ _ => true | _ => false end.

Definition hasStatus (status : CheckStatus.t) (check : SecurityCheck.t) : bool :=
  bool_decide (SecurityCheck.status check = status).

Definition hasSeverity (severity : Severity.t) (check : SecurityCheck.t) : bool :=
  bool_decide (SecurityCheck.severity check = severity).

Definition checkNamed (name : string) (check : SecurityCheck.t) : bool :=
  String.eqb (SecurityCheck.name check) name.

Definition vulnerabilityWithId (id : string) (v : Vulnerability.t) : bool :=
  String.eqb (Vulnerability.id v) id.

Definition recommendationWithId (id : string) (r : SecurityRecommendation.t) : bool :=
  String.eqb (SecurityRecommendation.id r) id.

(** The check and the recommendation of one security header, as the table
    of section 4.1 describes them: a pass when the header is present, a
    warning and a recommendation when it is missing. *)
Definition perHeaderCheck (response : AxiosResponse.t) (entry : string * string)
  : SecurityCheck.t :=
  SecurityCheck.mk
    ("security-header-" +:+ entry.1)
    (entry.2 +:+ " Header")
    SecurityCategory.CONFIGURATION
    (if truthy (SecurityAnalyzer.headerOf response entry.1)
     then CheckStatus.PASS else CheckStatus.WARNING)
    Severity.LOW
    (entry.2 +:+ (if truthy (SecurityAnalyzer.headerOf response entry.1)
                  then " header is present" else " header is missing"))
    None None.

Definition perHeaderRecommendation (response : AxiosResponse.t) (entry : string * string)
  : option SecurityRecommendation.t :=
  if truthy (SecurityAnalyzer.headerOf response entry.1) then None
  else Some (SecurityRecommendation.mk
               ("add-" +:+ entry.1 +:+ "-header")
               ("Add " +:+ entry.2 +:+ " Header")
               ("Consider adding the " +:+ entry.1 +:+ " header for enhanced security")
               Severity.LOW
               SecurityCategory.CONFIGURATION
               false
               None).

(** The check of the authentication probe on the headers [www-authenticate]
    and [authorization], which follows its check on the status whatever
    that one found. *)
Definition authHeadersChecks (response : AxiosResponse.t) : list SecurityCheck.t :=
  if existsb (fun header => truthy (SecurityAnalyzer.headerOf response header))
       ["www-authenticate"; "authorization"]
  then [SecurityCheck.mk "auth-headers-present" "Authentication Headers"
          SecurityCategory.AUTHENTICATION CheckStatus.PASS Severity.LOW
          "Server includes proper authentication headers" None None]
  else [].

(** ** The weight a body adds to its checks

    [adds k m]: whatever the way [m] ends, the weights of the checks it
    leaves add up to at most [k] more than before.  [yields k m]: the
    checks of the findings [m] returns weigh at most [k] more than those
    it started from. *)

Definition adds {A} (k : Z) (m : Js Findings.t A) : Prop :=
  forall found,
    ScorerSpec.weightSum (Findings.checks (m found).1)
    <= ScorerSpec.weightSum (Findings.checks found) + k.

Definition yields (k : Z) (m : Js Findings.t Findings.t) : Prop :=
  forall found found' value,
    m found = (found', fulfilled value) ->
    ScorerSpec.weightSum (Findings.checks value)
    <= ScorerSpec.weightSum (Findings.checks found) + k.

(** ** Example servers and worlds

    Concrete inputs on which the statements below are run. *)

Module Examples.

Definition server (name endpoint : string) (protocol : Protocol.t) : MCPServer.t :=
  MCPServer.mk (name +:+ "-1700000000000") name "1.0.0" None endpoint protocol None
    1700000000000 None.

Definition alpha : MCPServer.t := server "alpha" "http://alpha.example.com" Protocol.http.

(** What [normalizeServerData] makes of a record without an endpoint: the
    empty string, with the protocol [extractProtocol] gives it. *)
Definition blank : MCPServer.t := server "blank" "" Protocol.http.

Definition gamma : MCPServer.t := server "gamma" "https://gamma.example.com" Protocol.https.

Definition discovered : list DiscoveryResult.t :=
  [DiscoveryResult.mk "api" [alpha; blank; gamma] [] 12].

Definition invalidURL : thrown := ErrorObject "TypeError" "Invalid URL".

(** An address that is no absolute URL: empty, or a bare path. *)
Definition relative (url : string) : bool :=
  match url with
  | EmptyString => true
  | String c _ => Ascii.eqb c "/"
  end.

Definition ok (headers : gmap string string) : AxiosResponse.t :=
  AxiosResponse.mk 200 "OK" headers (AxiosResponse.DataString "{}").

(** 2023-11-14T22:13:20Z *)
Definition now : Z := 1700000000000.

(** A certificate valid from 2023-01-01 to 2025-01-01. *)
Definition currentCertificate : PeerCertificate.t :=
  PeerCertificate.mk "Jan  1 00:00:00 2023 GMT" "Jan  1 00:00:00 2025 GMT".

(** A certificate valid from 2021-01-01 to 2022-01-01. *)
Definition expiredCertificate : PeerCertificate.t :=
  PeerCertificate.mk "Jan  1 00:00:00 2021 GMT" "Jan  1 00:00:00 2022 GMT".

(** A network whose hosts answer every absolute URL with [response], over
    a handshake that ends on [protocol] with [certificate]. *)
Definition answering (response : AxiosResponse.t) (protocol : TLSVersion.t)
    (certificate : PeerCertificate.t) : World :=
  mkWorld now now
    (fun endpoint =>
       if relative endpoint then rejected invalidURL
       else fulfilled (URL.mk "gamma.example.com" ""))
    (fun _ url => if relative url then rejected invalidURL else fulfilled response)
    (fun url => if relative url then rejected invalidURL else fulfilled response)
    (fun _ => WsOpen)
    (fun _ _ => TlsSecureConnect protocol (Some certificate)).

Definition live : World :=
  answering (ok {[ "server" := "nginx/1.25.3" ]}) TLSVersion.TLSv1_3 currentCertificate.

Definition unauthorized401 : AxiosResponse.t :=
  AxiosResponse.mk 401 "Unauthorized" {[ "www-authenticate" := "Bearer" ]}
    (AxiosResponse.DataString "").

(** A host that asks for credentials. *)
Definition guarded : World :=
  answering unauthorized401 TLSVersion.TLSv1_3 currentCertificate.

(** An answer whose Server header is there and says nothing. *)
Definition hushedResponse : AxiosResponse.t := ok {[ "server" := "" ]}.

Definition hushed : World :=
  answering hushedResponse TLSVersion.TLSv1_3 currentCertificate.

(** A host whose certificate ran out in 2022. *)
Definition expiredHost : World := answering (ok ∅) TLSVersion.TLSv1_3 expiredCertificate.

Definition found302 : AxiosResponse.t :=
  AxiosResponse.mk 302 "Found" ∅ (AxiosResponse.DataString "").

(** A host whose answer stays a redirect. *)
Definition redirecting : World :=
  answering found302 TLSVersion.TLSv1_3 currentCertificate.


End Examples.

(** ** Vocabulary of the statements on discovery and reports *)


(** The sources [discoverServers] queries. *)
Definition enabledSources (config : DiscoveryConfig.t) : list DiscoverySource.t :=
  filter (fun source => DiscoverySource.enabled source = true)
    (DiscoveryConfig.sources config).

(** The address [discoverFromRegistry] queries for a source. *)
Definition registryUrlOf (source : DiscoverySource.t) : string :=
  orString (DiscoverySource.url (DiscoverySource.config source))
    "https://registry.modelcontextprotocol.org/api/servers".





(** ** The overall score, in integers

    The average of the values of the scores (A is 5, F is 1) against the
    thresholds 4.5, 3.5, 2.5 and 1.5, with both sides doubled and
    multiplied by the number of scores. *)

Module OverallScoreSpec.

Definition value (score : SecurityScore.t) : Z :=
  match score with
  | SecurityScore.EXCELLENT => 5
  | SecurityScore.GOOD => 4
  | SecurityScore.FAIR => 3
  | SecurityScore.POOR => 2
  | SecurityScore.CRITICAL => 1
  end.

Definition total (scores : list SecurityScore.t) : Z :=
  foldr (fun score acc => value score + acc) 0 scores.

(** The score of [count] scores whose values add up to [sum]. *)
Definition ofAverage (sum count : Z) : SecurityScore.t :=
  if 9 * count <=? 2 * sum then SecurityScore.EXCELLENT
  else if 7 * count <=? 2 * sum then SecurityScore.GOOD
  else if 5 * count <=? 2 * sum then SecurityScore.FAIR
  else if 3 * count <=? 2 * sum then SecurityScore.POOR
  else SecurityScore.CRITICAL.

Definition overall (scores : list SecurityScore.t) : SecurityScore.t :=
  match scores with
  | [] => SecurityScore.FAIR
  | _ => ofAverage (total scores) (Z.of_nat (length scores))
  end.

End OverallScoreSpec.

(** A vulnerability of the given severity; a check of high severity that
    failed. *)
Definition ranked (severity : Severity.t) (v : Vulnerability.t) : Prop :=
  Vulnerability.severity v = severity.

Definition highFailure (c : SecurityCheck.t) : Prop :=
  SecurityCheck.severity c = Severity.HIGH /\ SecurityCheck.status c = CheckStatus.FAIL.

#[global] Instance ranked_dec severity v : Decision (ranked severity v).
Proof. unfold ranked. apply _. Defined.

#[global] Instance highFailure_dec c : Decision (highFailure c).
Proof. unfold highFailure. apply _. Defined.

(** The vulnerabilities, the checks and the recommendations of all the
    results of a list, end to end. *)
Definition allVulnerabilities (results : list SecurityAnalysisResult.t)
  : list Vulnerability.t :=
  results ≫= SecurityAnalysisResult.vulnerabilities.

Definition allChecks (results : list SecurityAnalysisResult.t) : list SecurityCheck.t :=
  results ≫= SecurityAnalysisResult.checks.

Definition allRecommendations (results : list SecurityAnalysisResult.t)
  : list SecurityRecommendation.t :=
  results ≫= SecurityAnalysisResult.recommendations.

(** [result] is what [analyzeServer] answers for some server, in some
    world. *)
Definition analysed (result : SecurityAnalysisResult.t) : Prop :=
  exists w server console console',
    SecurityAnalyzer.analyzeServer w server console = (console', fulfilled result).

(** The check [checkRateLimit] makes for a server. *)
Definition rateLimitCheck (server : MCPServer.t) : SecurityCheck.t :=
  match MCPServer.metadata server ≫= MCPServerMetadata.rateLimit with
  | Some _ =>
      SecurityCheck.mk "rate-limit-configured" "Rate Limiting"
        SecurityCategory.AVAILABILITY CheckStatus.PASS Severity.MEDIUM
        "Rate limiting is configured" None None
  | None =>
      SecurityCheck.mk "rate-limit-configured" "Rate Limiting"
        SecurityCategory.AVAILABILITY CheckStatus.WARNING Severity.LOW
        "Rate limiting configuration not detected" None None
  end.

(** ** Example sources and machines *)

Module DiscoveryExamples.

Definition missing : thrown :=
  ErrorObject "Error" "ENOENT: no such file or directory".

(** What a registry lists for a server that gives a name and a URL. *)
Definition listed (name url : string) : RawServer.t :=
  RawServer.mk None (Some name) None None None None (Some url) None None None
    None None None None None None None.

(** A machine without configuration files, whose registry lists two
    servers; the clock advances by one millisecond at each reading. *)
Definition desk : DiscoveryService.Env :=
  DiscoveryService.mkEnv
    (fun n => 1700000000000 + Z.of_nat n)
    (fun path => path)
    (String.concat "/")
    None
    (Some "/home/dev")
    "/work"
    (fun _ _ => fulfilled [])
    (fun _ => rejected missing)
    (fun _ => rejected missing)
    (fun _ => rejected (ErrorObject "SyntaxError" "Unexpected end of JSON input"))
    (fun _ => fulfilled None)
    (fun _ => rejected (ErrorObject "SyntaxError" "Unexpected end of JSON input"))
    (fun _ => rejected (ErrorObject "SyntaxError" "Unexpected end of JSON input"))
    (fun _ _ _ _ =>
       fulfilled (ResponseData.IsArray
                    [Some (listed "Alpha" "https://alpha.example.com");
                     Some (listed "Beta" "ws://beta.example.com")]))
    (fun error => String.eqb (errorName error) "AxiosError").



(** The same machine with the network unplugged. *)
Definition unplugged : DiscoveryService.Env :=
  DiscoveryService.mkEnv
    (DiscoveryService.clock desk)
    (DiscoveryService.path_resolve desk)
    (DiscoveryService.path_join desk)
    (DiscoveryService.env_APPDATA desk)
    (DiscoveryService.env_HOME desk)
    (DiscoveryService.process_cwd desk)
    (DiscoveryService.glob desk)
    (DiscoveryService.fs_access desk)
    (DiscoveryService.fs_readFile desk)
    (DiscoveryService.JSON_parse_server desk)
    (DiscoveryService.yaml_parse desk)
    (DiscoveryService.JSON_parse_package desk)
    (DiscoveryService.JSON_parse_settings desk)
    (fun _ _ _ _ => rejected (ErrorObject "AxiosError" "getaddrinfo ENOTFOUND"))
    (DiscoveryService.isAxiosError desk).

Definition registry : DiscoverySource.t :=
  DiscoverySource.mk "registry" (DiscoverySource.mkConfig None None None None None) true.

Definition local : DiscoverySource.t :=
  DiscoverySource.mk "local" (DiscoverySource.mkConfig None None None None None) true.

Definition api : DiscoverySource.t :=
  DiscoverySource.mk "api" (DiscoverySource.mkConfig None None None None None) true.

Definition ftp : DiscoverySource.t :=
  DiscoverySource.mk "ftp" (DiscoverySource.mkConfig None None None None None) true.

Definition disabled (source : DiscoverySource.t) : DiscoverySource.t :=
  DiscoverySource.mk (DiscoverySource.type source) (DiscoverySource.config source) false.

Definition configuration (maxConcurrent : option Z) : DiscoveryConfig.t :=
  DiscoveryConfig.mk [local; disabled api; registry; ftp] (Some 5000) maxConcurrent None.

Definition start : DiscoveryService.State := DiscoveryService.mkState [] 0.

(** A command line that reads decimal numerals, with a sign or without. *)
Definition terminal : MCPSecurityAuditorCLI.Env :=
  MCPSecurityAuditorCLI.mkEnv
    (fun text =>
       match text with
       | String "-" digits => Z.opp <$> JsString.parseInt digits
       | _ => JsString.parseInt text
       end)
    (fun _ => false)
    (fun _ => rejected missing)
    (fun _ => rejected (ErrorObject "SyntaxError" "Unexpected end of JSON input")).

(** [--parallel <count> --exclude <patterns...>] *)
Definition typed (parallel : string) (exclude : option (list string)) : CLIOptions.t :=
  CLIOptions.mk None None None false None exclude None (Some parallel).

End DiscoveryExamples.

Module ReportExamples.

(** What the analysis of [server] gives in the world [w]. *)
Definition analysis (w : World) (server : MCPServer.t) : list SecurityAnalysisResult.t :=
  match snd (SecurityAnalyzer.analyzeServer w server []) with
  | fulfilled result => [result]
  | rejected _ => []
  end.

(** The results of an audit of two servers. *)
Definition audit : list SecurityAnalysisResult.t :=
  analysis Examples.live Examples.alpha ++ analysis Examples.live Examples.gamma.

End ReportExamples.
(** ** The arithmetic of binary64

    What [SpecFloat] computes, on the numbers the code works with: sums
    that stay exact, and quotients and products rounded to the nearest
    number of 53 digits. *)

Section Digits.

Lemma digits2_pos_bounds p :
  2 ^ (Zpos (digits2_pos p) - 1) <= Zpos p < 2 ^ Zpos (digits2_pos p).
Proof.
  induction p as [p IH|p IH|]; cbn [digits2_pos]; [| |cbn; lia].
  all: rewrite Pos2Z.inj_succ;
    replace (Z.succ (Zpos (digits2_pos p)) - 1) with (Z.succ (Zpos (digits2_pos p) - 1))
      by lia;
    rewrite !Z.pow_succ_r by lia; lia.
Qed.

Lemma Zdigits2_bounds n :
  0 < n -> 0 < Zdigits2 n /\ 2 ^ (Zdigits2 n - 1) <= n < 2 ^ Zdigits2 n.
Proof.
  destruct n as [|p|p]; try lia. intros _. cbn [Zdigits2].
  split; [lia | apply digits2_pos_bounds].
Qed.

Lemma Zdigits2_unique n d :
  2 ^ (d - 1) <= n < 2 ^ d -> 0 < n -> Zdigits2 n = d.
Proof.
  intros [Hlow Hhigh] Hn. destruct (Zdigits2_bounds n Hn) as (Hpos & Hl & Hh).
  assert (0 < d).
  { destruct (Z.lt_trichotomy d 0) as [H|[H|H]]; [|subst; cbn in *; lia|lia].
    rewrite Z.pow_neg_r in Hhigh by lia. lia. }
  destruct (Z.lt_trichotomy (Zdigits2 n) d) as [H'|[H'|H']]; [|done|].
  - assert (2 ^ Zdigits2 n <= 2 ^ (d - 1)) by (apply Z.pow_le_mono_r; lia). lia.
  - assert (2 ^ d <= 2 ^ (Zdigits2 n - 1)) by (apply Z.pow_le_mono_r; lia). lia.
Qed.

Lemma Zdigits2_shift n j :
  0 < n -> 0 <= j -> Zdigits2 (n * 2 ^ j) = Zdigits2 n + j.
Proof.
  intros Hn Hj. destruct (Zdigits2_bounds n Hn) as (Hpos & Hl & Hh).
  assert (0 < 2 ^ j) by (apply Z.pow_pos_nonneg; lia).
  apply Zdigits2_unique; [|nia].
  replace (Zdigits2 n + j - 1) with (Zdigits2 n - 1 + j) by lia.
  rewrite !Z.pow_add_r by lia. nia.
Qed.

End Digits.
Section Shift.
Import Rounding.

Lemma div_mod_double n d :
  0 <= n -> 0 < d ->
  n / (2 * d) = n / d / 2 /\ n mod (2 * d) = (n / d) mod 2 * d + n mod d.
Proof.
  intros Hn Hd. rewrite (Z.mul_comm 2 d). split.
  - by rewrite Z.div_div by lia.
  - rewrite Z.rem_mul_r by lia. lia.
Qed.

Ltac decide_numbers :=
  repeat match goal with
         | |- context [?a =? ?b] => destruct (Z.eqb_spec a b)
         | |- context [?a ?= ?b] => destruct (Z.compare_spec a b)
         end;
  cbn; try reflexivity; try lia.

(** One step to the right halves the number located. *)
Lemma shr_1_located n d mrs :
  0 <= n -> 0 < d -> located n d mrs -> located n (2 * d) (shr_1 mrs).
Proof.
  intros Hn Hd [Hm Hloc]. destruct mrs as [m r s]. cbn [shr_m] in Hm.
  destruct (div_mod_double n d Hn Hd) as [Hq Hr].
  pose proof (Z.mod_pos_bound n d Hd) as Hrm.
  assert (Hrs : orb r s = negb (n mod d =? 0)).
  { unfold locate in Hloc. destruct (n mod d =? 0), r, s; cbn in *; congruence. }
  unfold located, locate. rewrite Hq, Hr, <- Hm.
  assert (0 <= m) by (rewrite Hm; apply Z.div_pos; lia).
  destruct m as [|[p|p|]|p]; try lia; cbn [shr_1 shr_m loc_of_shr_record]; rewrite Hrs.
  - split; [reflexivity|]. change (0 mod 2) with 0.
    destruct (Z.eqb_spec (n mod d) 0); cbn [negb]; decide_numbers.
  - replace (Z.pos p~1 mod 2) with 1 by (Z.div_mod_to_equations; lia).
    split; [Z.div_mod_to_equations; lia|].
    destruct (Z.eqb_spec (n mod d) 0); cbn [negb]; decide_numbers.
  - replace (Z.pos p~0 mod 2) with 0 by (Z.div_mod_to_equations; lia).
    split; [Z.div_mod_to_equations; lia|].
    destruct (Z.eqb_spec (n mod d) 0); cbn [negb]; decide_numbers.
  - split; [reflexivity|]. change (1 mod 2) with 1.
    destruct (Z.eqb_spec (n mod d) 0); cbn [negb]; decide_numbers.
Qed.

Lemma iter_shr_1_located p : forall n d mrs,
  0 <= n -> 0 < d -> located n d mrs ->
  located n (d * 2 ^ Zpos p) (SpecFloat.iter_pos shr_1 p mrs).
Proof.
  induction p as [p IH|p IH|]; intros n d mrs Hn Hd H; cbn [SpecFloat.iter_pos].
  - replace (d * 2 ^ Z.pos p~1) with (2 * d * 2 ^ Z.pos p * 2 ^ Z.pos p).
    + assert (0 < 2 ^ Z.pos p) by (apply Z.pow_pos_nonneg; lia).
      apply IH; [done|nia|]. apply IH; [done|lia|]. by apply shr_1_located.
    + rewrite (Pos2Z.inj_xI p). rewrite Z.pow_add_r by lia. rewrite Z.pow_mul_r by lia.
      change (2 ^ 2) with 4. rewrite Z.pow_1_r.
      replace (4 ^ Z.pos p) with (2 ^ Z.pos p * 2 ^ Z.pos p); [lia|].
      rewrite <- Z.pow_mul_l. reflexivity.
  - replace (d * 2 ^ Z.pos p~0) with (d * 2 ^ Z.pos p * 2 ^ Z.pos p).
    + assert (0 < 2 ^ Z.pos p) by (apply Z.pow_pos_nonneg; lia).
      apply IH; [done|nia|]. by apply IH.
    + rewrite (Pos2Z.inj_xO p). rewrite Z.pow_mul_r by lia.
      change (2 ^ 2) with 4.
      replace (4 ^ Z.pos p) with (2 ^ Z.pos p * 2 ^ Z.pos p); [lia|].
      rewrite <- Z.pow_mul_l. reflexivity.
  - change (2 ^ 1) with 2. rewrite Z.mul_comm. by apply shr_1_located.
Qed.

(** [shr] by [k] places divides by [2^k]. *)
Lemma shr_located n d mrs e k :
  0 <= n -> 0 < d -> 0 <= k -> located n d mrs ->
  located n (d * 2 ^ k) (fst (shr mrs e k)) /\ snd (shr mrs e k) = e + k.
Proof.
  intros Hn Hd Hk H. destruct k as [|p|p]; try lia; cbn [shr fst snd].
  - rewrite Z.mul_1_r, Z.add_0_r. done.
  - split; [|reflexivity]. by apply iter_shr_1_located.
Qed.

Lemma shr_record_of_loc_located n d :
  located n d (shr_record_of_loc (n / d) (locate n d)).
Proof.
  unfold located. by destruct (locate n d) as [|[]].
Qed.

Lemma round_nearest_even_located n d mrs :
  0 < d -> located n d mrs ->
  round_nearest_even (shr_m mrs) (loc_of_shr_record mrs) = nearestEven n d.
Proof.
  intros Hd [-> ->]. unfold locate, nearestEven, round_nearest_even.
  pose proof (Z.mod_pos_bound n d Hd).
  destruct (Z.eqb_spec (n mod d) 0) as [E|E].
  - rewrite E. destruct (Z.compare_spec (2 * 0) d); try lia; reflexivity.
  - destruct (Z.compare_spec (2 * (n mod d)) d); reflexivity.
Qed.

End Shift.


Section Round.
Import Rounding.

Lemma fexp_normal e : -1021 <= e -> fexp 53 1024 e = e - 53.
Proof. unfold fexp, emin. lia. Qed.

Lemma nearestEven_bounds n d :
  0 < d -> n / d <= nearestEven n d <= n / d + 1.
Proof.
  intros Hd. unfold nearestEven.
  destruct (2 * (n mod d) ?= d); [destruct (Z.even (n / d))| |]; lia.
Qed.

Lemma nearestEven_exact n d : 0 < d -> nearestEven (n * d) d = n.
Proof.
  intros Hd. unfold nearestEven. rewrite Z.div_mul, Z.mod_mul by lia.
  destruct (Z.compare_spec (2 * 0) d); try lia; reflexivity.
Qed.

(** [m <= nearestEven n d]: [n / d] is not below the middle of [m - 1] and
    [m], and not at the middle when [m] is odd. *)
Lemma nearestEven_ge n d m :
  0 < d ->
  m <= nearestEven n d
  <-> if Z.even m then (2 * m - 1) * d <= 2 * n else (2 * m - 1) * d < 2 * n.
Proof.
  intros Hd. unfold nearestEven.
  pose proof (Z.mod_pos_bound n d Hd) as Hr.
  pose proof (Z.div_mod n d ltac:(lia)) as Hn.
  set (q := n / d) in *. set (r := n mod d) in *. clearbody q r. subst n.
  destruct (Z.even m) eqn:Em, (Z.compare_spec (2 * r) d) as [E|E|E];
    try destruct (Z.even q) eqn:Eq.
  all: try (apply Z.even_spec in Em; destruct Em as [m' ->]).
  all: try (apply Z.even_spec in Eq; destruct Eq as [q' ->]).
  all: try (assert (Om : Z.odd m = true) by (by rewrite <- Z.negb_even, Em);
            apply Z.odd_spec in Om; destruct Om as [m' ->]).
  all: try (assert (Oq : Z.odd q = true) by (by rewrite <- Z.negb_even, Eq);
            apply Z.odd_spec in Oq; destruct Oq as [q' ->]).
  all: split; intros; nia.
Qed.

(** Rounding [n / d * 2^ex], a number of 53 binary digits at least, to the
    nearest binary64 number. *)
Lemma binary_round_aux_spec n d ex :
  0 <= n -> 0 < d ->
  let k := Zdigits2 (n / d) - 53 in
  let m := nearestEven n (d * 2 ^ k) in
  0 <= k -> -1074 <= ex -> ex + k + 1 <= 971 ->
  2 ^ 52 <= m <= 2 ^ 53
  /\ binary_round_aux 53 1024 false (n / d) ex (locate n d)
     = if m =? 2 ^ 53 then S754_finite false (Z.to_pos (2 ^ 52)) (ex + k + 1)
       else S754_finite false (Z.to_pos m) (ex + k).
Proof.
  intros Hn Hd k m Hk Hex Hmax.
  assert (Hpos : 0 < n / d).
  { destruct (n / d) as [|p|p] eqn:E; [cbn in k; lia|lia|].
    pose proof (Z.div_pos n d Hn Hd). lia. }
  destruct (Zdigits2_bounds _ Hpos) as (_ & Hlow & Hhigh).
  assert (H2k : 0 < 2 ^ k) by (apply Z.pow_pos_nonneg; lia).
  assert (Hq : 2 ^ 52 <= n / (d * 2 ^ k) < 2 ^ 53).
  { rewrite <- Z.div_div by lia.
    replace (Zdigits2 (n / d) - 1) with (52 + k) in Hlow by lia.
    replace (Zdigits2 (n / d)) with (53 + k) in Hhigh by lia.
    rewrite Z.pow_add_r in Hlow, Hhigh by lia.
    split; [apply Z.div_le_lower_bound | apply Z.div_lt_upper_bound]; lia. }
  pose proof (nearestEven_bounds n (d * 2 ^ k) ltac:(lia)) as Hm. fold m in Hm.
  split; [lia|].
  unfold binary_round_aux, shr_fexp at 1.
  rewrite fexp_normal by lia.
  replace (Zdigits2 (n / d) + ex - 53 - ex) with k by lia.
  destruct (shr_located n d (shr_record_of_loc (n / d) (locate n d)) ex k Hn Hd Hk
              (shr_record_of_loc_located n d)) as [Hloc Hexp].
  destruct (shr _ ex k) as [mrs' e']. cbn [fst snd] in Hloc, Hexp. subst e'.
  rewrite (round_nearest_even_located n (d * 2 ^ k) mrs') by (done || lia). fold m.
  unfold shr_fexp.
  destruct (Z.eqb_spec m (2 ^ 53)) as [E|E].
  - rewrite E. change (Zdigits2 (2 ^ 53)) with 54.
    rewrite fexp_normal by lia.
    replace (54 + (ex + k) - 53 - (ex + k)) with 1 by lia.
    cbn [shr_record_of_loc shr SpecFloat.iter_pos].
    change (shr_1 _) with (Build_shr_record (2 ^ 52) false false).
    cbn [shr_m]. change (2 ^ 52) with (Z.pos (Z.to_pos (2 ^ 52))) at 1. cbv iota.
    replace (ex + k + 1 <=? 1024 - 53) with true by (symmetry; apply Z.leb_le; lia).
    reflexivity.
  - rewrite (Zdigits2_unique m 53) by (change (53 - 1) with 52; lia).
    rewrite fexp_normal by lia.
    replace (53 + (ex + k) - 53 - (ex + k)) with 0 by lia.
    cbn [shr_record_of_loc shr shr_m].
    destruct m as [|p|p] eqn:Ep; try lia.
    replace (ex + k <=? 1024 - 53) with true by (symmetry; apply Z.leb_le; lia).
    reflexivity.
Qed.

End Round.


Section Operations.
Import Rounding.

Lemma locate_exact n : locate n 1 = loc_Exact.
Proof. unfold locate. by rewrite Z.mod_1_r. Qed.

(** Rounding an integer mantissa of 53 binary digits at least. *)
Lemma binary_round_aux_exact n ex :
  0 < n ->
  let k := Zdigits2 n - 53 in
  let m := nearestEven n (2 ^ k) in
  0 <= k -> -1074 <= ex -> ex + k + 1 <= 971 ->
  2 ^ 52 <= m <= 2 ^ 53
  /\ binary_round_aux 53 1024 false n ex loc_Exact
     = if m =? 2 ^ 53 then S754_finite false (Z.to_pos (2 ^ 52)) (ex + k + 1)
       else S754_finite false (Z.to_pos m) (ex + k).
Proof.
  intros Hn k m Hk Hex Hmax.
  pose proof (binary_round_aux_spec n 1 ex ltac:(lia) ltac:(lia)) as H.
  cbv zeta in H. rewrite Z.div_1_r, locate_exact, Z.mul_1_l in H. by apply H.
Qed.

Lemma nearestEven_multiple n d m : 0 < d -> n = m * d -> nearestEven n d = m.
Proof. intros Hd ->. by apply nearestEven_exact. Qed.

Lemma pos_iter_xO p k : Zpos (Pos.iter xO p k) = Zpos p * 2 ^ Zpos k.
Proof.
  induction k as [|k IH] using Pos.peano_ind.
  - cbn [Pos.iter]. lia.
  - rewrite Pos.iter_succ, Pos2Z.inj_succ, Z.pow_succ_r by lia.
    rewrite Pos2Z.inj_xO, IH. lia.
Qed.

Lemma shl_align_fst mx ex ez :
  ez <= ex -> Zpos (fst (shl_align mx ex ez)) = Zpos mx * 2 ^ (ex - ez).
Proof.
  intros H. unfold shl_align.
  destruct (ez - ex) as [|c|c] eqn:E; try lia; cbn [fst].
  - replace (ex - ez) with 0 by lia. lia.
  - rewrite pos_iter_xO. f_equal. f_equal. lia.
Qed.

(** [binary_normalize] gives the number of 53 digits that has the value
    of its argument, when there is one. *)
Lemma binary_normalize_normal n j e :
  0 < n -> Zdigits2 n <= 53 -> 0 <= j -> -1074 <= e ->
  -1074 <= e + j - (53 - Zdigits2 n) <= 970 ->
  binary_normalize 53 1024 (n * 2 ^ j) e false = normal n (e + j).
Proof.
  intros Hn Hdigits Hj He Hmax.
  destruct (Zdigits2_bounds n Hn) as (Hdpos & Hlow & Hhigh).
  assert (H2j : 0 < 2 ^ j) by (apply Z.pow_pos_nonneg; lia).
  pose proof (Zdigits2_shift n j Hn Hj) as Hd.
  destruct (n * 2 ^ j) as [|P|P] eqn:EP; try nia.
  cbn [binary_normalize]. unfold binary_round.
  change (Z.pos (digits2_pos P)) with (Zdigits2 (Z.pos P)). rewrite Hd.
  rewrite fexp_normal by lia.
  unfold shl_align, normal.
  destruct (Zdigits2 n + j + e - 53 - e) as [|c|c] eqn:Ec.
  - (* 53 digits already *)
    destruct (binary_round_aux_exact (Z.pos P) e ltac:(lia)) as [_ ->]; try lia.
    cbv zeta. rewrite Hd. replace (Zdigits2 n + j - 53) with 0 by lia.
    change (2 ^ 0) with 1.
    rewrite (nearestEven_multiple _ _ (Z.pos P)) by lia.
    assert (Z.pos P < 2 ^ 53).
    { rewrite <- EP. replace 53 with (Zdigits2 n + j) by lia.
      rewrite Z.pow_add_r by lia. nia. }
    destruct (Z.eqb_spec (Z.pos P) (2 ^ 53)); [lia|].
    f_equal; [|lia]. rewrite <- EP. f_equal. f_equal.
    replace (53 - Zdigits2 n) with j by lia. reflexivity.
  - (* more than 53 digits: the last ones are zeros *)
    destruct (binary_round_aux_exact (Z.pos P) e ltac:(lia)) as [_ ->]; try lia.
    cbv zeta. rewrite Hd. replace (Zdigits2 n + j - 53) with (Z.pos c) by lia.
    assert (Hsplit : Z.pos P = n * 2 ^ (53 - Zdigits2 n) * 2 ^ Z.pos c).
    { rewrite <- EP, <- Z.mul_assoc, <- Z.pow_add_r by lia. do 2 f_equal. lia. }
    rewrite (nearestEven_multiple _ (2 ^ Z.pos c) _ ltac:(apply Z.pow_pos_nonneg; lia) Hsplit).
    assert (n * 2 ^ (53 - Zdigits2 n) < 2 ^ 53).
    { replace 53 with (Zdigits2 n + (53 - Zdigits2 n)) at 2 by lia.
      rewrite Z.pow_add_r by lia.
      assert (0 < 2 ^ (53 - Zdigits2 n)) by (apply Z.pow_pos_nonneg; lia). nia. }
    destruct (Z.eqb_spec (n * 2 ^ (53 - Zdigits2 n)) (2 ^ 53)); [lia|].
    f_equal. lia.
  - (* fewer than 53 digits *)
    assert (Hmz : Z.pos (Pos.iter xO P c) = n * 2 ^ (53 - Zdigits2 n)).
    { rewrite pos_iter_xO, <- EP, <- Z.mul_assoc, <- Z.pow_add_r by lia.
      do 2 f_equal. lia. }
    assert (Hdz : Zdigits2 (Z.pos (Pos.iter xO P c)) = 53).
    { rewrite Hmz, Zdigits2_shift by lia. lia. }
    destruct (binary_round_aux_exact (Z.pos (Pos.iter xO P c))
                (Zdigits2 n + j + e - 53) ltac:(lia)) as [_ ->]; try lia.
    cbv zeta. rewrite Hdz. change (2 ^ (53 - 53)) with 1.
    rewrite (nearestEven_multiple _ _ (Z.pos (Pos.iter xO P c))) by lia.
    assert (Z.pos (Pos.iter xO P c) < 2 ^ 53).
    { destruct (Zdigits2_bounds (Z.pos (Pos.iter xO P c)) ltac:(lia)) as (_ & _ & H).
      by rewrite Hdz in H. }
    destruct (Z.eqb_spec (Z.pos (Pos.iter xO P c)) (2 ^ 53)); [lia|].
    rewrite Hmz. f_equal. lia.
Qed.

(** The mantissa of [normal] has 53 digits. *)
Lemma normal_mantissa n :
  0 < n -> Zdigits2 n <= 53 ->
  2 ^ 52 <= n * 2 ^ (53 - Zdigits2 n) < 2 ^ 53.
Proof.
  intros Hn Hd. destruct (Zdigits2_bounds n Hn) as (Hdpos & Hlow & Hhigh).
  assert (0 < 2 ^ (53 - Zdigits2 n)) by (apply Z.pow_pos_nonneg; lia).
  replace 52 with (Zdigits2 n - 1 + (53 - Zdigits2 n)) at 1 by lia.
  replace 53 with (Zdigits2 n + (53 - Zdigits2 n)) at 4 by lia.
  rewrite !Z.pow_add_r by lia. nia.
Qed.

(** Adding two numbers of the same unit is exact as long as the sum has
    53 digits at most. *)
Lemma SFadd_normal a b e :
  0 < a -> 0 < b -> Zdigits2 (a + b) <= 53 -> -1021 <= e <= 900 ->
  SFadd 53 1024 (normal a e) (normal b e) = normal (a + b) e.
Proof.
  intros Ha Hb Hsum He.
  destruct (Zdigits2_bounds a Ha) as (Hapos & Hal & Hah).
  destruct (Zdigits2_bounds b Hb) as (Hbpos & Hbl & Hbh).
  destruct (Zdigits2_bounds (a + b) ltac:(lia)) as (Hspos & Hsl & Hsh).
  assert (Hda : Zdigits2 a <= Zdigits2 (a + b)).
  { destruct (Z.le_gt_cases (Zdigits2 a) (Zdigits2 (a + b))) as [|H]; [done|].
    assert (2 ^ Zdigits2 (a + b) <= 2 ^ (Zdigits2 a - 1)) by (apply Z.pow_le_mono_r; lia).
    lia. }
  assert (Hdb : Zdigits2 b <= Zdigits2 (a + b)).
  { destruct (Z.le_gt_cases (Zdigits2 b) (Zdigits2 (a + b))) as [|H]; [done|].
    assert (2 ^ Zdigits2 (a + b) <= 2 ^ (Zdigits2 b - 1)) by (apply Z.pow_le_mono_r; lia).
    lia. }
  pose proof (normal_mantissa a Ha ltac:(lia)) as Hma.
  pose proof (normal_mantissa b Hb ltac:(lia)) as Hmb.
  unfold normal at 1 2. cbn [SFadd cond_Zopp].
  set (dm := Z.min (Zdigits2 a) (Zdigits2 b)).
  replace (Z.min (e - (53 - Zdigits2 a)) (e - (53 - Zdigits2 b))) with (e - (53 - dm))
    by (unfold dm; lia).
  rewrite !shl_align_fst by (unfold dm; lia).
  rewrite !Z2Pos.id by lia.
  replace (a * 2 ^ (53 - Zdigits2 a) * 2 ^ (e - (53 - Zdigits2 a) - (e - (53 - dm)))
           + b * 2 ^ (53 - Zdigits2 b) * 2 ^ (e - (53 - Zdigits2 b) - (e - (53 - dm))))
    with ((a + b) * 2 ^ (53 - dm)).
  - rewrite binary_normalize_normal by (unfold dm; lia). f_equal. lia.
  - rewrite <- !Z.mul_assoc, <- !Z.pow_add_r by (unfold dm; lia).
    replace (53 - Zdigits2 a + (e - (53 - Zdigits2 a) - (e - (53 - dm)))) with (53 - dm)
      by lia.
    replace (53 - Zdigits2 b + (e - (53 - Zdigits2 b) - (e - (53 - dm)))) with (53 - dm)
      by lia.
    lia.
Qed.

Lemma new_location_locate n d :
  0 < d -> new_location d (n mod d) = locate n d.
Proof.
  intros Hd. pose proof (Z.mod_pos_bound n d Hd).
  unfold new_location, new_location_even, new_location_odd, locate.
  destruct (Z.even d) eqn:E; [reflexivity|].
  destruct (Z.eqb_spec (n mod d) 0); [reflexivity|]. f_equal.
  assert (Od : Z.odd d = true) by (by rewrite <- Z.negb_even, E).
  apply Z.odd_spec in Od. destruct Od as [d' Hd'].
  destruct (Z.compare_spec (2 * (n mod d) + 1) d), (Z.compare_spec (2 * (n mod d)) d);
    try reflexivity; lia.
Qed.

(** The quotient of two numbers of 53 digits: the mantissa of the
    dividend, 53 places to the left, over the mantissa of the divisor. *)
Lemma SFdiv_finite mx ex my ey :
  Zdigits2 (Z.pos mx) = 53 -> Zdigits2 (Z.pos my) = 53 -> -1021 <= ex - ey ->
  SFdiv 53 1024 (S754_finite false mx ex) (S754_finite false my ey)
  = binary_round_aux 53 1024 false (Z.pos mx * 2 ^ 53 / Z.pos my) (ex - ey - 53)
      (locate (Z.pos mx * 2 ^ 53) (Z.pos my)).
Proof.
  intros Hx Hy He. cbn [SFdiv xorb]. unfold SFdiv_core_binary.
  rewrite Hx, Hy. cbv zeta.
  replace (53 + ex - (53 + ey)) with (ex - ey) by lia.
  rewrite fexp_normal by lia.
  replace (Z.min (ex - ey - 53) (ex - ey)) with (ex - ey - 53) by lia.
  replace (ex - ey - (ex - ey - 53)) with 53 by lia.
  rewrite Z.shiftl_mul_pow2 by lia.
  rewrite <- (new_location_locate (Z.pos mx * 2 ^ 53) (Z.pos my)) by lia.
  unfold Z.div, Z.modulo.
  by destruct (Z.div_eucl (Z.pos mx * 2 ^ 53) (Z.pos my)) as [q r].
Qed.

(** Numbers of 53 digits compare by their exponents, then by their
    mantissas. *)
Lemma SFleb_finite mc ec m e :
  SFleb (S754_finite false mc ec) (S754_finite false m e) = true
  <-> ec < e \/ ec = e /\ Z.pos mc <= Z.pos m.
Proof.
  unfold SFleb, SFcompare.
  destruct (Z.compare_spec ec e) as [E|E|E].
  - subst. change (Pos.compare_cont Eq mc m) with (Pos.compare mc m).
    destruct (Pos.compare_spec mc m); split; intros; (lia || done).
  - split; [lia|done].
  - split; [done|lia].
Qed.

End Operations.


Section Thresholds.
Import Rounding.

(** A rounded number against a number of 53 digits that is no power of
    two. *)
Lemma SFleb_rounded mc ec n d ex :
  0 <= n -> 0 < d ->
  let k := Zdigits2 (n / d) - 53 in
  0 <= k -> -1074 <= ex -> ex + k + 1 <= 971 ->
  2 ^ 52 < Z.pos mc < 2 ^ 53 ->
  SFleb (S754_finite false mc ec)
    (binary_round_aux 53 1024 false (n / d) ex (locate n d)) = true
  <-> ec < ex + k
      \/ ec = ex + k
         /\ if Z.even (Z.pos mc) then (2 * Z.pos mc - 1) * (d * 2 ^ k) <= 2 * n
            else (2 * Z.pos mc - 1) * (d * 2 ^ k) < 2 * n.
Proof.
  intros Hn Hd k Hk Hex Hmax Hmc.
  pose proof (binary_round_aux_spec n d ex Hn Hd Hk Hex Hmax) as H.
  cbv zeta in H. fold k in H. destruct H as [Hm ->].
  rewrite <- (nearestEven_ge n (d * 2 ^ k) (Z.pos mc))
    by (assert (0 < 2 ^ k) by (apply Z.pow_pos_nonneg; lia); nia).
  set (m := nearestEven n (d * 2 ^ k)) in *. clearbody m.
  destruct (Z.eqb_spec m (2 ^ 53)) as [E|E]; rewrite SFleb_finite.
  - change (Z.pos (Z.to_pos (2 ^ 52))) with (2 ^ 52). lia.
  - rewrite (Z2Pos.id m) by lia. lia.
Qed.

Lemma SFleb_rounded_exact mc ec n ex :
  0 < n ->
  let k := Zdigits2 n - 53 in
  0 <= k -> -1074 <= ex -> ex + k + 1 <= 971 ->
  2 ^ 52 < Z.pos mc < 2 ^ 53 ->
  SFleb (S754_finite false mc ec) (binary_round_aux 53 1024 false n ex loc_Exact) = true
  <-> ec < ex + k
      \/ ec = ex + k
         /\ if Z.even (Z.pos mc) then (2 * Z.pos mc - 1) * 2 ^ k <= 2 * n
            else (2 * Z.pos mc - 1) * 2 ^ k < 2 * n.
Proof.
  intros Hn k Hk Hex Hmax Hmc.
  pose proof (SFleb_rounded mc ec n 1 ex ltac:(lia) ltac:(lia)) as H.
  cbv zeta in H. rewrite Z.div_1_r, locate_exact, Z.mul_1_l in H. by apply H.
Qed.

(** The product of a number of 53 digits and 100 has 105 or 106 digits. *)
Lemma times_100_digits mq :
  2 ^ 52 <= Z.pos mq < 2 ^ 53 ->
  Z.pos mq * 7036874417766400 < 2 ^ 105
  /\ Zdigits2 (Z.pos mq * 7036874417766400) = 105
  \/ 2 ^ 105 <= Z.pos mq * 7036874417766400
     /\ Zdigits2 (Z.pos mq * 7036874417766400) = 106.
Proof.
  intros Hmq.
  destruct (Z.lt_ge_cases (Z.pos mq * 7036874417766400) (2 ^ 105)) as [H|H];
    [left|right]; (split; [done|]); apply Zdigits2_unique; lia.
Qed.

(** [q * 100 >= threshold], for the four thresholds of the Scorer: [q] is
    at least the least binary64 number whose product with 100 rounds to
    the threshold. *)
Lemma times_100_atLeast (mq : positive) (eq : Z) (m : positive) (e mc ec : Z) :
  In (m, e, mc, ec)
    [(6333186975989760%positive, -46, 8106479329266893, -53);
     (5629499534213120%positive, -46, 7205759403792793, -53);
     (8444249301319680%positive, -47, 5404319552844595, -53);
     (5629499534213120%positive, -47, 7205759403792793, -54)] ->
  2 ^ 52 <= Z.pos mq < 2 ^ 53 -> -900 <= eq <= 900 ->
  SFleb (S754_finite false m e)
    (SFmul 53 1024 (S754_finite false mq eq) (S754_finite false 7036874417766400 (-46)))
  = true
  <-> ec < eq \/ ec = eq /\ mc <= Z.pos mq.
Proof.
  intros Hin Hmq Heq. cbn [SFmul xorb]. rewrite Pos2Z.inj_mul.
  destruct (times_100_digits mq Hmq) as [[Hn Hd]|[Hn Hd]];
    rewrite SFleb_rounded_exact; rewrite ?Hd; try lia;
    cbn [In] in Hin;
    repeat (destruct Hin as [Hin|Hin]; [injection Hin as <- <- <- <-|]); try done;
    cbn [Z.even]; lia.
Qed.

End Thresholds.


Section Quotient.
Import Rounding.

(** Where the quotient of [T / 2] by [m] lies with respect to a number
    [mc * 2^ec] of 53 digits: the arithmetic.  [theta / 100] is the
    threshold that the number stands for. *)
Lemma quotient_threshold (T m a b k mc ec theta : Z) :
  0 < T -> 0 < m -> 0 <= a -> 0 <= b -> 0 <= k ->
  2 ^ (52 + k) * (m * 2 ^ b) <= T * 2 ^ a * 2 ^ 53 ->
  T * 2 ^ a * 2 ^ 53 < 2 ^ (53 + k) * (m * 2 ^ b) ->
  0 <= 54 + ec -> 25 * 2 ^ (54 + ec) <= theta <= 50 * 2 ^ (54 + ec) ->
  ((if Z.even mc then (2 * mc - 1) * 2 ^ (54 + ec) * m <= T * 2 ^ 54
    else (2 * mc - 1) * 2 ^ (54 + ec) * m < T * 2 ^ 54)
   <-> theta * m <= 50 * T) ->
  ec < b - a - 54 + k
  \/ ec = b - a - 54 + k
     /\ (if Z.even mc then (2 * mc - 1) * (m * 2 ^ b * 2 ^ k) <= 2 * (T * 2 ^ a * 2 ^ 53)
         else (2 * mc - 1) * (m * 2 ^ b * 2 ^ k) < 2 * (T * 2 ^ a * 2 ^ 53))
  <-> theta * m <= 50 * T.
Proof.
  intros HT Hm Ha Hb Hk Hlow Hhigh Hs Htheta Hlocal.
  rewrite !Z.pow_add_r in Hlow, Hhigh by lia.
  rewrite <- !(Z.mul_assoc m), <- !Z.pow_add_r by lia.
  assert (Hu : 0 < 2 ^ a) by (apply Z.pow_pos_nonneg; lia).
  assert (Hw : 0 < 2 ^ (b + k)) by (apply Z.pow_pos_nonneg; lia).
  assert (Hlow' : m * 2 ^ (b + k) <= 2 * (T * 2 ^ a)).
  { rewrite Z.pow_add_r by lia. change (2 ^ 52) with 4503599627370496 in Hlow.
    change (2 ^ 53) with 9007199254740992 in Hlow. nia. }
  assert (Hhigh' : T * 2 ^ a < m * 2 ^ (b + k)).
  { rewrite Z.pow_add_r by lia. change (2 ^ 53) with 9007199254740992 in Hhigh. nia. }
  clear Hlow Hhigh.
  set (s := 54 + ec) in *.
  assert (H2s : 0 < 2 ^ s) by (apply Z.pow_pos_nonneg; lia).
  destruct (Z.lt_trichotomy (b + k) (a + s)) as [Hj|[Hj|Hj]].
  - (* the quotient lies below the binade of the number *)
    assert (Hg : 2 * 2 ^ (b + k) <= 2 ^ a * 2 ^ s).
    { rewrite <- Z.pow_add_r, <- Z.pow_succ_r by lia. apply Z.pow_le_mono_r; lia. }
    assert (2 * T < m * 2 ^ s).
    { assert (H : 2 ^ a * (2 * T) < 2 ^ a * (m * 2 ^ s)); [nia|].
      by apply Z.mul_lt_mono_pos_l in H. }
    split; [intros [?|[? _]]; unfold s in *; lia | nia].
  - (* in the binade of the number *)
    assert (Hg : 2 ^ (b + k) = 2 ^ a * 2 ^ s) by (rewrite <- Z.pow_add_r by lia; by f_equal).
    rewrite Hg. rewrite <- Hlocal.
    change (2 ^ 53) with 9007199254740992. change (2 ^ 54) with 18014398509481984.
    destruct (Z.even mc).
    + split.
      * intros [?|[_ H]]; [unfold s in *; lia|].
        apply (Z.mul_le_mono_pos_l _ _ (2 ^ a)); [done|]. lia.
      * intros H. right. split; [unfold s in *; lia|].
        apply (Z.mul_le_mono_pos_l _ _ (2 ^ a)) in H; [|done]. lia.
    + split.
      * intros [?|[_ H]]; [unfold s in *; lia|].
        apply (Z.mul_lt_mono_pos_l (2 ^ a)); [done|]. lia.
      * intros H. right. split; [unfold s in *; lia|].
        apply (Z.mul_lt_mono_pos_l (2 ^ a)) in H; [|done]. lia.
  - (* above the binade of the number *)
    assert (Hg : 2 * (2 ^ a * 2 ^ s) <= 2 ^ (b + k)).
    { rewrite <- Z.pow_add_r, <- Z.pow_succ_r by lia. apply Z.pow_le_mono_r; lia. }
    assert (m * 2 ^ s <= T).
    { assert (H : 2 ^ a * (m * 2 ^ s) <= 2 ^ a * T); [nia|].
      by apply Z.mul_le_mono_pos_l in H. }
    split; [nia | intros _; left; unfold s in *; lia].
Qed.

End Quotient.


Section QuotientOfCounters.
Import Rounding.

Lemma Zdigits2_small n : 0 < n < 2 ^ 53 -> Zdigits2 n <= 53.
Proof.
  intros Hn. destruct (Zdigits2_bounds n ltac:(lia)) as (Hpos & Hlow & _).
  destruct (Z.le_gt_cases (Zdigits2 n) 53) as [|H]; [done|].
  assert (2 ^ 53 <= 2 ^ (Zdigits2 n - 1)) by (apply Z.pow_le_mono_r; lia). lia.
Qed.

Lemma ofZ_normal n e :
  0 < n < 2 ^ 53 -> -1021 <= e <= 900 -> Binary64.ofZ n e = normal n e.
Proof.
  intros Hn He. pose proof (Zdigits2_small n Hn).
  destruct (Zdigits2_bounds n ltac:(lia)) as (Hpos & _).
  unfold Binary64.ofZ. rewrite <- (Z.mul_1_r n) at 1. change 1 with (2 ^ 0).
  change Binary64.prec with 53. change Binary64.emax with 1024.
  rewrite binary_normalize_normal by lia. by rewrite Z.add_0_r.
Qed.

(** An integer is its double, counted in halves. *)
Lemma normal_double n e : 0 < n < 2 ^ 52 -> normal (2 * n) (e - 1) = normal n e.
Proof.
  intros Hn. unfold normal.
  assert (Hd : Zdigits2 (2 * n) = Zdigits2 n + 1).
  { rewrite Z.mul_comm. change 2 with (2 ^ 1) at 1. by rewrite Zdigits2_shift by lia. }
  assert (Zdigits2 n <= 52).
  { destruct (Zdigits2_bounds n ltac:(lia)) as (Hpos & Hlow & _).
    destruct (Z.le_gt_cases (Zdigits2 n) 52) as [|H]; [done|].
    assert (2 ^ 52 <= 2 ^ (Zdigits2 n - 1)) by (apply Z.pow_le_mono_r; lia). lia. }
  rewrite Hd. f_equal; [|lia]. f_equal.
  replace (53 - Zdigits2 n) with (Z.succ (53 - (Zdigits2 n + 1))) by lia.
  rewrite Z.pow_succ_r by lia. lia.
Qed.

Lemma normal_digits n :
  0 < n -> Zdigits2 n <= 53 ->
  Zdigits2 (Z.pos (Z.to_pos (n * 2 ^ (53 - Zdigits2 n)))) = 53.
Proof.
  intros Hn Hd. pose proof (normal_mantissa n Hn Hd).
  rewrite Z2Pos.id by lia. apply Zdigits2_unique; [|lia]. by change (53 - 1) with 52.
Qed.

(** The quotient of a number of [T] halves by an integer [m]: a number of
    53 digits, which is at least a number [mc * 2^ec] of 53 digits, no
    power of two, when [T / 2 / m] is at least the threshold
    [theta / 100] that the number stands for. *)
Lemma SFdiv_halves T m :
  0 < T < 2 ^ 53 -> 0 < m < 2 ^ 53 ->
  let q := SFdiv 53 1024 (normal T (-1)) (normal m 0) in
  (exists mq eq,
     q = S754_finite false mq eq /\ 2 ^ 52 <= Z.pos mq < 2 ^ 53 /\ -900 <= eq <= 900)
  /\ forall mc ec theta,
       2 ^ 52 < mc < 2 ^ 53 ->
       0 <= 54 + ec -> 25 * 2 ^ (54 + ec) <= theta <= 50 * 2 ^ (54 + ec) ->
       ((if Z.even mc then (2 * mc - 1) * 2 ^ (54 + ec) * m <= T * 2 ^ 54
         else (2 * mc - 1) * 2 ^ (54 + ec) * m < T * 2 ^ 54)
        <-> theta * m <= 50 * T) ->
       SFleb (S754_finite false (Z.to_pos mc) ec) q = true <-> theta * m <= 50 * T.
Proof.
  intros HT53 Hm53 q.
  pose proof (Zdigits2_small T HT53) as HdT. pose proof (Zdigits2_small m Hm53) as Hdm.
  destruct (Zdigits2_bounds T ltac:(lia)) as (HdT0 & _).
  destruct (Zdigits2_bounds m ltac:(lia)) as (Hdm0 & _).
  pose proof (normal_mantissa T ltac:(lia) HdT) as HmT.
  pose proof (normal_mantissa m ltac:(lia) Hdm) as HmM.
  subst q. unfold normal.
  rewrite SFdiv_finite by (rewrite ?normal_digits; lia).
  rewrite !Z2Pos.id by lia.
  set (a := 53 - Zdigits2 T) in *. set (b := 53 - Zdigits2 m) in *.
  set (N := T * 2 ^ a * 2 ^ 53). set (D := m * 2 ^ b) in *.
  assert (HN : 0 <= N) by (unfold N; lia).
  assert (HD : 0 < D) by lia.
  assert (Hquot : 2 ^ 52 <= N / D < 2 ^ 54).
  { unfold N. change (2 ^ 54) with (2 * 2 ^ 53).
    split; [apply Z.div_le_lower_bound | apply Z.div_lt_upper_bound]; nia. }
  destruct (Zdigits2_bounds (N / D) ltac:(lia)) as (_ & Hlow & Hhigh).
  set (k := Zdigits2 (N / D) - 53).
  assert (Hk : 0 <= k <= 1).
  { unfold k. split.
    - destruct (Z.le_gt_cases 53 (Zdigits2 (N / D))) as [|H]; [lia|].
      assert (2 ^ Zdigits2 (N / D) <= 2 ^ 52) by (apply Z.pow_le_mono_r; lia). lia.
    - destruct (Z.le_gt_cases (Zdigits2 (N / D)) 54) as [|H]; [lia|].
      assert (2 ^ 54 <= 2 ^ (Zdigits2 (N / D) - 1)) by (apply Z.pow_le_mono_r; lia). lia. }
  split.
  - pose proof (binary_round_aux_spec N D (-1 - a - (0 - b) - 53) HN HD) as H.
    cbv zeta in H. fold k in H. destruct H as [Hmq ->]; try (unfold a, b; lia).
    destruct (Z.eqb_spec (nearestEven N (D * 2 ^ k)) (2 ^ 53)) as [E|E].
    + eexists _, _. split; [reflexivity|].
      change (Z.pos (Z.to_pos (2 ^ 52))) with (2 ^ 52). unfold a, b. lia.
    + eexists _, _. split; [reflexivity|].
      rewrite Z2Pos.id by lia. unfold a, b. lia.
  - intros mc ec theta Hmc Hs Htheta Hlocal.
    rewrite SFleb_rounded by (rewrite ?Z2Pos.id by lia; fold k; unfold a, b; lia).
    fold k. rewrite Z2Pos.id by lia.
    replace (-1 - a - (0 - b) - 53 + k) with (b - a - 54 + k) by lia.
    unfold N, D. apply quotient_threshold; try (done || unfold a, b; lia).
    + replace (52 + k) with (Zdigits2 (N / D) - 1) by (unfold k; lia).
      fold N D. pose proof (Z.mul_div_le N D HD).
      apply Z.le_trans with (D * (N / D)); [|done].
      rewrite Z.mul_comm. apply Z.mul_le_mono_nonneg_l; lia.
    + replace (53 + k) with (Zdigits2 (N / D)) by (unfold k; lia).
      fold N D.
      destruct (Z.lt_ge_cases N (2 ^ Zdigits2 (N / D) * D)) as [|Hge]; [done|].
      rewrite Z.mul_comm in Hge. apply Z.div_le_lower_bound in Hge; lia.
Qed.

End QuotientOfCounters.
(** ** Properties of the Scorer *)

Section ScorerFacts.
Import Scorer.
Context {N : Type} {number : Number N}.

(** The callback of the Scorer writes its two counters only. *)
Lemma callback_checks check (fr : Frame N) : checks (callback check fr) = checks fr.
Proof. unfold callback. by destruct (SecurityCheck.status check). Qed.

(** A [forEach] whose callback leaves the array alone is a left fold over
    the elements the array had at the start. *)
Lemma forEach_foldl (f : SecurityCheck.t -> Frame N -> Frame N) :
  (forall check fr, checks (f check fr) = checks fr) ->
  forall fr, forEach f fr = foldl (fun fr check => f check fr) fr (checks fr).
Proof.
  intros Hf fr. unfold forEach.
  enough (H : forall rest pre fr,
             checks fr = pre ++ rest ->
             foldl (fun fr k => match checks fr !! k with
                                | Some check => f check fr
                                | None => fr
                                end) fr (seq (length pre) (length rest))
             = foldl (fun fr check => f check fr) fr rest)
    by exact (H (checks fr) [] fr eq_refl).
  induction rest as [|check rest IH]; intros pre fr0 Hfr; [done|].
  cbn [length seq foldl].
  rewrite Hfr, list_lookup_middle by done.
  replace (S (length pre)) with (length (pre ++ [check]))
    by (rewrite length_app; cbn; lia).
  apply IH. rewrite Hf, Hfr, <- app_assoc. done.
Qed.

Lemma foldl_callback_checks cs (fr : Frame N) :
  checks (foldl (fun fr check => callback check fr) fr cs) = checks fr.
Proof.
  revert fr. induction cs as [|c cs IH]; intros fr; [done|].
  cbn [foldl]. by rewrite IH, callback_checks.
Qed.

Lemma scored_foldl cs :
  scored (N := N) cs
  = foldl (fun fr check => callback check fr) (mkFrame cs (literal 0) (literal 0)) cs.
Proof. unfold scored. by rewrite forEach_foldl by apply callback_checks. Qed.

Lemma scored_checks cs : checks (scored (N := N) cs) = cs.
Proof. by rewrite scored_foldl, foldl_callback_checks. Qed.

(** The grade is read off the two counters. *)
Lemma grade_counters (fr : Frame N) cs :
  grade fr = grade (mkFrame cs (totalScore fr) (maxScore fr)).
Proof. reflexivity. Qed.

End ScorerFacts.

(** *** In exact arithmetic *)

Section ExactFacts.
Import Scorer.

Lemma weight_positive severity : 1 <= ScorerSpec.weight severity <= 10.
Proof. destruct severity; cbn; lia. Qed.

Lemma gainedHalves_bounds check :
  0 <= ScorerSpec.gainedHalves check <= 2 * ScorerSpec.weight (SecurityCheck.severity check).
Proof.
  unfold ScorerSpec.gainedHalves.
  pose proof (weight_positive (SecurityCheck.severity check)).
  destruct (SecurityCheck.status check); lia.
Qed.

Lemma sums_bounds cs :
  0 <= ScorerSpec.halvesSum cs <= 2 * ScorerSpec.weightSum cs.
Proof.
  induction cs as [|c cs IH]; cbn [ScorerSpec.halvesSum ScorerSpec.weightSum foldr]; [lia|].
  fold (ScorerSpec.halvesSum cs). fold (ScorerSpec.weightSum cs).
  pose proof (gainedHalves_bounds c). lia.
Qed.

Lemma maxScore_weightSum cs :
  (ScorerSpec.maxScore cs == inject_Z (ScorerSpec.weightSum cs))%Q.
Proof.
  induction cs as [|c cs IH]; cbn [ScorerSpec.maxScore ScorerSpec.weightSum foldr]; [reflexivity|].
  fold (ScorerSpec.maxScore cs). fold (ScorerSpec.weightSum cs).
  by rewrite IH, inject_Z_plus.
Qed.

Lemma gained_halves check :
  (ScorerSpec.gained check == inject_Z (ScorerSpec.gainedHalves check) / 2)%Q.
Proof.
  unfold ScorerSpec.gained, ScorerSpec.gainedHalves.
  destruct (SecurityCheck.status check); rewrite ?inject_Z_mult; try reflexivity.
  field.
Qed.

Lemma totalScore_halvesSum cs :
  (ScorerSpec.totalScore cs == inject_Z (ScorerSpec.halvesSum cs) / 2)%Q.
Proof.
  induction cs as [|c cs IH]; cbn [ScorerSpec.totalScore ScorerSpec.halvesSum foldr]; [reflexivity|].
  fold (ScorerSpec.totalScore cs). fold (ScorerSpec.halvesSum cs).
  rewrite IH, gained_halves, inject_Z_plus. field.
Qed.

Lemma getSeverityWeight_weight severity :
  getSeverityWeight (N := Q) severity = inject_Z (ScorerSpec.weight severity).
Proof. by destruct severity. Qed.

Lemma callback_maxScore check (fr : Frame Q) :
  (maxScore (callback check fr)
   == maxScore fr + inject_Z (ScorerSpec.weight (SecurityCheck.severity check)))%Q.
Proof.
  unfold callback. rewrite getSeverityWeight_weight.
  destruct (SecurityCheck.status check); cbn; reflexivity.
Qed.

Lemma callback_totalScore check (fr : Frame Q) :
  (totalScore (callback check fr) == totalScore fr + ScorerSpec.gained check)%Q.
Proof.
  unfold callback, ScorerSpec.gained. rewrite getSeverityWeight_weight.
  destruct (SecurityCheck.status check); cbn [totalScore plus times half Exact.number];
    try ring.
  field.
Qed.

Lemma foldl_callback_maxScore cs (fr : Frame Q) :
  (maxScore (foldl (fun fr check => callback check fr) fr cs)
   == maxScore fr + ScorerSpec.maxScore cs)%Q.
Proof.
  revert fr. induction cs as [|c cs IH]; intros fr; cbn [foldl ScorerSpec.maxScore foldr].
  - ring.
  - rewrite IH, callback_maxScore. fold (ScorerSpec.maxScore cs). ring.
Qed.

Lemma foldl_callback_totalScore cs (fr : Frame Q) :
  (totalScore (foldl (fun fr check => callback check fr) fr cs)
   == totalScore fr + ScorerSpec.totalScore cs)%Q.
Proof.
  revert fr. induction cs as [|c cs IH]; intros fr; cbn [foldl ScorerSpec.totalScore foldr].
  - ring.
  - rewrite IH, callback_totalScore. fold (ScorerSpec.totalScore cs). ring.
Qed.

Lemma scored_maxScore cs : (maxScore (scored (N := Q) cs) == ScorerSpec.maxScore cs)%Q.
Proof.
  rewrite scored_foldl, foldl_callback_maxScore. cbn [maxScore literal Exact.number]. ring.
Qed.

Lemma scored_totalScore cs : (totalScore (scored (N := Q) cs) == ScorerSpec.totalScore cs)%Q.
Proof.
  rewrite scored_foldl, foldl_callback_totalScore. cbn [totalScore literal Exact.number]. ring.
Qed.

Lemma Qle_bool_decide (x y : Q) :
  Qle_bool x y = bool_decide (x <= y)%Q.
Proof.
  destruct (Qle_bool x y) eqn:E; symmetry.
  - apply bool_decide_eq_true, Qle_bool_iff, E.
  - apply bool_decide_eq_false. intros H%Qle_bool_iff. congruence.
Qed.

(** In exact arithmetic the grade depends on the counters up to equality of
    fractions, and is the grade the specification describes. *)
Lemma grade_exact (fr : Frame Q) (total max : Q) :
  (totalScore fr == total)%Q -> (maxScore fr == max)%Q ->
  grade fr
  = if decide (max == 0)%Q then SecurityScore.FAIR
    else if decide (90 <= 100 * total / max)%Q then SecurityScore.EXCELLENT
    else if decide (80 <= 100 * total / max)%Q then SecurityScore.GOOD
    else if decide (60 <= 100 * total / max)%Q then SecurityScore.FAIR
    else if decide (40 <= 100 * total / max)%Q then SecurityScore.POOR
    else SecurityScore.CRITICAL.
Proof.
  intros Ht Hm. unfold grade. cbn [strictEquals atLeast times divide literal Exact.number].
  change (inject_Z 0) with 0%Q.
  destruct (Qeq_bool (maxScore fr) 0) eqn:E.
  - apply Qeq_bool_iff in E. rewrite Hm in E. by rewrite decide_True.
  - assert (Hnz : ~ (max == 0)%Q).
    { intros H. rewrite <- Hm in H. apply Qeq_bool_iff in H. congruence. }
    rewrite decide_False by done.
    assert (Hp : (totalScore fr / maxScore fr * inject_Z 100 == 100 * total / max)%Q).
    { rewrite Hm, Ht. field. exact Hnz. }
    cbv zeta. rewrite !Qle_bool_decide.
    repeat match goal with
           | |- context [bool_decide (?c <= ?p)%Q] =>
               let H := fresh in
               destruct (bool_decide (c <= p)%Q) eqn:H;
               [ apply bool_decide_eq_true in H; rewrite Hp in H;
                 rewrite (decide_True _ _ H)
               | apply bool_decide_eq_false in H; rewrite Hp in H;
                 rewrite (decide_False _ _ H) ]
           end; reflexivity.
Qed.

Lemma calculateSecurityScore_exact cs :
  calculateSecurityScore (N := Q) cs = ScorerSpec.grade cs.
Proof.
  unfold calculateSecurityScore, ScorerSpec.grade, ScorerSpec.percentage.
  apply grade_exact; [apply scored_totalScore | apply scored_maxScore].
Qed.

End ExactFacts.

(** *** In binary64 *)

Section Binary64Facts.
Import Scorer Binary64 Rounding.

Lemma halves_normal t : 0 < t < 2 ^ 53 -> halves t = normal t (-1).
Proof. intros. unfold halves. by apply ofZ_normal. Qed.

Lemma literal_normal m : 0 < m < 2 ^ 53 -> literal (N := spec_float) m = normal m 0.
Proof. intros. cbn [literal Binary64.number]. by apply ofZ_normal. Qed.

(** An integer counter is its double, counted in halves. *)
Lemma literal_halves m : 0 <= m < 2 ^ 52 -> literal (N := spec_float) m = halves (2 * m).
Proof.
  intros Hm. destruct (Z.eq_dec m 0) as [->|Hnz]; [reflexivity|].
  change (2 ^ 52) with 4503599627370496 in Hm.
  rewrite literal_normal, halves_normal
    by (change (2 ^ 53) with 9007199254740992; lia).
  symmetry. apply (normal_double m 0). change (2 ^ 52) with 4503599627370496. lia.
Qed.

Lemma getSeverityWeight_literal severity :
  getSeverityWeight (N := spec_float) severity = literal (ScorerSpec.weight severity).
Proof. by destruct severity. Qed.

Lemma times_half severity :
  times (getSeverityWeight (N := spec_float) severity) half
  = halves (ScorerSpec.weight severity).
Proof. destruct severity; vm_compute; reflexivity. Qed.

(** Sums of halves are exact. *)
Lemma plus_halves a b :
  0 <= a -> 0 < b -> a + b < 2 ^ 53 -> plus (halves a) (halves b) = halves (a + b).
Proof.
  intros Ha Hb Hsum. cbn [plus Binary64.number].
  change Binary64.prec with 53. change Binary64.emax with 1024.
  destruct (Z.eq_dec a 0) as [->|Hnz].
  - rewrite Z.add_0_l, (halves_normal b) by lia. reflexivity.
  - rewrite !halves_normal by lia.
    apply SFadd_normal; try lia. apply Zdigits2_small. lia.
Qed.

(** Sums of integers are exact. *)
Lemma plus_literal a b :
  0 <= a -> 0 < b -> a + b < 2 ^ 52 ->
  plus (literal a) (literal b) = literal (N := spec_float) (a + b).
Proof.
  intros Ha Hb Hsum. change (2 ^ 52) with 4503599627370496 in Hsum.
  assert (H52 : 2 ^ 52 = 4503599627370496) by reflexivity.
  assert (H53 : 2 ^ 53 = 9007199254740992) by reflexivity.
  rewrite !literal_halves by lia. rewrite plus_halves by lia. f_equal. lia.
Qed.

(** One step of the loop in binary64: the counters stay the exact sums. *)
Lemma callback_binary64 check checks0 t m :
  0 <= t <= 2 * m ->
  m + ScorerSpec.weight (SecurityCheck.severity check) < 2 ^ 40 ->
  callback check (mkFrame checks0 (halves t) (literal m))
  = mkFrame checks0 (halves (t + ScorerSpec.gainedHalves check))
      (literal (m + ScorerSpec.weight (SecurityCheck.severity check))).
Proof.
  intros Ht Hm. pose proof (weight_positive (SecurityCheck.severity check)) as Hw.
  change (2 ^ 40) with 1099511627776 in Hm.
  assert (H52 : 2 ^ 52 = 4503599627370496) by reflexivity.
  assert (H53 : 2 ^ 53 = 9007199254740992) by reflexivity.
  unfold callback, ScorerSpec.gainedHalves. cbn [checks totalScore maxScore].
  assert (Hmax : plus (literal m) (getSeverityWeight (SecurityCheck.severity check))
                 = literal (N := spec_float)
                     (m + ScorerSpec.weight (SecurityCheck.severity check))).
  { rewrite getSeverityWeight_literal, !literal_halves by lia.
    rewrite plus_halves by lia. f_equal. lia. }
  assert (Hpass : plus (halves t) (getSeverityWeight (SecurityCheck.severity check))
                  = halves (t + 2 * ScorerSpec.weight (SecurityCheck.severity check))).
  { rewrite getSeverityWeight_literal, literal_halves by lia. apply plus_halves; lia. }
  assert (Hwarning :
            plus (halves t) (times (getSeverityWeight (SecurityCheck.severity check)) half)
            = halves (t + ScorerSpec.weight (SecurityCheck.severity check))).
  { rewrite times_half. apply plus_halves; lia. }
  rewrite Hmax.
  destruct (SecurityCheck.status check); cbn [checks totalScore maxScore];
    rewrite ?Z.add_0_r, ?Hpass, ?Hwarning; reflexivity.
Qed.

Lemma foldl_callback_binary64 cs : forall checks0 t m,
  0 <= t <= 2 * m ->
  m + ScorerSpec.weightSum cs < 2 ^ 40 ->
  foldl (fun fr check => callback check fr) (mkFrame checks0 (halves t) (literal m)) cs
  = mkFrame checks0 (halves (t + ScorerSpec.halvesSum cs))
      (literal (m + ScorerSpec.weightSum cs)).
Proof.
  induction cs as [|c cs IH]; intros checks0 t m Ht Hm;
    cbn [foldl ScorerSpec.halvesSum ScorerSpec.weightSum foldr] in *.
  - by rewrite !Z.add_0_r.
  - fold (ScorerSpec.halvesSum cs) in *. fold (ScorerSpec.weightSum cs) in *.
    pose proof (sums_bounds cs). pose proof (gainedHalves_bounds c).
    pose proof (weight_positive (SecurityCheck.severity c)).
    rewrite callback_binary64 by lia. rewrite IH by lia.
    f_equal; f_equal; lia.
Qed.

(** On a list whose weights add up to less than [2^40], the loop in
    binary64 ends on the exact sums. *)
Lemma scored_binary64 cs :
  ScorerSpec.weightSum cs < 2 ^ 40 ->
  scored (N := spec_float) cs
  = mkFrame cs (halves (ScorerSpec.halvesSum cs)) (literal (ScorerSpec.weightSum cs)).
Proof.
  intros Hbound. rewrite scored_foldl.
  change (literal (N := spec_float) 0) with (halves 0) at 1.
  pose proof (sums_bounds cs).
  by rewrite foldl_callback_binary64 by lia.
Qed.

(** [percentage >= threshold] in binary64, for the four thresholds of the
    Scorer, with [totalScore = t / 2] and [maxScore = m]. *)
Lemma atLeast_percentage t m theta :
  0 < t <= 2 * m -> m < 2 ^ 40 -> In theta [90; 80; 60; 40] ->
  atLeast (times (divide (halves t) (literal (N := spec_float) m)) (literal 100))
    (literal theta)
  = (theta * m <=? 50 * t).
Proof.
  intros Ht Hm Hin.
  assert (H40 : 2 ^ 40 = 1099511627776) by reflexivity.
  assert (H53 : 2 ^ 53 = 9007199254740992) by reflexivity.
  rewrite halves_normal, literal_normal by lia.
  cbn [atLeast times divide Binary64.number].
  change Binary64.prec with 53. change Binary64.emax with 1024.
  destruct (SFdiv_halves t m ltac:(lia) ltac:(lia)) as [(mq & eq & -> & Hmq & Heq) Hq].
  change (literal (N := spec_float) 100)
    with (S754_finite false 7036874417766400 (-46)).
  apply eq_true_iff_eq.
  rewrite Z.leb_le.
  cbn [In] in Hin. destruct Hin as [<-|[<-|[<-|[<-|[]]]]].
  - change (literal (N := spec_float) 90) with (S754_finite false 6333186975989760 (-46)).
    rewrite (times_100_atLeast mq eq _ _ 8106479329266893 (-53)) by (cbn; tauto || done).
    rewrite <- (Hq 8106479329266893 (-53) 90) by (cbn; lia).
    by rewrite SFleb_finite.
  - change (literal (N := spec_float) 80) with (S754_finite false 5629499534213120 (-46)).
    rewrite (times_100_atLeast mq eq _ _ 7205759403792793 (-53)) by (cbn; tauto || done).
    rewrite <- (Hq 7205759403792793 (-53) 80) by (cbn; lia).
    by rewrite SFleb_finite.
  - change (literal (N := spec_float) 60) with (S754_finite false 8444249301319680 (-47)).
    rewrite (times_100_atLeast mq eq _ _ 5404319552844595 (-53)) by (cbn; tauto || done).
    rewrite <- (Hq 5404319552844595 (-53) 60) by (cbn; lia).
    by rewrite SFleb_finite.
  - change (literal (N := spec_float) 40) with (S754_finite false 5629499534213120 (-47)).
    rewrite (times_100_atLeast mq eq _ _ 7205759403792793 (-54)) by (cbn; tauto || done).
    rewrite <- (Hq 7205759403792793 (-54) 40) by (cbn; lia).
    by rewrite SFleb_finite.
Qed.

(** The same comparison in exact arithmetic. *)
Lemma atLeast_percentage_exact t m theta :
  0 < m ->
  (inject_Z theta <= 100 * (inject_Z t / 2) / inject_Z m)%Q <-> theta * m <= 50 * t.
Proof.
  intros Hm. destruct m as [|p|p]; try lia.
  unfold Qle, Qdiv, Qmult, Qinv, inject_Z. cbn [Qnum Qden].
  rewrite ?Pos2Z.inj_mul. lia.
Qed.

(** With [maxScore = m] and [totalScore = t / 2], [t <= 2 * m], the lines
    [calculateSecurityScore] runs after its loop give the same grade in
    binary64 and in exact arithmetic. *)
Lemma grade_binary64 t m :
  0 <= m < 2 ^ 40 -> 0 <= t <= 2 * m ->
  grade (mkFrame [] (halves t) (literal (N := spec_float) m))
  = grade (mkFrame [] (inject_Z t / 2)%Q (inject_Z m)).
Proof.
  intros Hm Ht.
  assert (H53 : 2 ^ 53 = 9007199254740992) by reflexivity.
  assert (H40 : 2 ^ 40 = 1099511627776) by reflexivity.
  destruct (Z.eq_dec m 0) as [->|Hnz].
  { replace t with 0 by lia. reflexivity. }
  rewrite (grade_exact _ (inject_Z t / 2) (inject_Z m)) by reflexivity.
  rewrite decide_False
    by (change 0%Q with (inject_Z 0); rewrite inject_Z_injective; lia).
  change 90%Q with (inject_Z 90). change 80%Q with (inject_Z 80).
  change 60%Q with (inject_Z 60). change 40%Q with (inject_Z 40).
  unfold grade. cbn [totalScore maxScore].
  replace (strictEquals (literal (N := spec_float) m) (literal 0)) with false
    by (rewrite literal_normal by lia; reflexivity).
  cbv zeta.
  destruct (Z.eq_dec t 0) as [->|Htnz].
  - rewrite literal_normal by lia.
    repeat match goal with
           | |- context [decide (?c <= ?p)%Q] =>
               rewrite (decide_False (P := (c <= p)%Q))
                 by (rewrite atLeast_percentage_exact by lia; lia)
           end.
    reflexivity.
  - rewrite !atLeast_percentage by (cbn; lia || tauto).
    repeat match goal with
           | |- context [decide (inject_Z ?c <= ?p)%Q] =>
               destruct (Z.leb_spec (c * m) (50 * t));
               [ rewrite (decide_True (P := (inject_Z c <= p)%Q))
                   by (by apply atLeast_percentage_exact; [lia|])
               | rewrite (decide_False (P := (inject_Z c <= p)%Q))
                   by (rewrite atLeast_percentage_exact by lia; lia) ]
           end; reflexivity.
Qed.

(** On such a list the Scorer gives the same grade in binary64 and in exact
    arithmetic. *)
Lemma calculateSecurityScore_binary64 cs :
  ScorerSpec.weightSum cs < 2 ^ 40 ->
  calculateSecurityScore (N := spec_float) cs = calculateSecurityScore (N := Q) cs.
Proof.
  intros Hbound. pose proof (sums_bounds cs) as Hsums.
  unfold calculateSecurityScore at 1. rewrite scored_binary64 by done.
  rewrite (grade_counters _ []). cbn [totalScore maxScore].
  rewrite grade_binary64 by lia.
  rewrite calculateSecurityScore_exact. unfold ScorerSpec.grade, ScorerSpec.percentage.
  apply grade_exact; cbn [totalScore maxScore].
  - by rewrite totalScore_halvesSum.
  - by rewrite maxScore_weightSum.
Qed.

(** On such a list the Scorer of the code gives the grade of the
    specification. *)
Lemma calculateSecurityScore_bounded cs :
  ScorerSpec.weightSum cs < 2 ^ 40 ->
  SecurityAnalyzer.calculateSecurityScore cs = ScorerSpec.grade cs.
Proof.
  intros Hbound. unfold SecurityAnalyzer.calculateSecurityScore.
  rewrite calculateSecurityScore_binary64 by done. apply calculateSecurityScore_exact.
Qed.

(** The weights of a list add up to ten times its length at most. *)
Lemma weightSum_length cs : ScorerSpec.weightSum cs <= 10 * Z.of_nat (length cs).
Proof.
  induction cs as [|c cs IH]; cbn [ScorerSpec.weightSum foldr length]; [lia|].
  fold (ScorerSpec.weightSum cs). pose proof (weight_positive (SecurityCheck.severity c)).
  lia.
Qed.

End Binary64Facts.

(** C1.  For every list of checks the Scorer returns the grade the
    specification describes: with the weights critical = 10, high = 8,
    medium = 5, low = 2, info = 1 (1 for any other severity), [maxScore]
    the sum of the weights of all checks and [totalScore] the sum of the
    full weight of each passed check and of half the weight of each
    warning (nothing for fail, error or skip), the grade is FAIR when
    [maxScore] is zero and otherwise follows
    [percentage = 100 * totalScore / maxScore]: at least 90 EXCELLENT, at
    least 80 GOOD, at least 60 FAIR, at least 40 POOR, below 40 CRITICAL.
    This holds of the Scorer as the code runs it, on the binary64 numbers
    of JavaScript, for every array of checks: an array has fewer than
    [2^32] elements.  It holds as well of the Scorer read in exact
    arithmetic, on every list. *)
Theorem calculateSecurityScore_as_specified (checks : list SecurityCheck.t) :
  (Z.of_nat (length checks) < 2 ^ 32 ->
   SecurityAnalyzer.calculateSecurityScore checks = ScorerSpec.grade checks)
  /\ Scorer.calculateSecurityScore (N := Q) checks = ScorerSpec.grade checks.
Proof.
  split; [|apply calculateSecurityScore_exact].
  intros Hlength. apply calculateSecurityScore_bounded.
  pose proof (weightSum_length checks).
  change (2 ^ 32) with 4294967296 in Hlength. change (2 ^ 40) with 1099511627776. lia.
Qed.

(** The statement above on sixteen critical checks, fourteen passed and two
    failed: 140 points of 160, which is GOOD. *)
Lemma calculateSecurityScore_as_specified_witness :
  let check status :=
    SecurityCheck.mk "c" "c" SecurityCategory.NETWORK status Severity.CRITICAL "" None None in
  let checks := replicate 14 (check CheckStatus.PASS) ++ replicate 2 (check CheckStatus.FAIL) in
  Z.of_nat (length checks) < 2 ^ 32
  /\ SecurityAnalyzer.calculateSecurityScore checks = ScorerSpec.grade checks
  /\ SecurityAnalyzer.calculateSecurityScore checks = SecurityScore.GOOD.
Proof.
  cbv zeta. split; [reflexivity|]. split; [|by vm_compute].
  apply (proj1 (calculateSecurityScore_as_specified _)). reflexivity.
Defined.

(** C8.  The Scorer leaves the collection it was handed as it was, and a
    second run, on the collection as the first run left it, gives the same
    grade. *)
Theorem calculateSecurityScore_pure (checks : list SecurityCheck.t) :
  let after := Scorer.checks (Scorer.scored (N := spec_float) checks) in
  after = checks
  /\ SecurityAnalyzer.calculateSecurityScore after
     = SecurityAnalyzer.calculateSecurityScore checks.
Proof.
  cbv zeta. rewrite scored_checks. done.
Qed.

(** The weights are 10, 8, 5, 2 and 1, in the order of the severities. *)
Lemma getSeverityWeight_values :
  Scorer.getSeverityWeight (N := Q) <$>
    [Severity.CRITICAL; Severity.HIGH; Severity.MEDIUM; Severity.LOW; Severity.INFO]
  = [10; 8; 5; 2; 1]%Q.
Proof. reflexivity. Qed.

(** [percentage] lies between 0 and 100 whenever [maxScore] is not zero. *)
Lemma percentage_bounds (checks : list SecurityCheck.t) :
  (~ ScorerSpec.maxScore checks == 0 ->
   0 <= ScorerSpec.percentage checks <= 100)%Q.
Proof.
  assert (H : (0 <= ScorerSpec.totalScore checks <= ScorerSpec.maxScore checks)%Q).
  { rewrite totalScore_halvesSum, maxScore_weightSum.
    pose proof (sums_bounds checks) as [H1 H2]. split.
    - apply Qle_shift_div_l; [reflexivity|]. rewrite Qmult_0_l.
      rewrite <- (Zle_Qle 0). exact H1.
    - apply Qle_shift_div_r; [reflexivity|].
      rewrite <- (inject_Z_mult _ 2), <- Zle_Qle. lia. }
  intros Hnz. destruct H as [H1 H2]. unfold ScorerSpec.percentage.
  assert (Hpos : (0 < ScorerSpec.maxScore checks)%Q).
  { apply Qnot_le_lt. intros Hle. apply Hnz. apply Qle_antisym; [done|].
    by apply Qle_trans with (ScorerSpec.totalScore checks). }
  split.
  - apply Qle_shift_div_l; [done|]. rewrite Qmult_0_l.
    replace 0%Q with (100 * 0)%Q by reflexivity. by apply Qmult_le_l.
  - apply Qle_shift_div_r; [done|]. by apply Qmult_le_l.
Qed.

(** The thresholds are closed below: 72 points of 80 are exactly 90 percent
    and grade EXCELLENT, 24 of 40 are exactly 60 percent and grade FAIR;
    no check at all grades FAIR. *)
Lemma thresholds_closed_below :
  let check status :=
    SecurityCheck.mk "c" "c" SecurityCategory.NETWORK status Severity.HIGH "" None None in
  SecurityAnalyzer.calculateSecurityScore
    (replicate 9 (check CheckStatus.PASS) ++ [check CheckStatus.FAIL])
  = SecurityScore.EXCELLENT
  /\ SecurityAnalyzer.calculateSecurityScore
       (replicate 3 (check CheckStatus.PASS) ++ replicate 2 (check CheckStatus.ERROR))
     = SecurityScore.FAIR
  /\ SecurityAnalyzer.calculateSecurityScore [] = SecurityScore.FAIR.
Proof. by vm_compute. Qed.

(** ** Bodies that cannot throw *)

Section JsFacts.
Context {S : Type}.

Lemma returns_ret {A} (a : A) : returns (S := S) (ret a).
Proof. intros s. by exists s, a. Qed.

Lemma returns_modify (f : S -> S) : returns (modify f).
Proof. intros s. by exists (f s), tt. Qed.

Lemma returns_await {A} (a : A) : returns (S := S) (await (fulfilled a)).
Proof. intros s. by exists s, a. Qed.

Lemma returns_bind {A B} (m : Js S A) (k : A -> Js S B) :
  returns m -> (forall a, returns (k a)) -> returns (bind m k).
Proof.
  intros Hm Hk s. destruct (Hm s) as (s' & a & E).
  unfold bind. rewrite E. apply Hk.
Qed.

(** A [try] whose handler cannot throw cannot throw, whatever its body. *)
Lemma returns_tryCatch {A} (body : Js S A) (handler : thrown -> Js S A) :
  (forall error, returns (handler error)) -> returns (tryCatch body handler).
Proof.
  intros Hh s. unfold tryCatch.
  destruct (body s) as [s' [a|e]]; [by exists s', a | apply Hh].
Qed.

Lemma returns_forOf {A} (xs : list A) (body : A -> Js S unit) :
  (forall x, returns (body x)) -> returns (SecurityAnalyzer.forOf xs body).
Proof.
  intros Hb. induction xs as [|x xs IH]; cbn [SecurityAnalyzer.forOf].
  - apply returns_ret.
  - apply returns_bind; [apply Hb | intros _; apply IH].
Qed.

End JsFacts.

Lemma returns_returnFindings : returns returnFindings.
Proof. intros f. by exists f, f. Qed.

Lemma returns_async {A} (body : Js Findings.t A) :
  returns body -> exists a, async body = fulfilled a.
Proof.
  intros H. destruct (H Findings.empty) as (f & a & E).
  exists a. unfold async. by rewrite E.
Qed.

Create HintDb js discriminated.
#[local] Hint Resolve returns_ret returns_modify returns_await returns_returnFindings : js.
#[local] Hint Extern 1 (returns (pushCheck _)) => apply returns_modify : js.
#[local] Hint Extern 1 (returns (pushRecommendation _)) => apply returns_modify : js.
#[local] Hint Extern 1 (returns (pushVulnerability _)) => apply returns_modify : js.
#[local] Hint Extern 1 (returns (log _)) => apply returns_modify : js.
#[local] Hint Extern 2 (returns (bind _ _)) => apply returns_bind; [|intros] : js.
#[local] Hint Extern 2 (returns (tryCatch _ _)) => apply returns_tryCatch; intros : js.
#[local] Hint Extern 3 (returns (if ?b then _ else _)) => destruct b : js.

(** ** No probe of [SecurityAnalyzer] rejects *)

Section ProbesFulfil.
Import SecurityAnalyzer.
Variables (w : World) (server : MCPServer.t).

Lemma checkEndpointAvailability_fulfilled :
  exists f, checkEndpointAvailability w server = fulfilled f.
Proof. apply returns_async. auto 10 with js. Qed.

Lemma checkSSLConfiguration_fulfilled :
  exists f, checkSSLConfiguration w server = fulfilled f.
Proof. apply returns_async. auto 10 with js. Qed.

Lemma checkAuthentication_fulfilled :
  exists f, checkAuthentication w server = fulfilled f.
Proof. apply returns_async. auto 10 with js. Qed.

Lemma checkHttpSecurity_fulfilled :
  exists f, checkHttpSecurity w server = fulfilled f.
Proof. apply returns_async. auto 10 with js. Qed.

Lemma checkAPIEndpoints_fulfilled :
  exists f, checkAPIEndpoints w server = fulfilled f.
Proof. apply returns_async. auto 10 with js. Qed.

Lemma checkRateLimit_fulfilled :
  exists f, checkRateLimit server = fulfilled f.
Proof.
  apply returns_async. apply returns_bind; [|auto with js].
  destruct (_ ≫= _); auto 10 with js.
Qed.

Lemma checkCORSConfiguration_fulfilled :
  exists f, checkCORSConfiguration w server = fulfilled f.
Proof. apply returns_async. auto 10 with js. Qed.

Lemma checkSecurityHeaders_fulfilled :
  exists f, checkSecurityHeaders server = fulfilled f.
Proof. by eexists. Qed.

(** Each of the eight promises of [analyzeServer] is fulfilled: a probe
    turns what goes wrong inside it into a check of its own. *)
Lemma runChecks_fulfilled :
  exists values, runChecks w server = fulfilled <$> values /\ length values = 8%nat.
Proof.
  destruct checkEndpointAvailability_fulfilled as [f1 E1].
  destruct checkSSLConfiguration_fulfilled as [f2 E2].
  destruct checkAuthentication_fulfilled as [f3 E3].
  destruct checkHttpSecurity_fulfilled as [f4 E4].
  destruct checkAPIEndpoints_fulfilled as [f5 E5].
  destruct checkRateLimit_fulfilled as [f6 E6].
  destruct checkCORSConfiguration_fulfilled as [f7 E7].
  destruct checkSecurityHeaders_fulfilled as [f8 E8].
  exists [f1; f2; f3; f4; f5; f6; f7; f8]. split; [|done].
  unfold runChecks. by rewrite E1, E2, E3, E4, E5, E6, E7, E8.
Qed.

End ProbesFulfil.

(** ** The probe runner: the merge in [analyzeServer] *)

Section Runner.
Import SecurityAnalyzer.

Lemma mergeFindings_nil found : mergeFindings found [] = found.
Proof. destruct found. unfold mergeFindings. cbn. by rewrite !app_nil_r. Qed.

Lemma mergeFindings_cons found value values :
  mergeFindings found (value :: values)
  = mergeFindings
      (Findings.mk
         (Findings.checks found ++ Findings.checks value)
         (Findings.recommendations found ++ Findings.recommendations value)
         (Findings.vulnerabilities found ++ Findings.vulnerabilities value))
      values.
Proof. unfold mergeFindings. cbn. by rewrite !app_assoc. Qed.

(** The loop over [checkResults] ends normally: it has pushed the findings
    of the fulfilled checks, in order, and written one line for each
    rejected one. *)
Lemma processResults_spec checkResults : forall found index console,
  processResults found index checkResults console
  = (console ++ (checkFailedLine <$> rejections index checkResults),
     fulfilled (mergeFindings found (fulfilledValues checkResults))).
Proof.
  induction checkResults as [|[value|reason] rest IH]; intros found index console.
  - cbn. by rewrite app_nil_r, mergeFindings_nil.
  - cbn [processResults processResult fulfilledValues rejections].
    unfold bind, ret. rewrite IH. by rewrite mergeFindings_cons.
  - cbn [processResults processResult fulfilledValues rejections fmap list_fmap].
    unfold bind, ret, log, modify. rewrite IH. by rewrite <- app_assoc.
Qed.

(** [analyzeServer] never rejects, whatever its probes did. *)
Lemma analyzeSettled_spec w server checkResults console :
  let found := mergeFindings Findings.empty (fulfilledValues checkResults) in
  analyzeSettled w server checkResults console
  = (console ++ (checkFailedLine <$> rejections 0 checkResults),
     fulfilled (SecurityAnalysisResult.mk
                  (MCPServer.id server) (MCPServer.name server)
                  (MCPServer.endpoint server) (now_analyzeServer w)
                  (calculateSecurityScore (Findings.checks found))
                  (Findings.checks found)
                  (Findings.recommendations found)
                  (Findings.vulnerabilities found))).
Proof.
  unfold analyzeSettled, tryCatch, bind. by rewrite processResults_spec.
Qed.

Lemma fulfilledValues_app {A} (xs ys : list (settled A)) :
  fulfilledValues (xs ++ ys) = fulfilledValues xs ++ fulfilledValues ys.
Proof.
  induction xs as [|[v|e] xs IH]; cbn; by rewrite ?IH.
Qed.


Lemma rejections_fulfilled {A} (values : list A) index :
  rejections index (fulfilled <$> values) = [].
Proof. revert index. induction values as [|v vs IH]; intros index; cbn; by rewrite ?IH. Qed.

Lemma rejections_app {A} (xs ys : list (settled A)) index :
  rejections index (xs ++ ys) = rejections index xs ++ rejections (index + length xs) ys.
Proof.
  revert index. induction xs as [|[v|e] xs IH]; intros index; cbn.
  - by rewrite Nat.add_0_r.
  - rewrite IH. do 2 f_equal. lia.
  - rewrite IH. do 3 f_equal. lia.
Qed.

(** With probes that all fulfil, nothing is written on the console. *)
Lemma analyzeServer_spec w server console :
  exists result,
    analyzeServer w server console = (console, fulfilled result)
    /\ SecurityAnalysisResult.endpoint result = MCPServer.endpoint server
    /\ SecurityAnalysisResult.serverId result = MCPServer.id server.
Proof.
  unfold analyzeServer. rewrite analyzeSettled_spec.
  destruct (runChecks_fulfilled w server) as (values & -> & _).
  rewrite rejections_fulfilled. cbn [fmap list_fmap]. rewrite app_nil_r.
  by eexists.
Qed.

(** The result does not depend on the console. *)
Lemma analyzeServer_result w server :
  exists result,
    (forall console, analyzeServer w server console = (console, fulfilled result))
    /\ SecurityAnalysisResult.endpoint result = MCPServer.endpoint server
    /\ SecurityAnalysisResult.serverId result = MCPServer.id server.
Proof.
  destruct (runChecks_fulfilled w server) as (values & Hrun & _).
  eexists. split; [|split].
  - intros console.
    unfold analyzeServer. rewrite analyzeSettled_spec, Hrun.
    rewrite rejections_fulfilled. cbn [fmap list_fmap]. rewrite app_nil_r.
    reflexivity.
  - reflexivity.
  - reflexivity.
Qed.

End Runner.

(** Each of the eight probes of [analyzeServer] fulfils, on every server
    and in every world: what goes wrong inside a probe ends in a check of
    the probe, not in a rejection. *)
Theorem probes_never_reject (w : World) (server : MCPServer.t) :
  exists values,
    SecurityAnalyzer.runChecks w server = fulfilled <$> values /\ length values = 8%nat.
Proof. apply runChecks_fulfilled. Qed.




(** ** The audit orchestrator *)

Section Audit.
Import MCPSecurityAuditor.

Lemma omap_lookup_seq {A B} (g : A -> B) (l pre : list A) :
  omap (fun i => g <$> (pre ++ l) !! i) (seq (length pre) (length l)) = g <$> l.
Proof.
  revert pre. induction l as [|x l IH]; intros pre; [done|].
  cbn [length seq omap list_omap]. rewrite list_lookup_middle by done. cbn.
  f_equal.
  replace (S (length pre)) with (length (pre ++ [x])) by (rewrite length_app; cbn; lia).
  replace (pre ++ x :: l) with ((pre ++ [x]) ++ l) by (by rewrite <- app_assoc).
  apply IH.
Qed.

(** With the analyzer of the class every analysis ends in a result, which
    is pushed; the console is left as it was. *)
Lemma completeAll_analyzeServer world allServers order :
  forall analysisResults console,
  exists more,
    completeAll (fun i => SecurityAnalyzer.analyzeServer (world i)) allServers
      analysisResults order console
    = (console, fulfilled (analysisResults ++ more))
    /\ SecurityAnalysisResult.endpoint <$> more
       = omap (fun i => MCPServer.endpoint <$> allServers !! i) order.
Proof.
  induction order as [|i order IH]; intros analysisResults console.
  - exists []. cbn. by rewrite app_nil_r.
  - cbn [completeAll omap list_omap]. destruct (allServers !! i) as [server|] eqn:E; cbn.
    + destruct (analyzeServer_spec (world i) server console)
        as (result & Hr & He & _).
      unfold bind at 1. unfold completeAnalysis, tryCatch, bind at 1. rewrite Hr.
      unfold ret at 1.
      destruct (IH (analysisResults ++ [result]) console) as (more & -> & Hm).
      exists (result :: more). split.
      * by rewrite <- app_assoc.
      * cbn. by rewrite He, Hm.
    + apply IH.
Qed.

(** The results are pushed in the order in which the analyses end: the
    result pushed for the index [i] is the one [analyzeServer] gives, in
    the world of that analysis, for the server of that index. *)
Lemma completeAll_in_order world allServers order :
  Forall (fun i => (i < length allServers)%nat) order ->
  forall analysisResults console,
  exists more,
    completeAll (fun i => SecurityAnalyzer.analyzeServer (world i)) allServers
      analysisResults order console
    = (console, fulfilled (analysisResults ++ more))
    /\ Forall2
         (fun i result =>
            exists server,
              allServers !! i = Some server
              /\ SecurityAnalysisResult.endpoint result = MCPServer.endpoint server
              /\ SecurityAnalysisResult.serverId result = MCPServer.id server
              /\ forall console',
                   SecurityAnalyzer.analyzeServer (world i) server console'
                   = (console', fulfilled result))
         order more.
Proof.
  induction 1 as [|i order Hi _ IH]; intros analysisResults console.
  - exists []. cbn. by rewrite app_nil_r.
  - apply lookup_lt_is_Some_2 in Hi. destruct Hi as [server E].
    cbn [completeAll]. rewrite E.
    destruct (analyzeServer_result (world i) server) as (result & Hr & He & Hi).
    unfold bind at 1. unfold completeAnalysis, tryCatch, bind at 1. rewrite Hr.
    unfold ret at 1.
    destruct (IH (analysisResults ++ [result]) console) as (more & -> & Hm).
    exists (result :: more). split.
    + by rewrite <- app_assoc.
    + constructor; [|exact Hm]. by exists server.
Qed.

(** The endpoints of results pushed in that order. *)
Lemma endpoints_in_order (world : nat -> World) (allServers : list MCPServer.t) order results :
  Forall2
    (fun i result =>
       exists server,
         allServers !! i = Some server
         /\ SecurityAnalysisResult.endpoint result = MCPServer.endpoint server
         /\ SecurityAnalysisResult.serverId result = MCPServer.id server
         /\ forall console',
              SecurityAnalyzer.analyzeServer (world i) server console'
              = (console', fulfilled result))
    order results ->
  SecurityAnalysisResult.endpoint <$> results
  = omap (fun i => MCPServer.endpoint <$> allServers !! i) order.
Proof.
  induction 1 as [|i result order results (server & E & He & _) _ IH]; [done|].
  cbn. rewrite E. cbn. by rewrite He, IH.
Qed.

Lemma forOf_log {A} (xs : list A) (line : A -> ConsoleLine) console :
  SecurityAnalyzer.forOf xs (fun x => log (line x)) console
  = (console ++ (line <$> xs), fulfilled tt).
Proof.
  revert console. induction xs as [|x xs IH]; intros console; cbn.
  - by rewrite app_nil_r.
  - unfold bind, log, modify. rewrite IH. by rewrite <- app_assoc.
Qed.

Lemma filter_isConsoleError_app console added :
  Forall (fun line => isConsoleError line = false) added ->
  filter isConsoleError (console ++ added) = filter isConsoleError console.
Proof.
  intros H. rewrite filter_app.
  replace (filter isConsoleError added) with (@nil ConsoleLine); [by rewrite app_nil_r|].
  induction H as [|line added Hline _ IH]; [done|].
  rewrite filter_cons_False by (rewrite Hline; tauto). exact IH.
Qed.

End Audit.
(** C2, as the code has it.  For every collection of discovered servers
    (three of them, one with an empty endpoint, included), every world and
    every order in which the analyses end, [performAudit] does not raise
    and returns one result per server, in the order in which the analyses
    end: the result at each place is the one [analyzeServer] gives for the
    server whose analysis ended at that place, with its endpoint and its
    id; no server is left out, and nothing is reported on the error
    console.  An empty endpoint is not detected as a malformed record; the
    probes turn the requests that fail on it into checks, and
    [analyzeServer] ends normally. *)
Theorem performAudit_returns_every_server (world : nat -> World)
    (discoveryResults : list DiscoveryResult.t) (order : list nat) (console : Console) :
  let allServers := flat_map DiscoveryResult.servers discoveryResults in
  order ≡ₚ seq 0 (length allServers) ->
  exists console' results,
    MCPSecurityAuditor.performAudit world (fulfilled discoveryResults) order console
    = (console', fulfilled results)
    /\ length results = length allServers
    /\ SecurityAnalysisResult.endpoint <$> results ≡ₚ MCPServer.endpoint <$> allServers
    /\ filter isConsoleError console' = filter isConsoleError console
    /\ Forall2
         (fun i result =>
            exists server,
              allServers !! i = Some server
              /\ SecurityAnalysisResult.endpoint result = MCPServer.endpoint server
              /\ SecurityAnalysisResult.serverId result = MCPServer.id server
              /\ forall console'',
                   SecurityAnalyzer.analyzeServer (world i) server console''
                   = (console'', fulfilled result))
         order results.
Proof.
  intros allServers Horder. subst allServers.
  unfold MCPSecurityAuditor.performAudit, MCPSecurityAuditor.performAuditWith.
  unfold tryCatch, bind at 1, log at 1, modify at 1.
  unfold bind at 1, await at 1. cbv zeta.
  revert Horder.
  generalize (flat_map DiscoveryResult.servers discoveryResults) as allServers.
  intros allServers Horder.
  unfold bind at 1, log at 1, modify at 1.
  case_bool_decide as Hlen.
  - unfold bind, log, modify, ret.
    apply length_zero_iff_nil in Hlen. subst allServers.
    cbn in Horder. apply Permutation_nil_r in Horder. subst order.
    eexists _, []. split; [reflexivity|]. split; [done|]. split; [done|].
    split; [|constructor].
    rewrite <- !app_assoc. apply filter_isConsoleError_app.
    by repeat constructor.
  - unfold bind at 1, log at 1, modify at 1.
    unfold bind at 1. rewrite forOf_log.
    unfold bind at 1.
    assert (Hbound : Forall (fun i => (i < length allServers)%nat) order).
    { rewrite Horder. apply Forall_seq. intros i Hi. lia. }
    match goal with
    | |- context [MCPSecurityAuditor.completeAll _ _ _ _ ?c] =>
        destruct (completeAll_in_order world allServers order Hbound [] c)
          as (results & -> & Hin)
    end.
    cbn [app]. unfold bind, log, modify, ret.
    assert (Hperm : SecurityAnalysisResult.endpoint <$> results
                    ≡ₚ MCPServer.endpoint <$> allServers).
    { rewrite (endpoints_in_order world allServers order results Hin), Horder.
      pose proof (omap_lookup_seq MCPServer.endpoint allServers []) as E.
      cbn [app length] in E. by rewrite E. }
    eexists _, results. split; [reflexivity|].
    split; [|split; [exact Hperm|split; [|exact Hin]]].
    + rewrite <- (length_fmap SecurityAnalysisResult.endpoint),
        <- (length_fmap MCPServer.endpoint). by apply Permutation_length.
    + rewrite <- !app_assoc. apply filter_isConsoleError_app.
      repeat first [ apply Forall_cons; split; [reflexivity|]
                   | apply Forall_app; split
                   | apply Forall_nil_2
                   | apply Forall_fmap, Forall_true; reflexivity ].
Qed.

(** The statement above on three servers, the second with an empty
    endpoint, whose analyses end in the order third, first, second: the
    results come in that order. *)
Lemma performAudit_returns_every_server_witness :
  exists console' results,
    MCPSecurityAuditor.performAudit (fun _ => Examples.live)
      (fulfilled Examples.discovered) [2; 0; 1]%nat []
    = (console', fulfilled results)
    /\ length results = 3%nat
    /\ SecurityAnalysisResult.endpoint <$> results
       = ["https://gamma.example.com"; "http://alpha.example.com"; ""]
    /\ filter isConsoleError console' = [].
Proof.
  destruct (performAudit_returns_every_server (fun _ => Examples.live)
              Examples.discovered [2; 0; 1]%nat [])
    as (console' & results & Hrun & Hlength & _ & Herrors & Hin).
  { cbn. transitivity [0; 2; 1]%nat; [apply perm_swap | apply perm_skip, perm_swap]. }
  exists console', results. split; [exact Hrun|]. split; [exact Hlength|].
  split; [|exact Herrors].
  rewrite (endpoints_in_order _ _ _ _ Hin). reflexivity.
Defined.

(** C2, as the specification has it, fails: of three discovered servers,
    the second with an empty endpoint, all three are analysed; the result
    for the empty endpoint is there, the results are three and not two, and
    the error console stays empty. *)
Lemma performAudit_keeps_empty_endpoint :
  exists console results,
    MCPSecurityAuditor.performAudit (fun _ => Examples.live)
      (fulfilled Examples.discovered) [0; 1; 2]%nat []
    = (console, fulfilled results)
    /\ SecurityAnalysisResult.endpoint <$> results
       = ["http://alpha.example.com"; ""; "https://gamma.example.com"]
    /\ length results = 3%nat
    /\ length results <> 2%nat
    /\ filter isConsoleError console = [].
Proof.
  eexists _, _. split; [vm_compute; reflexivity|].
  vm_compute. repeat split; congruence.
Qed.

(** ** The reachability probe *)

Section Reachability.
Import SecurityAnalyzer.
Variables (w : World) (server : MCPServer.t).
Hypothesis Hprotocol :
  MCPServer.protocol server = Protocol.http \/ MCPServer.protocol server = Protocol.https.

Lemma not_websocket :
  bool_decide (MCPServer.protocol server = Protocol.ws)
  || bool_decide (MCPServer.protocol server = Protocol.wss) = false.
Proof. destruct Hprotocol as [-> | ->]; reflexivity. Qed.

(** What the probe answers to each outcome of its GET. *)
Lemma checkEndpointAvailability_http :
  checkEndpointAvailability w server
  = fulfilled
      match axios_get w CheckEndpointAvailability (MCPServer.endpoint server) with
      | fulfilled response =>
          let status := AxiosResponse.status response in
          if (200 <=? status) && (status <? 300) then
            Findings.mk
              [SecurityCheck.mk "endpoint-availability-http" "HTTP Endpoint Availability"
                 SecurityCategory.AVAILABILITY CheckStatus.PASS Severity.HIGH
                 "HTTP endpoint is accessible and responding normally" None None]
              [] []
          else if 400 <=? status then
            Findings.mk
              [SecurityCheck.mk "endpoint-availability-http" "HTTP Endpoint Availability"
                 SecurityCategory.AVAILABILITY CheckStatus.WARNING Severity.MEDIUM
                 ("Endpoint returned status " +:+ pretty status)
                 (Some ("HTTP " +:+ pretty status +:+ ": "
                        +:+ AxiosResponse.statusText response))
                 None]
              [] []
          else Findings.empty
      | rejected error =>
          Findings.mk
            [SecurityCheck.mk "endpoint-availability" "Endpoint Availability"
               SecurityCategory.AVAILABILITY CheckStatus.FAIL Severity.CRITICAL
               "Endpoint is not accessible" (Some (messageOrUnknown error)) None]
            []
            [Vulnerability.mk "endpoint-unreachable" None "Endpoint Unreachable"
               "The MCP server endpoint cannot be reached"
               Severity.HIGH SecurityCategory.AVAILABILITY (MCPServer.endpoint server)
               (Some "Verify server is running and network connectivity") None]
      end.
Proof.
  unfold checkEndpointAvailability. rewrite not_websocket.
  unfold async, tryCatch, bind, await.
  destruct (axios_get w _ _) as [response|error]; [|reflexivity].
  cbv zeta. destruct (_ && _); [reflexivity|].
  destruct (400 <=? _); reflexivity.
Qed.

End Reachability.

(** C9.  For an http or https server: when the GET of the reachability
    probe ends on a status from 300 to 399, the probe emits nothing, no
    check (pass, warning or fail), no recommendation and no vulnerability;
    and whenever the probe emits anything, either the GET failed and the
    probe emitted one fail check, or the status was in [200, 300) and it
    emitted one pass check, or the status was 400 or more and it emitted
    one warning check. *)
Theorem redirect_status_emits_nothing (w : World) (server : MCPServer.t) :
  MCPServer.protocol server = Protocol.http \/ MCPServer.protocol server = Protocol.https ->
  let get := axios_get w CheckEndpointAvailability (MCPServer.endpoint server) in
  (forall response,
     get = fulfilled response ->
     300 <= AxiosResponse.status response < 400 ->
     SecurityAnalyzer.checkEndpointAvailability w server = fulfilled Findings.empty)
  /\ (forall found,
        SecurityAnalyzer.checkEndpointAvailability w server = fulfilled found ->
        found <> Findings.empty ->
        let statuses := SecurityCheck.status <$> Findings.checks found in
        (exists error, get = rejected error /\ statuses = [CheckStatus.FAIL])
        \/ (exists response,
              get = fulfilled response
              /\ 200 <= AxiosResponse.status response < 300
              /\ statuses = [CheckStatus.PASS])
        \/ (exists response,
              get = fulfilled response
              /\ 400 <= AxiosResponse.status response
              /\ statuses = [CheckStatus.WARNING])).
Proof.
  intros Hprotocol get. subst get.
  rewrite (checkEndpointAvailability_http w server Hprotocol).
  split.
  - intros response -> Hstatus. cbv zeta.
    replace (_ && _) with false by (symmetry; apply andb_false_iff; lia).
    replace (400 <=? _) with false by (symmetry; apply Z.leb_gt; lia).
    reflexivity.
  - intros found [= <-] Hfound. cbv zeta.
    destruct (axios_get _ _ _) as [response|error]; [|left; by exists error].
    right. cbv zeta in *.
    destruct (_ && _) eqn:E1.
    { left. exists response. repeat split; try done; apply andb_true_iff in E1; lia. }
    destruct (400 <=? _) eqn:E2; [|done].
    right. exists response. repeat split; try done. lia.
Qed.

(** The statement above on a server that answers 302. *)
Lemma redirect_status_emits_nothing_witness :
  SecurityAnalyzer.checkEndpointAvailability Examples.redirecting Examples.alpha
  = fulfilled Findings.empty.
Proof.
  apply (proj1 (redirect_status_emits_nothing Examples.redirecting Examples.alpha
                  (or_introl eq_refl))
           Examples.found302 eq_refl).
  cbn. lia.
Defined.

(** ** An http server that nothing reaches *)

Section Unreachable.
Import SecurityAnalyzer.
Variables (w : World) (server : MCPServer.t).
Variables (failure : Caller -> string -> thrown) (optionsFailure : string -> thrown).
Hypothesis Hprotocol : MCPServer.protocol server = Protocol.http.
Hypothesis Hget : forall caller url, axios_get w caller url = rejected (failure caller url).
Hypothesis Hoptions : forall url, axios_options w url = rejected (optionsFailure url).









End Unreachable.



(** ** The authentication probe *)

Section Authentication.
Import SecurityAnalyzer.
Variables (w : World) (server : MCPServer.t) (response : AxiosResponse.t).
Hypothesis Hget :
  axios_get w CheckAuthentication (MCPServer.endpoint server) = fulfilled response.

Lemma authHeadersChecks_low :
  Forall (fun check => SecurityCheck.status check = CheckStatus.PASS
                       /\ SecurityCheck.severity check = Severity.LOW)
    (authHeadersChecks response).
Proof. unfold authHeadersChecks. case (existsb _ _); repeat constructor. Qed.

Lemma checkAuthentication_answered :
  checkAuthentication w server
  = fulfilled
      (if (AxiosResponse.status response =? 401) || (AxiosResponse.status response =? 403)
       then
         Findings.mk
           (SecurityCheck.mk "authentication-required" "Authentication Required"
              SecurityCategory.AUTHENTICATION CheckStatus.PASS Severity.HIGH
              "Server properly requires authentication" None None
            :: authHeadersChecks response)
           [] []
       else if AxiosResponse.status response =? 200
       then
         Findings.mk
           (SecurityCheck.mk "authentication-required" "Authentication Required"
              SecurityCategory.AUTHENTICATION CheckStatus.WARNING Severity.MEDIUM
              "Server allows unauthenticated access" None None
            :: authHeadersChecks response)
           [SecurityRecommendation.mk "implement-authentication" "Implement Authentication"
              "Consider implementing authentication to secure the API"
              Severity.MEDIUM SecurityCategory.AUTHENTICATION false None]
           []
       else Findings.mk (authHeadersChecks response) [] []).
Proof.
  unfold checkAuthentication, async, tryCatch, bind at 1, bind at 1, await.
  rewrite Hget. unfold authHeadersChecks. cbv zeta.
  destruct (_ || _).
  - unfold bind. cbn. by case (_ || _).
  - destruct (_ =? 200); unfold bind; cbn; by case (_ || _).
Qed.

End Authentication.

(** C7.  For every server whose unauthenticated GET is answered: on status
    200 the authentication probe emits exactly one warning check, of
    severity medium, and exactly one recommendation; on status 401 it emits
    exactly one pass check of severity high and no recommendation.  (The
    only other check the probe can add is the pass of severity low on the
    authentication headers.) *)
Theorem unauthenticated_get_is_graded (w : World) (server : MCPServer.t)
    (response : AxiosResponse.t) :
  axios_get w CheckAuthentication (MCPServer.endpoint server) = fulfilled response ->
  exists found,
    SecurityAnalyzer.checkAuthentication w server = fulfilled found
    /\ (AxiosResponse.status response = 200 ->
        Findings.checks found
        = SecurityCheck.mk "authentication-required" "Authentication Required"
            SecurityCategory.AUTHENTICATION CheckStatus.WARNING Severity.MEDIUM
            "Server allows unauthenticated access" None None
          :: authHeadersChecks response
        /\ filter (fun check => SecurityCheck.status check = CheckStatus.WARNING)
             (Findings.checks found)
           = [SecurityCheck.mk "authentication-required" "Authentication Required"
                SecurityCategory.AUTHENTICATION CheckStatus.WARNING Severity.MEDIUM
                "Server allows unauthenticated access" None None]
        /\ Findings.recommendations found
           = [SecurityRecommendation.mk "implement-authentication" "Implement Authentication"
                "Consider implementing authentication to secure the API"
                Severity.MEDIUM SecurityCategory.AUTHENTICATION false None])
    /\ (AxiosResponse.status response = 401 ->
        Findings.checks found
        = SecurityCheck.mk "authentication-required" "Authentication Required"
            SecurityCategory.AUTHENTICATION CheckStatus.PASS Severity.HIGH
            "Server properly requires authentication" None None
          :: authHeadersChecks response
        /\ filter (fun check => SecurityCheck.status check = CheckStatus.PASS
                                /\ SecurityCheck.severity check = Severity.HIGH)
             (Findings.checks found)
           = [SecurityCheck.mk "authentication-required" "Authentication Required"
                SecurityCategory.AUTHENTICATION CheckStatus.PASS Severity.HIGH
                "Server properly requires authentication" None None]
        /\ Findings.recommendations found = []).
Proof.
  intros Hget. eexists. split; [by apply checkAuthentication_answered|].
  split; intros ->; cbn [Z.eqb Pos.eqb orb Findings.checks Findings.recommendations].
  - split; [done|]. split; [|done].
    rewrite filter_cons_True by done. f_equal.
    unfold authHeadersChecks. case (existsb _ _); [|done].
    by rewrite filter_cons_False by (cbn; congruence).
  - split; [done|]. split; [|done].
    rewrite filter_cons_True by done. f_equal.
    unfold authHeadersChecks. case (existsb _ _); [|done].
    by rewrite filter_cons_False by (cbn; intros [_ [=]]).
Qed.

(** The statement above on a server that answers 200 and on one that
    answers 401 with a [www-authenticate] header. *)
Lemma unauthenticated_get_is_graded_witness :
  (exists found,
     SecurityAnalyzer.checkAuthentication Examples.live Examples.alpha = fulfilled found
     /\ length (filter (fun check => SecurityCheck.status check = CheckStatus.WARNING)
                  (Findings.checks found)) = 1%nat
     /\ length (Findings.recommendations found) = 1%nat)
  /\ (exists found,
        SecurityAnalyzer.checkAuthentication Examples.guarded Examples.alpha = fulfilled found
        /\ length (filter (fun check => SecurityCheck.status check = CheckStatus.PASS
                                        /\ SecurityCheck.severity check = Severity.HIGH)
                     (Findings.checks found)) = 1%nat
        /\ length (Findings.checks found) = 2%nat
        /\ Findings.recommendations found = []).
Proof.
  split.
  - destruct (unauthenticated_get_is_graded Examples.live Examples.alpha _ eq_refl)
      as (found & Hfound & H200 & _).
    exists found. split; [exact Hfound|].
    destruct (H200 eq_refl) as (_ & -> & ->). done.
  - destruct (unauthenticated_get_is_graded Examples.guarded Examples.alpha _ eq_refl)
      as (found & Hfound & _ & H401).
    exists found. split; [exact Hfound|].
    destruct (H401 eq_refl) as (-> & -> & ->). done.
Defined.

(** ** The HTTP security headers probe *)

Section HttpSecurity.
Import SecurityAnalyzer.

Lemma forOf_securityHeaderCheck response entries : forall found,
  forOf entries (securityHeaderCheck response) found
  = (Findings.mk
       (Findings.checks found ++ (perHeaderCheck response <$> entries))
       (Findings.recommendations found ++ omap (perHeaderRecommendation response) entries)
       (Findings.vulnerabilities found),
     fulfilled tt).
Proof.
  induction entries as [|[header name] entries IH]; intros found.
  - cbn. rewrite !app_nil_r. by destruct found.
  - cbn [forOf]. unfold bind at 1.
    unfold securityHeaderCheck, perHeaderCheck, perHeaderRecommendation.
    cbn [fmap list_fmap omap list_omap fst snd].
    destruct (truthy (headerOf response header)).
    + unfold pushCheck, modify. rewrite IH. cbn [Findings.checks Findings.recommendations
        Findings.vulnerabilities]. by rewrite <- app_assoc.
    + unfold bind, pushCheck, pushRecommendation, modify. rewrite IH.
      cbn [Findings.checks Findings.recommendations Findings.vulnerabilities].
      by rewrite <- !app_assoc.
Qed.

Variables (w : World) (server : MCPServer.t) (response : AxiosResponse.t).
Hypothesis Hprotocol :
  MCPServer.protocol server = Protocol.http \/ MCPServer.protocol server = Protocol.https.
Hypothesis Hget :
  axios_get w CheckHttpSecurity (MCPServer.endpoint server) = fulfilled response.

Lemma checkHttpSecurity_answered :
  checkHttpSecurity w server
  = fulfilled
      (Findings.mk
         ((perHeaderCheck response <$> securityHeaders)
          ++ match serverHeaderOf response with
             | Some value =>
                 if String.eqb value "" then []
                 else [SecurityCheck.mk "server-header-disclosure"
                         "Server Information Disclosure"
                         SecurityCategory.CONFIGURATION CheckStatus.WARNING Severity.LOW
                         "Server header reveals server information"
                         (Some ("Server: " +:+ value)) None]
             | None => []
             end)
         (omap (perHeaderRecommendation response) securityHeaders
          ++ match serverHeaderOf response with
             | Some value =>
                 if String.eqb value "" then []
                 else [SecurityRecommendation.mk "hide-server-header" "Hide Server Header"
                         "Consider hiding or minimizing server header information"
                         Severity.LOW SecurityCategory.CONFIGURATION false None]
             | None => []
             end)
         []).
Proof.
  unfold checkHttpSecurity. rewrite (not_websocket server Hprotocol).
  unfold async, tryCatch, bind at 1, bind at 1, await. rewrite Hget.
  unfold bind at 1. rewrite forOf_securityHeaderCheck.
  cbn [Findings.empty Findings.checks Findings.recommendations Findings.vulnerabilities app].
  destruct (serverHeaderOf response) as [value|] eqn:E; cbn [truthy].
  - destruct (String.eqb value ""); cbn [negb].
    + cbn. by rewrite !app_nil_r.
    + reflexivity.
  - cbn. by rewrite !app_nil_r.
Qed.

End HttpSecurity.

(** C10, as the code has it.  For every http or https server whose GET is
    answered, the probe emits the five per-header checks (and the
    recommendations of the missing headers) and then: when the Server
    header, read as [headers.server || headers.Server], has a value that is
    not empty, one more check, Server Information Disclosure, a warning of
    severity low with [Server: value] as its details, and one more
    recommendation, [hide-server-header]; when the header is absent, or its
    value is empty, neither. *)
Theorem server_header_disclosure (w : World) (server : MCPServer.t)
    (response : AxiosResponse.t) :
  MCPServer.protocol server = Protocol.http \/ MCPServer.protocol server = Protocol.https ->
  axios_get w CheckHttpSecurity (MCPServer.endpoint server) = fulfilled response ->
  let perHeaderChecks := perHeaderCheck response <$> SecurityAnalyzer.securityHeaders in
  let perHeaderRecommendations :=
    omap (perHeaderRecommendation response) SecurityAnalyzer.securityHeaders in
  exists found,
    SecurityAnalyzer.checkHttpSecurity w server = fulfilled found
    /\ length perHeaderChecks = 5%nat
    /\ (forall value,
          SecurityAnalyzer.serverHeaderOf response = Some value -> value <> "" ->
          Findings.checks found
          = perHeaderChecks
            ++ [SecurityCheck.mk "server-header-disclosure" "Server Information Disclosure"
                  SecurityCategory.CONFIGURATION CheckStatus.WARNING Severity.LOW
                  "Server header reveals server information"
                  (Some ("Server: " +:+ value)) None]
          /\ Findings.recommendations found
             = perHeaderRecommendations
               ++ [SecurityRecommendation.mk "hide-server-header" "Hide Server Header"
                     "Consider hiding or minimizing server header information"
                     Severity.LOW SecurityCategory.CONFIGURATION false None])
    /\ (SecurityAnalyzer.serverHeaderOf response = None
        \/ SecurityAnalyzer.serverHeaderOf response = Some "" ->
        Findings.checks found = perHeaderChecks
        /\ Findings.recommendations found = perHeaderRecommendations).
Proof.
  intros Hprotocol Hget perHeaderChecks perHeaderRecommendations.
  eexists. split; [by apply checkHttpSecurity_answered|].
  split; [done|].
  cbn [Findings.checks Findings.recommendations]. split.
  - intros value -> Hvalue.
    destruct (String.eqb_spec value ""); [done|]. done.
  - intros [-> | ->]; cbn; by rewrite !app_nil_r.
Qed.

(** The statement above on a server that answers with
    [Server: nginx/1.25.3]. *)
Lemma server_header_disclosure_witness :
  exists found,
    SecurityAnalyzer.checkHttpSecurity Examples.live Examples.alpha = fulfilled found
    /\ length (Findings.checks found) = 6%nat
    /\ SecurityCheck.details <$> last (Findings.checks found)
       = Some (Some "Server: nginx/1.25.3")
    /\ SecurityRecommendation.id <$> last (Findings.recommendations found)
       = Some "hide-server-header".
Proof.
  destruct (server_header_disclosure Examples.live Examples.alpha _
              (or_introl eq_refl) eq_refl)
    as (found & Hfound & _ & Hpresent & _).
  exists found. split; [exact Hfound|].
  destruct (Hpresent "nginx/1.25.3" eq_refl ltac:(discriminate)) as [-> ->].
  done.
Defined.

(** C10, as it was stated, fails on a Server header whose value is empty:
    the response includes the header, and the probe emits its five
    per-header checks only, without a Server Information Disclosure check
    and without a [hide-server-header] recommendation. *)
Lemma empty_server_header_is_not_disclosed :
  AxiosResponse.headers Examples.hushedResponse !! "server" = Some ""
  /\ exists found,
       SecurityAnalyzer.checkHttpSecurity Examples.hushed Examples.alpha = fulfilled found
       /\ length (Findings.checks found) = 5%nat
       /\ filter (fun check => SecurityCheck.name check = "Server Information Disclosure")
            (Findings.checks found) = []
       /\ filter (fun r => SecurityRecommendation.id r = "hide-server-header")
            (Findings.recommendations found) = [].
Proof.
  split; [done|]. eexists. split; [vm_compute; reflexivity|]. done.
Qed.

(** ** The TLS probe *)

Section Tls.
Import SecurityAnalyzer.
Variables (w : World) (server : MCPServer.t) (url : URL.t).
Variables (protocol : TLSVersion.t) (certificate : PeerCertificate.t).
Hypothesis Hprotocol :
  MCPServer.protocol server = Protocol.https \/ MCPServer.protocol server = Protocol.wss.
Hypothesis Hurl : newURL w (MCPServer.endpoint server) = fulfilled url.
Hypothesis Hconnect :
  tls_connect w (portOf server url) (URL.hostname url)
  = TlsSecureConnect protocol (Some certificate).

Lemma encrypted :
  bool_decide (MCPServer.protocol server <> Protocol.https)
  && bool_decide (MCPServer.protocol server <> Protocol.wss) = false.
Proof. destruct Hprotocol as [-> | ->]; reflexivity. Qed.

(** After the handshake the probe runs its three steps in a row. *)
Lemma checkSSLConfiguration_handshake :
  checkSSLConfiguration w server
  = async (
      tryCatch
        (certificateValidity server (now_checkSSLConfiguration w)
           (PeerCertificate.validFrom certificate) (PeerCertificate.validTo certificate) ;;;
         certificateExpiryWarning (now_checkSSLConfiguration w)
           (PeerCertificate.validTo certificate) ;;;
         tlsVersionSupport server (Some (TLSInfo.mk true true)))
        (fun error =>
           pushCheck (SecurityCheck.mk "ssl-check-error" "SSL Configuration Check"
             SecurityCategory.ENCRYPTION CheckStatus.ERROR Severity.MEDIUM
             "Could not verify SSL configuration" (Some (messageOrUnknown error)) None)) ;;;
      returnFindings).
Proof.
  unfold checkSSLConfiguration. rewrite encrypted, Hurl.
  unfold async, tryCatch, bind, await, getCertificateInfo, checkTLSConfiguration.
  cbv beta iota zeta. rewrite Hconnect. reflexivity.
Qed.

(** After the handshake the probe ends on its catch: both dates are
    invalid, the test of the validity fails, and [toISOString] throws while
    the fail check is being built. *)
Lemma checkSSLConfiguration_certificate :
  checkSSLConfiguration w server
  = fulfilled
      (Findings.mk
         [SecurityCheck.mk "ssl-check-error" "SSL Configuration Check"
            SecurityCategory.ENCRYPTION CheckStatus.ERROR Severity.MEDIUM
            "Could not verify SSL configuration" (Some "Invalid time value") None]
         [] []).
Proof. rewrite checkSSLConfiguration_handshake. reflexivity. Qed.

End Tls.

(** C4, as the code has it.  For every https or wss server whose handshake
    ends and yields a certificate, whatever the dates the certificate holds
    (a [valid_to] before the time of the analysis included), the findings
    of the TLS probe are one check, [ssl-check-error], of status error and
    severity medium, with the details [Invalid time value]: no fail check
    on the validity of the certificate, no [expired-certificate]
    vulnerability and no recommendation.  The probe reads [validFrom] and
    [validTo], which the certificate object does not have; both dates are
    invalid, so the test of the validity fails for every certificate, and
    [toISOString] throws while the fail check is being built. *)
Theorem certificate_dates_are_never_read (w : World) (server : MCPServer.t) (url : URL.t)
    (protocol : TLSVersion.t) (certificate : PeerCertificate.t) :
  MCPServer.protocol server = Protocol.https \/ MCPServer.protocol server = Protocol.wss ->
  newURL w (MCPServer.endpoint server) = fulfilled url ->
  tls_connect w (SecurityAnalyzer.portOf server url) (URL.hostname url)
  = TlsSecureConnect protocol (Some certificate) ->
  SecurityAnalyzer.checkSSLConfiguration w server
  = fulfilled
      (Findings.mk
         [SecurityCheck.mk "ssl-check-error" "SSL Configuration Check"
            SecurityCategory.ENCRYPTION CheckStatus.ERROR Severity.MEDIUM
            "Could not verify SSL configuration" (Some "Invalid time value") None]
         [] []).
Proof.
  intros Hprotocol Hurl Hconnect.
  exact (checkSSLConfiguration_certificate w server url protocol certificate
           Hprotocol Hurl Hconnect).
Qed.

(** The statement above on a certificate that ran out on 2022-01-01, seen
    on 2023-11-14. *)
Lemma certificate_dates_are_never_read_witness :
  PeerCertificate.valid_to Examples.expiredCertificate = "Jan  1 00:00:00 2022 GMT"
  /\ exists found,
       SecurityAnalyzer.checkSSLConfiguration Examples.expiredHost Examples.gamma
       = fulfilled found
       /\ SecurityCheck.id <$> Findings.checks found = ["ssl-check-error"]
       /\ Findings.vulnerabilities found = []
       /\ Findings.recommendations found = [].
Proof.
  split; [reflexivity|]. eexists. split.
  - apply (certificate_dates_are_never_read Examples.expiredHost Examples.gamma
             (URL.mk "gamma.example.com" "") TLSVersion.TLSv1_3 Examples.expiredCertificate
             (or_introl eq_refl) eq_refl eq_refl).
  - done.
Defined.

(** C5, as the code has it.  For every server and every network, the
    findings of the TLS probe hold no TLS Version Support check, pass or
    fail, and no [outdated-tls] vulnerability: the probe ends before it
    reaches the inspection of the TLS configuration.  The inspection
    [checkTLSConfiguration] answers that TLS 1.2 and TLS 1.3 are supported
    for every host; the fail check with the [outdated-tls] vulnerability
    is what the probe would do with an answer that reports neither
    version, and the pass check what it would do with an answer that
    reports one. *)
Theorem tls_version_check_is_never_emitted (w : World) (server : MCPServer.t) :
  let passed :=
    SecurityCheck.mk "tls-version" "TLS Version Support"
      SecurityCategory.ENCRYPTION CheckStatus.PASS Severity.MEDIUM
      "Server supports modern TLS versions" None None in
  let failed :=
    SecurityCheck.mk "tls-version" "TLS Version Support"
      SecurityCategory.ENCRYPTION CheckStatus.FAIL Severity.HIGH
      "Server does not support modern TLS versions" None None in
  let outdated :=
    Vulnerability.mk "outdated-tls" None "Outdated TLS Version"
      "Server only supports outdated TLS versions"
      Severity.HIGH SecurityCategory.ENCRYPTION (MCPServer.endpoint server)
      (Some "Upgrade to support TLS 1.2 or higher") None in
  (exists found,
     SecurityAnalyzer.checkSSLConfiguration w server = fulfilled found
     /\ filter (fun check => SecurityCheck.name check = "TLS Version Support")
          (Findings.checks found) = []
     /\ filter (fun v => Vulnerability.id v = "outdated-tls")
          (Findings.vulnerabilities found) = [])
  /\ (forall hostname port,
        SecurityAnalyzer.checkTLSConfiguration hostname port
        = fulfilled (Some (SecurityAnalyzer.TLSInfo.mk true true)))
  /\ (forall found,
        SecurityAnalyzer.tlsVersionSupport server
          (Some (SecurityAnalyzer.TLSInfo.mk false false)) found
        = (Findings.mk (Findings.checks found ++ [failed])
             (Findings.recommendations found)
             (Findings.vulnerabilities found ++ [outdated]),
           fulfilled tt))
  /\ (forall supportsTLS12 supportsTLS13 found,
        supportsTLS12 || supportsTLS13 = true ->
        SecurityAnalyzer.tlsVersionSupport server
          (Some (SecurityAnalyzer.TLSInfo.mk supportsTLS12 supportsTLS13)) found
        = (Findings.mk (Findings.checks found ++ [passed])
             (Findings.recommendations found)
             (Findings.vulnerabilities found),
           fulfilled tt)).
Proof.
  intros passed failed outdated.
  split; [|split; [done|split]].
  - unfold SecurityAnalyzer.checkSSLConfiguration.
    destruct (bool_decide _ && bool_decide _).
    { eexists. split; [reflexivity|]. done. }
    unfold async, tryCatch, bind at 1 2 3, await at 1.
    destruct (newURL w (MCPServer.endpoint server)) as [url|error].
    2: { eexists. split; [reflexivity|]. done. }
    cbv zeta. unfold bind at 1, await at 1, SecurityAnalyzer.getCertificateInfo.
    destruct (tls_connect w _ _) as [protocol [certificate|]|error|].
    all: eexists; (split; [reflexivity|]); done.
  - done.
  - intros s12 s13 found H. unfold SecurityAnalyzer.tlsVersionSupport.
    cbn [SecurityAnalyzer.TLSInfo.supportsTLS12 SecurityAnalyzer.TLSInfo.supportsTLS13].
    by rewrite H.
Qed.

(** The statement above on a host whose handshake settles on TLS 1.3, with
    a certificate valid from 2023 to 2025, seen on 2023-11-14. *)
Lemma tls_version_check_is_never_emitted_witness :
  exists found,
    SecurityAnalyzer.checkSSLConfiguration Examples.live Examples.gamma = fulfilled found
    /\ filter (fun check => SecurityCheck.name check = "TLS Version Support")
         (Findings.checks found) = []
    /\ filter (fun v => Vulnerability.id v = "outdated-tls")
         (Findings.vulnerabilities found) = [].
Proof.
  exact (proj1 (tls_version_check_is_never_emitted Examples.live Examples.gamma)).
Defined.

(** ** The lists [analyzeServer] hands to the Scorer *)

Section Weights.
Import SecurityAnalyzer.

Lemma weightSum_app cs cs' :
  ScorerSpec.weightSum (cs ++ cs') = ScorerSpec.weightSum cs + ScorerSpec.weightSum cs'.
Proof.
  induction cs as [|c cs IH]; cbn [app ScorerSpec.weightSum foldr]; [done|].
  fold (ScorerSpec.weightSum (cs ++ cs')). fold (ScorerSpec.weightSum cs). lia.
Qed.

Lemma weightSum_nonnegative cs : 0 <= ScorerSpec.weightSum cs.
Proof. pose proof (sums_bounds cs). lia. Qed.

Lemma adds_weaken {A} k k' (m : Js Findings.t A) : adds k m -> k <= k' -> adds k' m.
Proof. intros H Hk found. specialize (H found). lia. Qed.

Lemma adds_ret {A} (a : A) : adds 0 (ret a).
Proof. intros found. cbn. lia. Qed.

Lemma adds_throw {A} error : adds 0 (throw (A := A) error).
Proof. intros found. cbn. lia. Qed.

Lemma adds_await {A} (p : settled A) : adds 0 (await p).
Proof. intros found. cbn. lia. Qed.

Lemma adds_pushCheck check :
  adds (ScorerSpec.weight (SecurityCheck.severity check)) (pushCheck check).
Proof.
  intros found. unfold pushCheck, modify. cbn [fst Findings.checks].
  rewrite weightSum_app. cbn [ScorerSpec.weightSum foldr]. lia.
Qed.

Lemma adds_pushCheck_weighing check k :
  ScorerSpec.weight (SecurityCheck.severity check) = k -> adds k (pushCheck check).
Proof. intros <-. apply adds_pushCheck. Qed.

Lemma adds_pushRecommendation r : adds 0 (pushRecommendation r).
Proof. intros found. cbn [pushRecommendation modify fst Findings.checks]. lia. Qed.

Lemma adds_pushVulnerability v : adds 0 (pushVulnerability v).
Proof. intros found. cbn [pushVulnerability modify fst Findings.checks]. lia. Qed.

Lemma adds_bind {A B} k1 k2 (m : Js Findings.t A) (k : A -> Js Findings.t B) :
  adds k1 m -> (forall a, adds k2 (k a)) -> 0 <= k2 -> adds (k1 + k2) (bind m k).
Proof.
  intros Hm Hk Hk2 found. specialize (Hm found). unfold bind.
  destruct (m found) as [found' [a|error]]; cbn [fst] in *.
  - specialize (Hk a found'). lia.
  - lia.
Qed.

Lemma adds_tryCatch {A} k1 k2 (body : Js Findings.t A) handler :
  adds k1 body -> (forall error, adds k2 (handler error)) -> 0 <= k2 ->
  adds (k1 + k2) (tryCatch body handler).
Proof.
  intros Hb Hh Hk2 found. specialize (Hb found). unfold tryCatch.
  destruct (body found) as [found' [a|error]]; cbn [fst] in *.
  - lia.
  - specialize (Hh error found'). lia.
Qed.

Lemma adds_if {A} k1 k2 (b : bool) (m1 m2 : Js Findings.t A) :
  adds k1 m1 -> adds k2 m2 -> adds (Z.max k1 k2) (if b then m1 else m2).
Proof. intros H1 H2. destruct b; eapply adds_weaken; eauto; lia. Qed.

Lemma adds_option {A B} k1 k2 (x : option B) (f : B -> Js Findings.t A) n :
  (forall b, adds k1 (f b)) -> adds k2 n ->
  adds (Z.max k1 k2) (match x with Some b => f b | None => n end).
Proof.
  intros H1 H2. destruct x; eapply adds_weaken; eauto; lia.
Qed.

Lemma adds_forOf {A} k (xs : list A) (body : A -> Js Findings.t unit) :
  (forall x, adds k (body x)) -> 0 <= k ->
  adds (Z.of_nat (length xs) * k) (forOf xs body).
Proof.
  intros Hb Hk. induction xs as [|x xs IH]; cbn [forOf length].
  - apply adds_ret.
  - eapply adds_weaken; [apply adds_bind; [apply Hb | intros; apply IH | lia] | lia].
Qed.

Lemma yields_returnFindings : yields 0 returnFindings.
Proof. intros found found' value [= <- <-]. lia. Qed.

Lemma yields_bind {A} k1 k2 (m : Js Findings.t A) (k : A -> Js Findings.t Findings.t) :
  adds k1 m -> (forall a, yields k2 (k a)) -> yields (k1 + k2) (bind m k).
Proof.
  intros Hm Hk found found' value. specialize (Hm found). unfold bind.
  destruct (m found) as [found0 [a|error]]; cbn [fst] in *; [|done].
  intros H. specialize (Hk a found0 found' value H). lia.
Qed.

Lemma yields_if k1 k2 (b : bool) (m1 m2 : Js Findings.t Findings.t) :
  yields k1 m1 -> yields k2 m2 -> yields (Z.max k1 k2) (if b then m1 else m2).
Proof.
  intros H1 H2 found found' value H. destruct b.
  - specialize (H1 _ _ _ H). lia.
  - specialize (H2 _ _ _ H). lia.
Qed.

Lemma yields_async k (body : Js Findings.t Findings.t) value :
  yields k body -> async body = fulfilled value ->
  ScorerSpec.weightSum (Findings.checks value) <= k.
Proof.
  intros H. unfold async. destruct (body Findings.empty) as [found' r] eqn:E.
  cbn. intros ->. by apply (H _ _ _ E).
Qed.

End Weights.

(** Bounds are found step by step along the body. *)
Ltac weigh :=
  lazymatch goal with
  | |- adds _ (let _ := _ in _) => cbv zeta; weigh
  | |- adds _ (bind _ _) => eapply adds_bind; [weigh | intros; weigh | ]
  | |- adds _ (tryCatch _ _) => eapply adds_tryCatch; [weigh | intros; weigh | ]
  | |- adds _ (match _ with Some _ => _ | None => _ end) =>
      eapply adds_option; [intros; weigh | weigh]
  | |- adds _ (if _ then _ else _) => eapply adds_if; weigh
  | |- adds _ (SecurityAnalyzer.forOf _ _) => eapply adds_forOf; [intros; weigh | ]
  | |- adds _ (ret _) => apply adds_ret
  | |- adds _ (throw _) => apply adds_throw
  | |- adds _ (await _) => apply adds_await
  | |- adds _ (pushCheck _) =>
      eapply adds_pushCheck_weighing;
      cbn [ScorerSpec.weight SecurityCheck.severity]; reflexivity
  | |- adds _ (pushRecommendation _) => apply adds_pushRecommendation
  | |- adds _ (pushVulnerability _) => apply adds_pushVulnerability
  | |- adds _ (SecurityAnalyzer.certificateValidity _ _ _ _) =>
      unfold SecurityAnalyzer.certificateValidity; weigh
  | |- adds _ (SecurityAnalyzer.certificateExpiryWarning _ _) =>
      unfold SecurityAnalyzer.certificateExpiryWarning; weigh
  | |- adds _ (SecurityAnalyzer.tlsVersionSupport _ _) =>
      unfold SecurityAnalyzer.tlsVersionSupport; weigh
  | |- adds _ (SecurityAnalyzer.securityHeaderCheck _ _) =>
      unfold SecurityAnalyzer.securityHeaderCheck; weigh
  | |- adds _ (SecurityAnalyzer.probeEndpoint _ _ _) =>
      unfold SecurityAnalyzer.probeEndpoint; weigh
  | |- adds _ (match ?x with _ => _ end) => destruct x; weigh
  | |- yields _ (let _ := _ in _) => cbv zeta; weigh
  | |- yields _ (bind _ _) => eapply yields_bind; [weigh | intros; weigh]
  | |- yields _ (if _ then _ else _) => eapply yields_if; weigh
  | |- yields _ returnFindings => apply yields_returnFindings
  end.

(** Side conditions of [weigh] are comparisons of numerals. *)
Ltac weighed :=
  lazymatch goal with
  | |- (_ <= _)%Z => vm_compute; discriminate
  end.

Ltac weighs H :=
  eapply Z.le_trans; [eapply yields_async; [|exact H]; weigh; weighed | weighed].

Section ProbeWeights.
Import SecurityAnalyzer.
Variables (w : World) (server : MCPServer.t).

Lemma checkEndpointAvailability_weight value :
  checkEndpointAvailability w server = fulfilled value ->
  ScorerSpec.weightSum (Findings.checks value) <= 18.
Proof. intros H. weighs H. Qed.

Lemma checkSSLConfiguration_weight value :
  checkSSLConfiguration w server = fulfilled value ->
  ScorerSpec.weightSum (Findings.checks value) <= 23.
Proof. intros H. weighs H. Qed.

Lemma checkAuthentication_weight value :
  checkAuthentication w server = fulfilled value ->
  ScorerSpec.weightSum (Findings.checks value) <= 12.
Proof. intros H. weighs H. Qed.

Lemma checkHttpSecurity_weight value :
  checkHttpSecurity w server = fulfilled value ->
  ScorerSpec.weightSum (Findings.checks value) <= 14.
Proof. intros H. weighs H. Qed.

Lemma checkAPIEndpoints_weight value :
  checkAPIEndpoints w server = fulfilled value ->
  ScorerSpec.weightSum (Findings.checks value) <= 10.
Proof. intros H. weighs H. Qed.

Lemma checkRateLimit_weight value :
  checkRateLimit server = fulfilled value ->
  ScorerSpec.weightSum (Findings.checks value) <= 5.
Proof. intros H. weighs H. Qed.

Lemma checkCORSConfiguration_weight value :
  checkCORSConfiguration w server = fulfilled value ->
  ScorerSpec.weightSum (Findings.checks value) <= 7.
Proof. intros H. weighs H. Qed.

End ProbeWeights.

(** Whatever the server and the world, [analyzeServer] ends in a result,
    writes nothing on the console, hands the Scorer checks whose weights
    add up to 89 at most, and stamps the result with the grade the
    specification describes for its checks. *)
Theorem analyzeServer_grade_is_specified (w : World) (server : MCPServer.t)
    (console : Console) :
  exists result,
    SecurityAnalyzer.analyzeServer w server console = (console, fulfilled result)
    /\ ScorerSpec.weightSum (SecurityAnalysisResult.checks result) <= 89
    /\ SecurityAnalysisResult.overallScore result
       = ScorerSpec.grade (SecurityAnalysisResult.checks result).
Proof.
  unfold SecurityAnalyzer.analyzeServer. rewrite analyzeSettled_spec.
  unfold SecurityAnalyzer.runChecks.
  destruct (checkEndpointAvailability_fulfilled w server) as [f1 E1].
  destruct (checkSSLConfiguration_fulfilled w server) as [f2 E2].
  destruct (checkAuthentication_fulfilled w server) as [f3 E3].
  destruct (checkHttpSecurity_fulfilled w server) as [f4 E4].
  destruct (checkAPIEndpoints_fulfilled w server) as [f5 E5].
  destruct (checkRateLimit_fulfilled server) as [f6 E6].
  destruct (checkCORSConfiguration_fulfilled w server) as [f7 E7].
  pose proof (checkEndpointAvailability_weight w server f1 E1).
  pose proof (checkSSLConfiguration_weight w server f2 E2).
  pose proof (checkAuthentication_weight w server f3 E3).
  pose proof (checkHttpSecurity_weight w server f4 E4).
  pose proof (checkAPIEndpoints_weight w server f5 E5).
  pose proof (checkRateLimit_weight server f6 E6).
  pose proof (checkCORSConfiguration_weight w server f7 E7).
  rewrite E1, E2, E3, E4, E5, E6, E7. unfold SecurityAnalyzer.checkSecurityHeaders.
  cbn [rejections fulfilledValues fmap list_fmap mergeFindings Findings.empty
       Findings.checks Findings.recommendations Findings.vulnerabilities concat app].
  rewrite app_nil_r.
  eexists. split; [reflexivity|].
  cbn [SecurityAnalysisResult.checks SecurityAnalysisResult.overallScore].
  assert (Hweight :
    ScorerSpec.weightSum
      (Findings.checks f1 ++ Findings.checks f2 ++ Findings.checks f3 ++ Findings.checks f4
       ++ Findings.checks f5 ++ Findings.checks f6 ++ Findings.checks f7 ++ []) <= 89).
  { rewrite !weightSum_app. cbn [ScorerSpec.weightSum foldr]. lia. }
  split; [exact Hweight|].
  apply calculateSecurityScore_bounded. change (2 ^ 40) with 1099511627776. lia.
Qed.

(** ** [chunkArray] *)

Section ChunkArray.
Import DiscoveryService.
Context {T : Type}.
Implicit Types (array : list T) (chunks : list (list T)).



Lemma chunkArrayFrom_stuck (size : Z) (fuel : nat) array (i : Z) chunks :
  size <= 0 -> i <= 0 -> array <> [] ->
  chunkArrayFrom fuel array size i chunks = None.
Proof.
  intros Hsize Hi Harray. revert i chunks Hi.
  assert (0 < Z.of_nat (length array)) by (destruct array; [done|cbn; lia]).
  induction fuel as [|fuel IH]; intros i chunks Hi; cbn [chunkArrayFrom];
    destruct (Z.ltb_spec i (Z.of_nat (length array))); try lia; [done|].
  apply IH. lia.
Qed.


End ChunkArray.



(** ** Local arrays and settled promises *)

Section LocalArrays.
Context {S T : Type}.

Lemma returns_lift {A} (m : Js S A) : returns m -> returns (lift (T := T) m).
Proof.
  intros Hm [s t]. destruct (Hm s) as (s' & a & E).
  exists (s', t), a. unfold lift. cbn [fst snd]. by rewrite E.
Qed.

Lemma returns_returnArray (body : Js (S * list T) unit) :
  returns body -> returns (returnArray body).
Proof.
  intros Hb s. destruct (Hb (s, [])) as ([s' array] & [] & E).
  exists s', array. unfold returnArray. by rewrite E.
Qed.

Lemma returns_settle {A} (m : Js S A) : returns (settle m).
Proof. intros s. unfold settle. destruct (m s) as [s' r]. by exists s', r. Qed.

Lemma returns_mapJs {A B} (f : A -> Js S B) (xs : list A) :
  (forall x, returns (f x)) -> returns (mapJs f xs).
Proof.
  intros Hf. induction xs as [|x xs IH]; cbn [mapJs]; [apply returns_ret|].
  apply returns_bind; [apply Hf|]. intros y.
  apply returns_bind; [apply IH|]. intros ys. apply returns_ret.
Qed.

End LocalArrays.

Create HintDb discovery discriminated.
#[local] Hint Resolve returns_ret returns_modify returns_await returns_settle : discovery.
#[local] Hint Extern 1 (returns (push _)) => apply returns_modify : discovery.
#[local] Hint Extern 1 (returns (pushAll _)) => apply returns_modify : discovery.
#[local] Hint Extern 1 (returns (DiscoveryService.warn _ _)) =>
  apply returns_modify : discovery.
#[local] Hint Extern 1 (returns (DiscoveryService.error _ _)) =>
  apply returns_modify : discovery.
#[local] Hint Extern 2 (returns (lift _)) => apply returns_lift : discovery.
#[local] Hint Extern 2 (returns (returnArray _)) => apply returns_returnArray : discovery.
#[local] Hint Extern 2 (returns (bind _ _)) => apply returns_bind; [|intros] : discovery.
#[local] Hint Extern 2 (returns (tryCatch _ _)) =>
  apply returns_tryCatch; intros : discovery.
#[local] Hint Extern 2 (returns (SecurityAnalyzer.forOf _ _)) =>
  apply returns_forOf; intros : discovery.
#[local] Hint Extern 2 (returns (mapJs _ _)) => apply returns_mapJs; intros : discovery.

(** ** [DiscoveryService]: what cannot throw *)

Section DiscoveryReturns.
Import DiscoveryService.
Variable w : Env.

Lemma returns_dateNow : returns (dateNow w).
Proof. intros s. by eexists _, _. Qed.

Lemma returns_parseConfigFile filePath : returns (parseConfigFile w filePath).
Proof. unfold parseConfigFile. auto 10 with discovery. Qed.

Lemma returns_parsePackageJson filePath : returns (parsePackageJson w filePath).
Proof. unfold parsePackageJson. auto 10 with discovery. Qed.

Lemma returns_pushIf {S} (server : option MCPServer.t) : returns (pushIf (S := S) server).
Proof. destruct server; cbn [pushIf]; auto with discovery. Qed.



Lemma returns_discoverFromSource source timeout :
  returns (discoverFromSource w source timeout).
Proof.
  unfold discoverFromSource.
  apply returns_bind; [apply returns_dateNow|]. intros startTime.
  apply returns_tryCatch. intros error.
  apply returns_bind; [apply returns_dateNow|]. intros finish. apply returns_ret.
Qed.

End DiscoveryReturns.

(** ** [discoverFromSource] and [discoverServers] *)

Section Discovery.
Import DiscoveryService.
Variable w : Env.

Lemma discoverFromSource_shape source timeout s :
  exists s' result,
    discoverFromSource w source timeout s = (s', fulfilled result)
    /\ DiscoveryResult.source result = DiscoverySource.type source
    /\ (DiscoveryResult.errors result = []
        \/ DiscoveryResult.servers result = []
           /\ exists message, DiscoveryResult.errors result = [message])
    /\ DiscoveryResult.duration result = clock w (pred (ticks s')) - clock w (ticks s).
Proof.
  unfold discoverFromSource, bind, tryCatch, dateNow. cbn [ticks console].
  match goal with |- context [?body (mkState _ _)] =>
    destruct (body (mkState (console s) (Datatypes.S (ticks s)))) as [s1 [servers|error]]
  end; cbn [ret ticks console]; eexists _, _; (split; [reflexivity|]);
    cbn [DiscoveryResult.source DiscoveryResult.errors DiscoveryResult.servers
         DiscoveryResult.duration ticks pred]; eauto 10.
Qed.






End Discovery.

(** ** What each kind of source answers *)

Section Sources.
Import DiscoveryService.
Variable w : Env.

(** DiscoverFromSource never rejects.  From every state it ends in a
    result that names the type of the source; the result lists no error,
    or it lists exactly one and no server; its duration is the last
    reading of the clock minus the first. *)
Theorem discoverFromSource_never_rejects (source : DiscoverySource.t) (timeout : Z)
    (s : State) :
  exists s' result,
    discoverFromSource w source timeout s = (s', fulfilled result)
    /\ DiscoveryResult.source result = DiscoverySource.type source
    /\ (DiscoveryResult.errors result = []
        \/ DiscoveryResult.servers result = []
           /\ exists message, DiscoveryResult.errors result = [message])
    /\ DiscoveryResult.duration result = clock w (pred (ticks s')) - clock w (ticks s).
Proof. apply discoverFromSource_shape. Qed.



(** A source of a type the service does not know is answered at once:
    no server, the one error [Unknown source type: <type>], the console
    left as it was, and the clock read twice. *)
Theorem unknown_source_type_is_reported (source : DiscoverySource.t) (timeout : Z)
    (s : State) :
  DiscoverySource.type source ∉ ["local"; "registry"; "api"; "vscode"] ->
  discoverFromSource w source timeout s
  = (mkState (console s) (2 + ticks s),
     fulfilled (DiscoveryResult.mk (DiscoverySource.type source) []
                  ["Unknown source type: " +:+ DiscoverySource.type source]
                  (clock w (1 + ticks s) - clock w (ticks s)))).
Proof.
  intros Htype. unfold discoverFromSource.
  repeat match goal with
  | |- context [String.eqb (DiscoverySource.type source) ?t] =>
      destruct (String.eqb_spec (DiscoverySource.type source) t) as [E|_];
      [exfalso; apply Htype; rewrite E; set_solver|]
  end.
  reflexivity.
Qed.

(** An [api] source without a URL is answered without a request: no
    server and the one error [API URL is required for API discovery]. *)
Theorem api_source_requires_url (source : DiscoverySource.t) (timeout : Z) (s : State) :
  DiscoverySource.type source = "api" ->
  truthy (DiscoverySource.url (DiscoverySource.config source)) = false ->
  discoverFromSource w source timeout s
  = (mkState (console s) (2 + ticks s),
     fulfilled (DiscoveryResult.mk "api" []
                  ["API URL is required for API discovery"]
                  (clock w (1 + ticks s) - clock w (ticks s)))).
Proof.
  intros Htype Hurl. unfold discoverFromSource, discoverFromAPI.
  rewrite Htype, Hurl. reflexivity.
Qed.


End Sources.

Lemma unknown_source_type_is_reported_witness :
  DiscoveryService.discoverFromSource DiscoveryExamples.desk DiscoveryExamples.ftp 5000
    DiscoveryExamples.start
  = (DiscoveryService.mkState [] 2,
     fulfilled (DiscoveryResult.mk "ftp" [] ["Unknown source type: ftp"] 1)).
Proof.
  apply (unknown_source_type_is_reported DiscoveryExamples.desk DiscoveryExamples.ftp 5000
           DiscoveryExamples.start).
  apply (bool_decide_unpack _). vm_compute. exact I.
Defined.

Lemma api_source_requires_url_witness :
  DiscoveryService.discoverFromSource DiscoveryExamples.desk DiscoveryExamples.api 5000
    DiscoveryExamples.start
  = (DiscoveryService.mkState [] 2,
     fulfilled (DiscoveryResult.mk "api" [] ["API URL is required for API discovery"] 1)).
Proof.
  apply (api_source_requires_url DiscoveryExamples.desk DiscoveryExamples.api 5000
           DiscoveryExamples.start); reflexivity.
Defined.


(** ** [normalizeServerData] *)

Section Normalize.
Import DiscoveryService.
Variable w : Env.






Lemma normalizeServerData_null source s :
  normalizeServerData w None source s = (s, rejected (nullRead "endpoint")).
Proof. reflexivity. Qed.



End Normalize.


(** ** The registry *)

Section Registry.
Import DiscoveryService.
Variable w : Env.


(** A registry request that fails is reported, not thrown: the source
    yields no server and the one error
    [Registry request failed: <message of the failure>]. *)
Theorem failed_registry_request_is_reported (source : DiscoverySource.t) (timeout : Z)
    (s : State) (failure : thrown) :
  DiscoverySource.type source = "registry" ->
  isAxiosError w failure = true ->
  axios_get w (registryUrlOf source) timeout requestHeaders None = rejected failure ->
  discoverFromSource w source timeout s
  = (mkState (console s) (2 + ticks s),
     fulfilled (DiscoveryResult.mk "registry" []
                  ["Registry request failed: " +:+ errorMessage failure]
                  (clock w (1 + ticks s) - clock w (ticks s)))).
Proof.
  intros Htype Haxios Hget.
  unfold discoverFromSource, discoverFromRegistry. rewrite Htype.
  fold (registryUrlOf source).
  unfold bind, tryCatch, await, dateNow. cbn [String.eqb Ascii.eqb Bool.eqb].
  rewrite Hget, Haxios. reflexivity.
Qed.

End Registry.


(** ** [discoverServers] *)

Section DiscoverServers.
Import DiscoveryService.


Lemma discoverServers_stuck (w : Env) (config : DiscoveryConfig.t) (n : Z) (fuel : nat) :
  DiscoveryConfig.maxConcurrent config = Some n -> n < 0 ->
  enabledSources config <> [] ->
  discoverServers fuel w config = None.
Proof.
  intros Hmax Hn Henabled. unfold discoverServers. fold (enabledSources config).
  rewrite Hmax. cbn [orNumber]. destruct (Z.eqb_spec n 0); [lia|].
  unfold chunkArray. by rewrite chunkArrayFrom_stuck by (done || lia).
Qed.

End DiscoverServers.



(** A negative [--parallel] keeps discovery from ever answering.  The
    text of the option is parsed into [maxConcurrent]; with a negative
    value there and at least one enabled source, the loop of chunkArray
    never reaches its end: discoverServers answers for no number of
    turns. *)
Theorem negative_parallel_never_returns (cli : MCPSecurityAuditorCLI.Env)
    (w : DiscoveryService.Env) (config : DiscoveryConfig.t) (options : CLIOptions.t)
    (text : string) (n : Z) (fuel : nat) :
  CLIOptions.parallel options = Some text ->
  text <> "" ->
  MCPSecurityAuditorCLI.parseInt cli text = Some n ->
  n < 0 ->
  enabledSources config <> [] ->
  DiscoveryService.discoverServers fuel w
    (MCPSecurityAuditorCLI.applyOptionsToConfig cli config options) = None.
Proof.
  intros Hparallel Htext Hparse Hn Henabled.
  apply discoverServers_stuck with n; [|done|].
  - unfold MCPSecurityAuditorCLI.applyOptionsToConfig. rewrite Hparallel.
    cbn [truthy orString]. destruct (String.eqb_spec text ""); [done|]. cbn [negb].
    rewrite Hparse. by destruct (CLIOptions.exclude options), (truthy _).
  - unfold enabledSources in *.
    unfold MCPSecurityAuditorCLI.applyOptionsToConfig.
    by destruct (CLIOptions.exclude options), (truthy (CLIOptions.timeout options)),
         (truthy (CLIOptions.parallel options)).
Qed.

Lemma negative_parallel_never_returns_witness :
  DiscoveryService.discoverServers 1000 DiscoveryExamples.desk
    (MCPSecurityAuditorCLI.applyOptionsToConfig DiscoveryExamples.terminal
       (DiscoveryExamples.configuration (Some 5))
       (DiscoveryExamples.typed "-1" None)) = None.
Proof.
  apply (negative_parallel_never_returns DiscoveryExamples.terminal DiscoveryExamples.desk
           (DiscoveryExamples.configuration (Some 5))
           (DiscoveryExamples.typed "-1" None) "-1" (-1) 1000).
  - reflexivity.
  - discriminate.
  - reflexivity.
  - lia.
  - vm_compute. discriminate.
Defined.

(** The patterns to exclude are never read.  Whatever [--exclude]
    lists, and whatever the configuration holds as [excludePatterns],
    discoverServers does what it does without them. *)
Theorem exclude_patterns_are_ignored (cli : MCPSecurityAuditorCLI.Env)
    (w : DiscoveryService.Env) (config : DiscoveryConfig.t) (options : CLIOptions.t)
    (patterns : option (list string)) (fuel : nat) :
  DiscoveryService.discoverServers fuel w
    (MCPSecurityAuditorCLI.applyOptionsToConfig cli config options)
  = DiscoveryService.discoverServers fuel w
      (MCPSecurityAuditorCLI.applyOptionsToConfig cli
         (DiscoveryConfig.mk (DiscoveryConfig.sources config)
            (DiscoveryConfig.timeout config) (DiscoveryConfig.maxConcurrent config)
            patterns)
         (CLIOptions.mk (CLIOptions.config options) (CLIOptions.output options)
            (CLIOptions.format options) (CLIOptions.verbose options)
            (CLIOptions.timeout options) None (CLIOptions.include options)
            (CLIOptions.parallel options))).
Proof.
  unfold MCPSecurityAuditorCLI.applyOptionsToConfig, DiscoveryService.discoverServers.
  cbn [CLIOptions.timeout CLIOptions.parallel CLIOptions.exclude].
  by destruct (CLIOptions.exclude options), (truthy (CLIOptions.timeout options)),
       (truthy (CLIOptions.parallel options)).
Qed.

(** ** Identifiers and configuration files *)

Section Identifiers.
Import DiscoveryService.








End Identifiers.




(** ** The overall score of a report *)

Section OverallScore.
Import ReportGenerator OverallScoreSpec.

Lemma value_bounds score : 1 <= value score <= 5.
Proof. destruct score; cbn; lia. Qed.

Lemma total_bounds scores :
  Z.of_nat (length scores) <= total scores <= 5 * Z.of_nat (length scores).
Proof.
  induction scores as [|score scores IH]; cbn [total foldr length]; [lia|].
  fold (total scores). pose proof (value_bounds score). lia.
Qed.

Lemma scoreValues_literal score : scoreValues score = literal (value score).
Proof. by destruct score. Qed.

(** The sum of the values stays exact in binary64. *)
Lemma foldl_plus_binary64 scores sum :
  0 <= sum -> sum + total scores < 2 ^ 40 ->
  foldl (fun sum score => plus sum (scoreValues score)) (literal sum) scores
  = literal (N := spec_float) (sum + total scores).
Proof.
  revert sum. induction scores as [|score scores IH]; intros sum Hsum Hbound;
    cbn [foldl total foldr].
  - f_equal. lia.
  - fold (total scores) in *. cbn [total foldr] in Hbound. fold (total scores) in Hbound.
    pose proof (value_bounds score). pose proof (total_bounds scores).
    change (2 ^ 40) with 1099511627776 in Hbound.
    rewrite scoreValues_literal, plus_literal
      by (change (2 ^ 52) with 4503599627370496; lia).
    rewrite IH by (change (2 ^ 40) with 1099511627776; lia). f_equal. lia.
Qed.

(** [average >= k / 2] in binary64, for the four thresholds of
    [calculateOverallScore]. *)
Lemma atLeast_average sum count k :
  1 <= count < 2 ^ 40 -> count <= sum <= 5 * count -> In k [9; 7; 5; 3] ->
  atLeast (divide (literal sum) (literal (N := spec_float) count)) (Binary64.ofZ k (-1))
  = (k * count <=? 2 * sum).
Proof.
  intros Hcount Hsum Hin.
  assert (H40 : 2 ^ 40 = 1099511627776) by reflexivity.
  assert (H52 : 2 ^ 52 = 4503599627370496) by reflexivity.
  assert (H53 : 2 ^ 53 = 9007199254740992) by reflexivity.
  rewrite (literal_halves sum), halves_normal, literal_normal by lia.
  cbn [atLeast divide Binary64.number].
  change Binary64.prec with 53. change Binary64.emax with 1024.
  destruct (SFdiv_halves (2 * sum) count ltac:(lia) ltac:(lia)) as [_ Hq].
  apply eq_true_iff_eq. rewrite Z.leb_le.
  cbn [In] in Hin. destruct Hin as [<-|[<-|[<-|[<-|[]]]]].
  - change (Binary64.ofZ 9 (-1))
      with (S754_finite false (Z.to_pos 5066549580791808) (-50)).
    rewrite (Hq 5066549580791808 (-50) 450) by (cbn; lia). lia.
  - change (Binary64.ofZ 7 (-1))
      with (S754_finite false (Z.to_pos 7881299347898368) (-51)).
    rewrite (Hq 7881299347898368 (-51) 350) by (cbn; lia). lia.
  - change (Binary64.ofZ 5 (-1))
      with (S754_finite false (Z.to_pos 5629499534213120) (-51)).
    rewrite (Hq 5629499534213120 (-51) 250) by (cbn; lia). lia.
  - change (Binary64.ofZ 3 (-1))
      with (S754_finite false (Z.to_pos 6755399441055744) (-52)).
    rewrite (Hq 6755399441055744 (-52) 150) by (cbn; lia). lia.
Qed.

(** The quotient of binary64 falls on the side of each threshold where the
    exact average is. *)
Lemma scoreOfAverage_binary64 sum count :
  1 <= count < 2 ^ 40 -> count <= sum <= 5 * count ->
  scoreOfAverage (divide (literal sum) (literal (N := spec_float) count))
  = ofAverage sum count.
Proof.
  intros Hcount Hsum. unfold scoreOfAverage, ofAverage.
  by rewrite !atLeast_average by (cbn; lia || tauto).
Qed.

Lemma calculateOverallScore_binary64 scores :
  Z.of_nat (length scores) < 2 ^ 32 -> calculateOverallScore scores = overall scores.
Proof.
  intros Hlen. unfold calculateOverallScore, overall.
  destruct scores as [|score scores]; [done|].
  rewrite bool_decide_false by done. cbv zeta.
  pose proof (total_bounds (score :: scores)) as Hbounds.
  change (2 ^ 32) with 4294967296 in Hlen.
  rewrite (foldl_plus_binary64 (score :: scores) 0)
    by (change (2 ^ 40) with 1099511627776; lia).
  rewrite Z.add_0_l.
  apply scoreOfAverage_binary64; cbn [length] in *;
    change (2 ^ 40) with 1099511627776; lia.
Qed.

Lemma total_replicate (n : nat) score :
  total (replicate n score) = Z.of_nat n * value score.
Proof.
  induction n as [|n IH]; cbn [replicate total foldr]; [lia|].
  fold (total (replicate n score)). rewrite IH. lia.
Qed.

Lemma total_permutation scores scores' :
  scores ≡ₚ scores' -> total scores = total scores'.
Proof.
  induction 1 as [|score ? ? _ IH|score score' ?|? ? ? _ IH1 _ IH2];
    cbn [total foldr]; try fold (total l) in *; try fold (total l') in *; lia.
Qed.

End OverallScore.

(** CalculateOverallScore, run on JavaScript numbers, gives for every
    array of scores what the average of their values gives in exact
    arithmetic: C for no score at all; otherwise A from an average of 4.5
    on, B from 3.5 on, C from 2.5 on, D from 1.5 on and F below, each
    threshold included.  (An array has fewer than [2^32] elements.) *)
Theorem overall_score_is_the_exact_average (scores : list SecurityScore.t) :
  Z.of_nat (length scores) < 2 ^ 32 ->
  ReportGenerator.calculateOverallScore scores = OverallScoreSpec.overall scores.
Proof. apply calculateOverallScore_binary64. Qed.

Lemma overall_score_is_the_exact_average_witness :
  ReportGenerator.calculateOverallScore [SecurityScore.EXCELLENT; SecurityScore.GOOD]
  = OverallScoreSpec.overall [SecurityScore.EXCELLENT; SecurityScore.GOOD].
Proof.
  apply (overall_score_is_the_exact_average [SecurityScore.EXCELLENT; SecurityScore.GOOD]).
  reflexivity.
Defined.

(** Servers that all have the same score give that score to the
    report: the overall score of [count] times the score [score], for a
    [count] of 1 at least, is [score]. *)
Theorem overall_score_of_equal_scores (count : nat) (score : SecurityScore.t) :
  (1 <= count)%nat -> Z.of_nat count < 2 ^ 32 ->
  ReportGenerator.calculateOverallScore (replicate count score) = score.
Proof.
  intros Hcount Hbound.
  rewrite calculateOverallScore_binary64 by (by rewrite length_replicate).
  unfold OverallScoreSpec.overall.
  destruct count as [|count]; [lia|]. cbn [replicate].
  change (score :: replicate count score) with (replicate (S count) score).
  rewrite total_replicate, length_replicate. unfold OverallScoreSpec.ofAverage.
  destruct score; cbn [OverallScoreSpec.value];
    repeat match goal with
    | |- context [?a <=? ?b] => destruct (Z.leb_spec a b); try lia
    end; reflexivity.
Qed.

Lemma overall_score_of_equal_scores_witness :
  ReportGenerator.calculateOverallScore (replicate 3 SecurityScore.POOR)
  = SecurityScore.POOR.
Proof.
  apply (overall_score_of_equal_scores 3 SecurityScore.POOR); [lia | reflexivity].
Defined.

(** The overall score does not depend on the order of the servers: an
    array of scores and any of its permutations give the same overall
    score. *)
Theorem overall_score_ignores_order (scores scores' : list SecurityScore.t) :
  Z.of_nat (length scores) < 2 ^ 32 -> scores ≡ₚ scores' ->
  ReportGenerator.calculateOverallScore scores
  = ReportGenerator.calculateOverallScore scores'.
Proof.
  intros Hlen Hperm. pose proof (Permutation_length Hperm) as Hlength.
  rewrite !calculateOverallScore_binary64 by (by rewrite <- ?Hlength).
  unfold OverallScoreSpec.overall.
  rewrite (total_permutation _ _ Hperm), Hlength.
  destruct scores, scores'; try done.
Qed.

Lemma overall_score_ignores_order_witness :
  ReportGenerator.calculateOverallScore [SecurityScore.EXCELLENT; SecurityScore.CRITICAL]
  = ReportGenerator.calculateOverallScore [SecurityScore.CRITICAL; SecurityScore.EXCELLENT].
Proof.
  apply (overall_score_ignores_order
           [SecurityScore.EXCELLENT; SecurityScore.CRITICAL]
           [SecurityScore.CRITICAL; SecurityScore.EXCELLENT]).
  - reflexivity.
  - apply perm_swap.
Defined.

(** ** The summary of a report, and the summary of the command line *)

Section Summaries.
Import ReportGenerator.

Lemma count_app {A} (P : A -> Prop) `{!forall x, Decision (P x)} (xs ys : list A) :
  count P (xs ++ ys) = count P xs + count P ys.
Proof. unfold count. rewrite filter_app, length_app. lia. Qed.

Lemma count_nonnegative {A} (P : A -> Prop) `{!forall x, Decision (P x)} (xs : list A) :
  0 <= count P xs <= Z.of_nat (length xs).
Proof. unfold count. pose proof (length_filter P xs). lia. Qed.

(** A [reduce] that adds to its accumulator what [h] makes of each
    element. *)
Lemma foldl_adds {A} (step : Z -> A -> Z) (h : A -> Z) (xs : list A) (a : Z) :
  (forall acc x, step acc x = acc + h x) ->
  foldl step a xs = a + foldr (fun x acc => h x + acc) 0 xs.
Proof.
  intros Hstep. revert a. induction xs as [|x xs IH]; intros a; cbn [foldl foldr]; [lia|].
  rewrite IH, Hstep. lia.
Qed.

Lemma count_iff {A} (P Q : A -> Prop) `{!forall x, Decision (P x)}
    `{!forall x, Decision (Q x)} (xs : list A) :
  (forall x, P x <-> Q x) -> count P xs = count Q xs.
Proof. intros Hiff. unfold count. by rewrite (list_filter_iff P Q xs Hiff). Qed.

Lemma sum_count_bind {A B} (P Q : B -> Prop) `{!forall x, Decision (P x)}
    `{!forall x, Decision (Q x)} (f : A -> list B) (xs : list A) :
  (forall x, P x <-> Q x) ->
  foldr (fun x acc => count P (f x) + acc) 0 xs = count Q (xs ≫= f).
Proof.
  intros Hiff. induction xs as [|x xs IH]; cbn [foldr]; [done|].
  rewrite bind_cons, count_app, IH. by rewrite (count_iff P Q).
Qed.

Lemma sum_length_bind {A B} (f : A -> list B) (xs : list A) :
  foldr (fun x acc => Z.of_nat (length (f x)) + acc) 0 xs = Z.of_nat (length (xs ≫= f)).
Proof.
  induction xs as [|x xs IH]; cbn [foldr]; [done|].
  rewrite bind_cons, length_app, IH. lia.
Qed.

Lemma sum_plus {A} (g h : A -> Z) (xs : list A) :
  foldr (fun x acc => (g x + h x) + acc) 0 xs
  = foldr (fun x acc => g x + acc) 0 xs + foldr (fun x acc => h x + acc) 0 xs.
Proof. induction xs as [|x xs IH]; cbn [foldr]; lia. Qed.

(** The five counts of [createAuditSummary], over the findings of all the
    results put end to end. *)
Lemma createAuditSummary_counts (results : list SecurityAnalysisResult.t) :
  let summary := createAuditSummary results in
  AuditSummary.totalServers summary = Z.of_nat (length results)
  /\ AuditSummary.serversAnalyzed summary
     = count (fun r => (0 < length (SecurityAnalysisResult.checks r))%nat) results
  /\ AuditSummary.criticalVulnerabilities summary
     = count (ranked Severity.CRITICAL) (allVulnerabilities results)
  /\ AuditSummary.highSeverityIssues summary
     = count (ranked Severity.HIGH) (allVulnerabilities results)
       + count highFailure (allChecks results)
  /\ AuditSummary.recommendations summary
     = Z.of_nat (length (allRecommendations results)).
Proof.
  cbv zeta. unfold createAuditSummary.
  cbn [AuditSummary.totalServers AuditSummary.serversAnalyzed
       AuditSummary.criticalVulnerabilities AuditSummary.highSeverityIssues
       AuditSummary.recommendations].
  split; [done|]. split; [done|]. split; [|split].
  - rewrite (foldl_adds _
      (fun result =>
         count (fun v => Vulnerability.severity v = Severity.CRITICAL)
           (SecurityAnalysisResult.vulnerabilities result)))
      by (intros; reflexivity).
    rewrite Z.add_0_l. by apply sum_count_bind.
  - rewrite (foldl_adds _
      (fun result =>
         count (fun v => Vulnerability.severity v = Severity.HIGH)
           (SecurityAnalysisResult.vulnerabilities result)
         + count (fun c => SecurityCheck.severity c = Severity.HIGH
                           /\ SecurityCheck.status c = CheckStatus.FAIL)
             (SecurityAnalysisResult.checks result)))
      by (intros; cbv zeta; rewrite Z.add_assoc; reflexivity).
    rewrite Z.add_0_l, sum_plus. f_equal; by apply sum_count_bind.
  - rewrite (foldl_adds _
      (fun result => Z.of_nat (length (SecurityAnalysisResult.recommendations result))))
      by (intros; reflexivity).
    rewrite Z.add_0_l. by apply sum_length_bind.
Qed.

End Summaries.

Section Analysed.
Import SecurityAnalyzer.

Lemma checkRateLimit_check server :
  exists f, checkRateLimit server = fulfilled f
            /\ Findings.checks f = [rateLimitCheck server].
Proof.
  unfold checkRateLimit, rateLimitCheck, async.
  destruct (MCPServer.metadata server ≫= MCPServerMetadata.rateLimit);
    eexists; split; reflexivity.
Qed.

Lemma analyzeServer_rateLimitCheck w server console :
  exists result,
    analyzeServer w server console = (console, fulfilled result)
    /\ rateLimitCheck server ∈ SecurityAnalysisResult.checks result.
Proof.
  unfold analyzeServer. rewrite analyzeSettled_spec. unfold runChecks.
  destruct (checkEndpointAvailability_fulfilled w server) as [f1 ->].
  destruct (checkSSLConfiguration_fulfilled w server) as [f2 ->].
  destruct (checkAuthentication_fulfilled w server) as [f3 ->].
  destruct (checkHttpSecurity_fulfilled w server) as [f4 ->].
  destruct (checkAPIEndpoints_fulfilled w server) as [f5 ->].
  destruct (checkRateLimit_check server) as (f6 & -> & Hcheck).
  destruct (checkCORSConfiguration_fulfilled w server) as [f7 ->].
  unfold checkSecurityHeaders.
  cbn [rejections fulfilledValues fmap list_fmap mergeFindings Findings.empty
       Findings.checks Findings.recommendations Findings.vulnerabilities concat app].
  rewrite app_nil_r. eexists. split; [reflexivity|].
  cbn [SecurityAnalysisResult.checks]. rewrite Hcheck. set_solver.
Qed.

Lemma analysed_checked result :
  analysed result -> (0 < length (SecurityAnalysisResult.checks result))%nat.
Proof.
  intros (w & server & console & console' & E).
  destruct (analyzeServer_rateLimitCheck w server console) as (result' & E' & Hin).
  assert (result' = result) as <- by congruence.
  destruct (SecurityAnalysisResult.checks result'); [by apply elem_of_nil in Hin|cbn; lia].
Qed.

End Analysed.

(** A declared rate limit passes unverified.  Whatever the network
    answers, the analysis of a server holds the check [Rate Limiting]:
    passed, at medium severity, when the metadata of the server declare a
    rate limit; a warning at low severity when they declare none. *)
Theorem declared_rate_limit_passes_unverified (w : World) (server : MCPServer.t)
    (console : Console) :
  exists result check,
    SecurityAnalyzer.analyzeServer w server console = (console, fulfilled result)
    /\ check ∈ SecurityAnalysisResult.checks result
    /\ SecurityCheck.name check = "Rate Limiting"
    /\ (SecurityCheck.status check, SecurityCheck.severity check)
       = if bool_decide (is_Some (MCPServer.metadata server ≫= MCPServerMetadata.rateLimit))
         then (CheckStatus.PASS, Severity.MEDIUM)
         else (CheckStatus.WARNING, Severity.LOW).
Proof.
  destruct (analyzeServer_rateLimitCheck w server console) as (result & E & Hin).
  exists result, (rateLimitCheck server). split; [done|]. split; [done|].
  unfold rateLimitCheck.
  destruct (MCPServer.metadata server ≫= MCPServerMetadata.rateLimit) as [limit|].
  - rewrite bool_decide_true by (by exists limit). done.
  - rewrite bool_decide_false by (by intros [? [=]]). done.
Qed.

(** The counts of a summary add up.  The summary of two lists of
    results put end to end counts, for servers, analysed servers,
    critical vulnerabilities, issues of high severity and recommendations,
    the sum of what the summaries of the two lists count; and no summary
    counts more analysed servers than servers. *)
Theorem summary_counts_add_up (results results' : list SecurityAnalysisResult.t) :
  let summary := ReportGenerator.createAuditSummary in
  AuditSummary.totalServers (summary (results ++ results'))
  = AuditSummary.totalServers (summary results)
    + AuditSummary.totalServers (summary results')
  /\ AuditSummary.serversAnalyzed (summary (results ++ results'))
     = AuditSummary.serversAnalyzed (summary results)
       + AuditSummary.serversAnalyzed (summary results')
  /\ AuditSummary.criticalVulnerabilities (summary (results ++ results'))
     = AuditSummary.criticalVulnerabilities (summary results)
       + AuditSummary.criticalVulnerabilities (summary results')
  /\ AuditSummary.highSeverityIssues (summary (results ++ results'))
     = AuditSummary.highSeverityIssues (summary results)
       + AuditSummary.highSeverityIssues (summary results')
  /\ AuditSummary.recommendations (summary (results ++ results'))
     = AuditSummary.recommendations (summary results)
       + AuditSummary.recommendations (summary results')
  /\ 0 <= AuditSummary.serversAnalyzed (summary results)
     <= AuditSummary.totalServers (summary results).
Proof.
  cbv zeta.
  destruct (createAuditSummary_counts results) as (-> & -> & -> & -> & ->).
  destruct (createAuditSummary_counts results') as (-> & -> & -> & -> & ->).
  destruct (createAuditSummary_counts (results ++ results')) as (-> & -> & -> & -> & ->).
  unfold allVulnerabilities, allChecks, allRecommendations.
  rewrite !bind_app, !count_app, !length_app.
  pose proof (count_nonnegative
                (fun r => (0 < length (SecurityAnalysisResult.checks r))%nat) results).
  repeat split; lia.
Qed.

(** Every server the analyzer answered for counts as analysed: in the
    summary of results that all come from analyzeServer, [serversAnalyzed]
    is [totalServers]. *)
Theorem every_analysed_server_counts (results : list SecurityAnalysisResult.t) :
  Forall analysed results ->
  AuditSummary.serversAnalyzed (ReportGenerator.createAuditSummary results)
  = AuditSummary.totalServers (ReportGenerator.createAuditSummary results).
Proof.
  intros Hall.
  destruct (createAuditSummary_counts results) as (-> & -> & _).
  unfold ReportGenerator.count. f_equal. f_equal.
  induction Hall as [|result results Hresult _ IH]; [done|].
  rewrite filter_cons_True by (by apply analysed_checked). by rewrite IH.
Qed.

Lemma analysis_analysed (w : World) (server : MCPServer.t) :
  Forall analysed (ReportExamples.analysis w server).
Proof.
  unfold ReportExamples.analysis.
  destruct (SecurityAnalyzer.analyzeServer w server []) as [console' [result|error]] eqn:E;
    cbn [snd]; constructor; [|done].
  by exists w, server, [], console'.
Qed.

Lemma every_analysed_server_counts_witness :
  AuditSummary.serversAnalyzed (ReportGenerator.createAuditSummary ReportExamples.audit)
  = AuditSummary.totalServers (ReportGenerator.createAuditSummary ReportExamples.audit).
Proof.
  apply (every_analysed_server_counts ReportExamples.audit).
  apply Forall_app. split; apply analysis_analysed.
Defined.
